(** * T962a reflow-oven controller: sensor fusion, plot store and profile
      executor

    A shallow embedding of
      - [Firmware/SMT_Oven_RTOS/Sources/max31855.h]   (module [Max31855]),
      - [Software/SMT_Oven_RTOS/Sources/dataPoint.h]  (module [DataPoint]),
      - [Firmware/SMT_Oven_RTOS/Sources/runProfile.cpp] (module [RunProfile]),
      - [Firmware/SMT_Oven/Sources/caseTemperatureMonitor.h]
        (module [CaseTemperatureMonitor]),
    followed by the properties of the controller.

    Conventions.
      - C [int], [uint8_t], [uint16_t] values are integers of [Z]; where the
        source stores into a narrower field the reduction is written out.
        The counters [time] and [timeout] are not reduced: a run would have
        to last 2^31 seconds for them to overflow.
      - C [float] values are rationals of [Q]; the value [NAN] the source
        returns for "no data" is the separate constructor [NaN] of [cfloat].
        The product [temp*FIXED_POINT_SCALE] that [round] turns into a stored
        integer is rounded to binary32 ([fl32]), since [round] can magnify
        its last bit to a whole hundredth; the other sums and quotients are
        exact.  Where a result is claimed to be exact, the computation is
        also carried out in IEEE binary32, or its operands are shown to be
        binary32 numbers whose sum is one too.
      - Function-local [static] variables and file-level globals become
        fields of an explicit state record.
      - Calls into the PID controller, the duty-cycle drivers and the timer are
        recorded, in program order, in a trace of [Action]s.
      - [getTemperature()], the measured oven temperature, is an input of
        each tick; the two calls that one test of the handler can make see
        the same value.
      - The timer call-back and the loops of [runProfile] are two threads
        of control; they are interleaved as one call-back between two rounds
        of a loop.
      - The buttons pressed, the answers to the dialogues and the values
        that the menus read back from the PID controller and the duty-cycle
        drivers are inputs of the menus. *)

From Stdlib Require Import ZArith QArith Qround Qabs Lia Lqa Bool List.
From Stdlib Require Import Floats.SpecFloat.
From stdpp Require Import base list.
Import ListNotations.

Local Open Scope Z_scope.

(** ** C floats *)

Inductive cfloat : Type :=
| NaN
| Fin (q : Q).

(** C's [round]: to the nearest integer, halfway cases away from zero. *)
Definition c_round (q : Q) : Z :=
  if Qle_bool 0 q then Qfloor (q + (1 # 2)) else - Qfloor (- q + (1 # 2)).

(** [2^e], for an exponent of either sign. *)
Definition pow2 (e : Z) : Q :=
  if 0 <=? e then inject_Z (2 ^ e) else (1 / inject_Z (2 ^ (- e)))%Q.

(** To the nearest integer, halfway cases to the even one. *)
Definition round_even (q : Q) : Z :=
  let f := Qfloor q in
  let r := (q - inject_Z f)%Q in
  if Qle_bool r (1 # 2)
  then if Qle_bool (1 # 2) r then (if Z.even f then f else f + 1) else f
  else f + 1.

(** The binary32 exponent of [q]: the [e] with [2^e <= |q| < 2^(e+1)], and
    -126 for the subnormal numbers and zero. *)
Definition binade (q : Q) : Z :=
  let a := Qabs q in
  Z.max (-126)
        (if Qle_bool 1 a then Z.log2 (Qfloor a)
         else - Z.log2_up (Qceiling (/ a))).

(** The result of a [float] operation whose exact value is [q]: [q] rounded
    to the nearest number with a 24-bit significand, halfway cases to the
    even significand (the rounding of the target's FPU and of its software
    library alike).  Overflow to infinity, above 2^128, is not modelled. *)
Definition fl32 (q : Q) : Q :=
  let ulp := pow2 (binade q - 23) in
  (inject_Z (round_even (q / ulp)) * ulp)%Q.

(** A whole number of sixteenths. *)
Definition sixteenths (q : Q) : bool :=
  Qeq_bool (q * 16) (inject_Z (Qfloor (q * 16))).

(** Conversion of a [float] to [int]: the fraction is discarded. *)
Definition c_trunc (q : Q) : Z :=
  if Qle_bool 0 q then Qfloor q else Qceiling q.

(** Storing [round(x)] into a [uint16_t].  The conversion is defined by C for
    values in [0, 65535] only; outside it the model reduces modulo 2^16 and
    stores 0 for [NAN]. *)
Definition to_uint16 (x : cfloat) : Z :=
  match x with
  | NaN => 0
  | Fin q => c_round q mod 65536
  end.

(** [(int16_t)w] for a 16-bit pattern [w]. *)
Definition to_int16 (w : Z) : Z :=
  let w := w mod 65536 in
  if w <? 32768 then w else w - 65536.

Definition sumQ (l : list Q) : Q := fold_right Qplus 0%Q l.

(** Arithmetic mean of a non-empty list of temperatures. *)
Definition mean (l : list Q) : Q :=
  (sumQ l / inject_Z (Z.of_nat (length l)))%Q.

(** IEEE binary32, the [float] of the target, for the one computation whose
    exactness is at stake: a value converted from an integer, and the
    quotient of two values rounded to nearest even. *)
Definition binary32_of_Z (z : Z) : spec_float := binary_normalize 24 128 z 0 false.
Definition binary32_add : spec_float -> spec_float -> spec_float := SFadd 24 128.
Definition binary32_div : spec_float -> spec_float -> spec_float := SFdiv 24 128.
Definition binary32_mul : spec_float -> spec_float -> spec_float := SFmul 24 128.

(** The value of a finite binary32 number. *)
Definition binary32_value (x : spec_float) : Q :=
  match x with
  | S754_finite s m e =>
      ((if s then -1 else 1) * inject_Z (Z.pos m) * pow2 e)%Q
  | _ => 0%Q
  end.

(** ** max31855.h *)

Module Max31855.

Inductive ThermocoupleStatus : Type :=
| TH_ENABLED          (* Enabled and OK *)
| TH_OPEN             (* No probe or open circuit *)
| TH_SHORT_VCC        (* Probe short to Vcc *)
| TH_SHORT_GND        (* Probe short to Gnd *)
| TH_MISSING          (* No response *)
| TH_DISABLED.        (* Available but disabled *)

(** The enumerators' values. *)
Definition code (s : ThermocoupleStatus) : Z :=
  match s with
  | TH_ENABLED => 0
  | TH_OPEN => 1
  | TH_SHORT_VCC => 2
  | TH_SHORT_GND => 3
  | TH_MISSING => 4
  | TH_DISABLED => 7   (* 0b111 *)
  end.

Definition status_eqb (a b : ThermocoupleStatus) : bool := code a =? code b.

(** One sensor: the four bytes it answers on the SPI bus, and its two
    non-volatile settings. *)
Record Sensor : Type := {
  data : Z * Z * Z * Z;     (* data[0..3] as received *)
  offset : Z;               (* Offset to add to reading from probe *)
  enabled : bool            (* Used to disable sensor *)
}.

Record Reading : Type := {
  temperature : cfloat;
  coldReference : cfloat;
  status : ThermocoupleStatus
}.

Definition getReading (s : Sensor) : Reading :=
  let '(d0, d1, d2, d3) := data s in
  (* Temperature = sign-extended 14-bit value, plus the manual offset *)
  let temperature :=
    (inject_Z (Z.shiftr (to_int16 (Z.lor (Z.shiftl d0 8) d1)) 2) / 4
     + inject_Z (offset s))%Q in
  (* Cold junction = sign-extended 12-bit value *)
  let coldReference :=
    (inject_Z (Z.shiftr (to_int16 (Z.lor (Z.shiftl d2 8) d3)) 4) / 16)%Q in
  let rawStatus := Z.land d3 0x07 in
  (* Invalid temperature measurement *)
  let temperature := if rawStatus =? 0 then Fin temperature else NaN in
  (* The source writes 0x111 here, a value that three bits never take *)
  if rawStatus =? 0x111 then
    {| temperature := temperature; coldReference := NaN; status := TH_MISSING |}
  else if negb (Z.land rawStatus 1 =? 0) then
    {| temperature := temperature; coldReference := Fin coldReference; status := TH_OPEN |}
  else if negb (Z.land rawStatus 2 =? 0) then
    {| temperature := temperature; coldReference := Fin coldReference; status := TH_SHORT_GND |}
  else if negb (Z.land rawStatus 4 =? 0) then
    {| temperature := temperature; coldReference := Fin coldReference; status := TH_SHORT_VCC |}
  else if negb (enabled s) then
    {| temperature := temperature; coldReference := Fin coldReference; status := TH_DISABLED |}
  else
    {| temperature := temperature; coldReference := Fin coldReference; status := TH_ENABLED |}.

Definition getEnabledReading (s : Sensor) : Reading :=
  let r := getReading s in
  if status_eqb (status r) TH_DISABLED then
    {| temperature := Fin 0; coldReference := coldReference r; status := status r |}
  else r.

(** Enables/disables the sensor. *)
Definition enable (s : Sensor) (enable : bool) : Sensor :=
  {| data := data s; offset := offset s; enabled := enable |}.

(** Toggles the enabled state of the sensor. *)
Definition toggleEnable (s : Sensor) : Sensor :=
  {| data := data s; offset := offset s; enabled := negb (enabled s) |}.

Definition isEnabled (s : Sensor) : bool := enabled s.

Definition setOffset (s : Sensor) (off : Z) : Sensor :=
  {| data := data s; offset := off; enabled := enabled s |}.

Definition getOffset (s : Sensor) : Z := offset s.

(** The three status bits of the last byte received. *)
Definition rawStatus (s : Sensor) : Z := Z.land (snd (data s)) 0x07.

End Max31855.

(** ** caseTemperatureMonitor.h *)

Module CaseTemperatureMonitor.

Import Max31855.

(** What a call of [checkCaseTemp] does to the case fan.  [Undefined] stands
    for the conversion of NAN to [int]. *)
Inductive FanUpdate : Type :=
| Unchanged
| SetDutyCycle (dutyCycle : Z)
| Undefined.

(** The duty cycle computed from the cold-junction temperature, for the
    template parameters [startTemp] and [maxTemp]. *)
Definition dutyCycleFor (startTemp maxTemp : Z) (coldReference : Q) : Z :=
  let dutyCycle :=
    c_trunc (10 + (100 * (coldReference - inject_Z startTemp))
                  / inject_Z (maxTemp - startTemp))%Q in
  let dutyCycle := if dutyCycle <? 10 then 0 else dutyCycle in
  if 100 <? dutyCycle then 100 else dutyCycle.

Definition checkCaseTemp (startTemp maxTemp : Z) (tempSensor : Sensor) : FanUpdate :=
  let r := getReading tempSensor in
  if code (status r) <? 7 then
    match coldReference r with
    | NaN => Undefined
    | Fin coldReference => SetDutyCycle (dutyCycleFor startTemp maxTemp coldReference)
    end
  else Unchanged.

End CaseTemperatureMonitor.

(** Mode of operation within profile (dataPoint.h).  runProfile.cpp takes its
    [State] from a header that is missing; it names every enumerator below
    but [s_init]. *)
Inductive State : Type :=
| s_off
| s_fail
| s_init
| s_preheat
| s_soak
| s_ramp_up
| s_dwell
| s_ramp_down
| s_complete
| s_manual.

Definition State_code (s : State) : Z :=
  match s with
  | s_off => 0 | s_fail => 1 | s_init => 2 | s_preheat => 3 | s_soak => 4
  | s_ramp_up => 5 | s_dwell => 6 | s_ramp_down => 7 | s_complete => 8
  | s_manual => 9
  end.

Definition State_eqb (a b : State) : bool := State_code a =? State_code b.

(** ** dataPoint.h *)

Module DataPoint.

Import Max31855.

Definition NUM_THERMOCOUPLES : nat := 4.
Definition FIXED_POINT_SCALE : Q := 100.

Definition THERMO_STATUS_OFFSET : Z := 4.
Definition THERMO_STATUS_WIDTH : Z := 3.
Definition THERMO_STATUS_MASK : Z := Z.shiftl 1 3 - 1.
Definition STATE_MASK : Z := 0xF.

Record t : Type := {
  fState_status : Z;        (* uint16_t: |15..13|12..10|9..7|6..4|3..0| *)
  fHeater : Z;              (* uint8_t *)
  fFan : Z;                 (* uint8_t *)
  fTargetTemp : Z;          (* uint16_t *)
  fThermocouples : list Z   (* uint16_t[NUM_THERMOCOUPLES] *)
}.

(** The constructor's initial value. *)
Definition init : t :=
  {| fState_status := 0; fHeater := 0; fFan := 0; fTargetTemp := 0;
     fThermocouples := [0; 0; 0; 0] |}.

Definition shift_of (index : nat) : Z :=
  THERMO_STATUS_WIDTH * Z.of_nat index + THERMO_STATUS_OFFSET.

(** The 3-bit status field of a channel, as the value of the enum. *)
Definition getStatus (p : t) (index : nat) : Z :=
  Z.land (Z.shiftr (fState_status p) (shift_of index)) THERMO_STATUS_MASK.

Definition setStatus (p : t) (index : nat) (status : ThermocoupleStatus) : t :=
  {| fState_status :=
       Z.lor (Z.land (fState_status p)
                     (Z.lnot (Z.shiftl THERMO_STATUS_MASK (shift_of index))))
             (Z.shiftl (Z.land (code status) THERMO_STATUS_MASK) (shift_of index))
       mod 65536;
     fHeater := fHeater p; fFan := fFan p; fTargetTemp := fTargetTemp p;
     fThermocouples := fThermocouples p |}.

(** [fThermocouples[index]] *)
Definition raw (p : t) (index : nat) : Z := nth index (fThermocouples p) 0.

(** The [temperature] out-parameter of [getTemperature]. *)
Definition getTemperature (p : t) (index : nat) : Q :=
  (inject_Z (raw p index) / FIXED_POINT_SCALE)%Q.

Definition setTemperature (p : t) (index : nat) (temperature : cfloat) : t :=
  {| fState_status := fState_status p;
     fHeater := fHeater p; fFan := fFan p; fTargetTemp := fTargetTemp p;
     fThermocouples :=
       <[index := to_uint16
            (match temperature with
             | NaN => NaN
             | Fin q => Fin (fl32 (q * FIXED_POINT_SCALE))
             end)]> (fThermocouples p) |}.

(** The loop of [getAverageTemperature]: [(average, numTemps)] after the
    channels of [indices] have been visited. *)
Definition accumulate (p : t) (indices : list nat) (acc : Q * Z) : Q * Z :=
  fold_left
    (fun '(average, numTemps) index =>
       if getStatus p index =? code TH_ENABLED
       then ((average + inject_Z (raw p index))%Q, numTemps + 1)
       else (average, numTemps))
    indices acc.


(** The same function carried out in binary32, rounding included. *)
Definition getAverageTemperature_binary32 (p : t) : spec_float :=
  let '(average, numTemps) :=
    fold_left
      (fun '(average, numTemps) index =>
         if getStatus p index =? code TH_ENABLED
         then (binary32_add average (binary32_of_Z (raw p index)), numTemps + 1)
         else (average, numTemps))
      (seq 0 NUM_THERMOCOUPLES) (binary32_of_Z 0, 0) in
  if numTemps =? 0 then S754_nan
  else binary32_div (binary32_div average (binary32_of_Z 100))
                    (binary32_of_Z numTemps).

Definition setThermocouplePoint (p : t) (thermoCouples : list cfloat)
           (status : list ThermocoupleStatus) : t :=
  fold_left
    (fun p index =>
       setStatus (setTemperature p index (nth index thermoCouples NaN))
                 index (nth index status TH_ENABLED))
    (seq 0 NUM_THERMOCOUPLES) p.

(** Maximum of the recorded thermocouples and the recorded target. *)
Definition maximum (p : t) : Q :=
  let max :=
    fold_left (fun max index => if max <? raw p index then raw p index else max)
              (seq 0 NUM_THERMOCOUPLES) (fTargetTemp p) in
  (inject_Z max / FIXED_POINT_SCALE)%Q.

(** The two arrays [getThermocouplePoint] fills: temperatures and statuses
    (the latter as the values of the enum). *)
Definition getThermocouplePoint (p : t) : list Q * list Z :=
  (map (getTemperature p) (seq 0 NUM_THERMOCOUPLES),
   map (getStatus p) (seq 0 NUM_THERMOCOUPLES)).

Definition getTargetTemperature (p : t) : Q :=
  (inject_Z (fTargetTemp p) / FIXED_POINT_SCALE)%Q.

Definition setTargetTemperature (p : t) (temp : Q) : t :=
  {| fState_status := fState_status p;
     fHeater := fHeater p; fFan := fFan p;
     fTargetTemp := to_uint16 (Fin (fl32 (temp * FIXED_POINT_SCALE)));
     fThermocouples := fThermocouples p |}.

(** The recorded state, as the value of the enum. *)
Definition getState (p : t) : Z := Z.land (fState_status p) STATE_MASK.

Definition setState (p : t) (state : State) : t :=
  {| fState_status :=
       Z.lor (Z.land (fState_status p) (Z.lnot STATE_MASK))
             (Z.land (State_code state) STATE_MASK)
       mod 65536;
     fHeater := fHeater p; fFan := fFan p; fTargetTemp := fTargetTemp p;
     fThermocouples := fThermocouples p |}.

Definition getHeater (p : t) : Z := fHeater p.

Definition setHeater (p : t) (percent : Z) : t :=
  {| fState_status := fState_status p;
     fHeater := percent mod 256; fFan := fFan p; fTargetTemp := fTargetTemp p;
     fThermocouples := fThermocouples p |}.

Definition getFan (p : t) : Z := fFan p.

Definition setFan (p : t) (percent : Z) : t :=
  {| fState_status := fState_status p;
     fHeater := fHeater p; fFan := percent mod 256; fTargetTemp := fTargetTemp p;
     fThermocouples := fThermocouples p |}.

(** Channels that contribute to the fused temperature, and their recorded
    temperatures. *)
Definition contributing (p : t) : list nat :=
  filter (fun index => getStatus p index = code TH_ENABLED)
         (seq 0 NUM_THERMOCOUPLES).

Definition contributingTemperatures (p : t) : list Q :=
  map (getTemperature p) (contributing p).

End DataPoint.


(** ** runProfile.cpp *)

(** Comparisons of C floats. *)
Definition Qltb (x y : Q) : bool := negb (Qle_bool y x).
Definition Qgeb (x y : Q) : bool := Qle_bool y x.
Definition Qgtb (x y : Q) : bool := negb (Qle_bool x y).

(** The arithmetic of the profile's temperature and duration fields, a
    parameter of the executor and of the preview: the one expression whose
    value depends on how [NvSolderProfile] types these fields is the quotient
    of the soak interpolation, which truncates with integer fields and does
    not with floating-point fields. *)
Inductive FieldArith : Type :=
| IntegerFields
| FloatFields.

(** Modelled from the spec: the declaration of [NvSolderProfile]
    (solderProfiles.h) is missing.  The fields are the ones the spec lists
    for a profile definition and the source reads: slopes in degrees per
    tick, temperatures in whole degrees, durations in whole ticks. *)
Record NvSolderProfile : Type := {
  ramp1Slope : Q;       (* Slope up to soakTemp1 *)
  soakTemp1 : Z;        (* Temperature for start of soak *)
  soakTemp2 : Z;        (* Temperature for end of soak *)
  soakTime : Z;         (* Length of soak *)
  ramp2Slope : Q;       (* Slope up to peakTemp *)
  peakTemp : Z;         (* Peak reflow temperature *)
  peakDwell : Z;        (* How long to remain at peakTemp *)
  rampDownSlope : Q     (* Slope down after peakTemp *)
}.

(** [soakTemp1 + elapsed*(soakTemp2-soakTemp1)/soakTime] *)
Definition soakInterpolation (arith : FieldArith) (profile : NvSolderProfile)
           (elapsed : Z) : Q :=
  match arith with
  | IntegerFields =>
      inject_Z (soakTemp1 profile
                + Z.quot (elapsed * (soakTemp2 profile - soakTemp1 profile))
                         (soakTime profile))
  | FloatFields =>
      (inject_Z (soakTemp1 profile)
       + inject_Z elapsed
         * (inject_Z (soakTemp2 profile) - inject_Z (soakTemp1 profile))
         / inject_Z (soakTime profile))%Q
  end.

(** Calls into the collaborators. *)
Inductive Action : Type :=
| PidSetSetpoint (value : Q)
| PidEnable (enable : bool)
| SetHeaterDutycycle (percent : Z)
| SetFanDutycycle (percent : Z)
| TimerCreate
| TimerStart
| TimerStop
| TimerDestroy
| BuzzerPlay
| Report (time : Z).     (* displayThermocoupleStatus: LCD and log *)

Module RunProfile.

Import Max31855.

Definition MAX_PROFILE_TIME : Z := 9 * 60.

Module DataPoint.

Definition NUM_THERMOCOUPLES : nat := 4.
Definition FIXED_POINT_SCALE : Q := 100.

Record t : Type := {
  state : State;                 (* State for this point *)
  heater : Z;                    (* Heater duty cycle *)
  fan : Z;                       (* Fan duty cycle *)
  activeThermocouples : Z;       (* Mask indicating active thermocouples *)
  target : Z;                    (* Oven target temperature *)
  thermocouples : list Z         (* Thermocouple values *)
}.

(** A data point after [memset(data, 0, sizeof(data))]. *)
Definition zero : t :=
  {| state := s_off; heater := 0; fan := 0; activeThermocouples := 0;
     target := 0; thermocouples := [0; 0; 0; 0] |}.

Definition raw (p : t) (index : nat) : Z := nth index (thermocouples p) 0.

Definition isActive (p : t) (index : nat) : bool :=
  negb (Z.land (activeThermocouples p) (Z.shiftl 1 (Z.of_nat index)) =? 0).

Definition accumulate (p : t) (indices : list nat) (acc : Q * Z) : Q * Z :=
  fold_left
    (fun '(average, numTemps) index =>
       if isActive p index
       then ((average + inject_Z (raw p index))%Q, numTemps + 1)
       else (average, numTemps))
    indices acc.

Definition averageTemperature (p : t) : cfloat :=
  let '(average, numTemps) := accumulate p (seq 0 NUM_THERMOCOUPLES) (0%Q, 0) in
  if numTemps =? 0 then NaN
  else Fin ((average / FIXED_POINT_SCALE) / inject_Z numTemps)%Q.

Definition maximum (p : t) : Q :=
  let max :=
    fold_left (fun max index => if max <? raw p index then raw p index else max)
              (seq 0 NUM_THERMOCOUPLES) (target p) in
  (inject_Z max / FIXED_POINT_SCALE)%Q.

Definition scaled (x : cfloat) : cfloat :=
  match x with
  | NaN => NaN
  | Fin q => Fin (fl32 (q * FIXED_POINT_SCALE))
  end.

Definition addThermocouplePoint (p : t) (temp : list cfloat) (active : Z) : t :=
  {| state := state p; heater := heater p; fan := fan p;
     activeThermocouples := active mod 256;
     target := target p;
     thermocouples :=
       fold_left
         (fun th index => <[index := to_uint16 (scaled (nth index temp NaN))]> th)
         (seq 0 NUM_THERMOCOUPLES) (thermocouples p) |}.

(** The source divides the caller's array by the scale in place and never
    reads [thermocouples]: the temperatures returned are the caller's own
    values, scaled. *)
Definition getThermocouplePoint (p : t) (temp : list Q) : list Q * Z :=
  (map (fun x => (x / FIXED_POINT_SCALE)%Q) temp, activeThermocouples p).

Definition setTarget (p : t) (temp : Q) : t :=
  {| state := state p; heater := heater p; fan := fan p;
     activeThermocouples := activeThermocouples p;
     target := to_uint16 (Fin (fl32 (temp * FIXED_POINT_SCALE)));
     thermocouples := thermocouples p |}.

Definition getTarget (p : t) : Q := (inject_Z (target p) / FIXED_POINT_SCALE)%Q.

Definition getState (p : t) : State := state p.

Definition setState (p : t) (s : State) : t :=
  {| state := s; heater := heater p; fan := fan p;
     activeThermocouples := activeThermocouples p;
     target := target p; thermocouples := thermocouples p |}.

(** Channels whose bit is set in the mask, and their recorded temperatures. *)
Definition contributing (p : t) : list nat :=
  filter (fun index => isActive p index = true) (seq 0 NUM_THERMOCOUPLES).

Definition contributingTemperatures (p : t) : list Q :=
  map (fun index => (inject_Z (raw p index) / FIXED_POINT_SCALE)%Q)
      (contributing p).

End DataPoint.

Module Plot.

Record t : Type := {
  data : list DataPoint.t;     (* Oven results, MAX_PROFILE_TIME entries *)
  lastValid : Z;               (* Index of last valid point *)
  marker : Z;                  (* Marker *)
  liveDataPresent : bool       (* Indicates if measured data is present *)
}.

(** [data[time]], when the access is inside the array. *)
Definition at_index (p : t) (time : Z) : option DataPoint.t :=
  if time <? 0 then None else data p !! Z.to_nat time.

(** Each operation answers [None] when it would access [data] outside its
    bounds, which C leaves undefined. *)
Definition addTargetPoint (p : t) (time : Z) (temp : Q) : option t :=
  if MAX_PROFILE_TIME <=? time then Some p
  else
    let lastValid' := if lastValid p <? time then time else lastValid p in
    match at_index p time with
    | None => None
    | Some point =>
        Some {| data := <[Z.to_nat time := DataPoint.setTarget point temp]> (data p);
                lastValid := lastValid';
                marker := marker p;
                liveDataPresent := liveDataPresent p |}
    end.

Definition addThermocouplePoint (p : t) (time : Z) (temps : list cfloat)
           (active : Z) : option t :=
  if MAX_PROFILE_TIME <=? time then Some p
  else
    let lastValid' := if lastValid p <? time then time else lastValid p in
    match at_index p time with
    | None => None
    | Some point =>
        Some {| data := <[Z.to_nat time :=
                            DataPoint.addThermocouplePoint point temps active]> (data p);
                lastValid := lastValid';
                marker := marker p;
                liveDataPresent := true |}
    end.

Definition reset (p : t) : t :=
  {| data := replicate (Z.to_nat MAX_PROFILE_TIME) DataPoint.zero;
     lastValid := 0;
     marker := 0;
     liveDataPresent := false |}.

Definition getLastPoint (p : t) : option DataPoint.t := at_index p (lastValid p).
Definition isLiveDataPresent (p : t) : bool := liveDataPresent p.
Definition getMarker (p : t) : Z := marker p.
Definition getLastValid (p : t) : Z := lastValid p.
Definition getDataPoint (p : t) (index : Z) : option DataPoint.t := at_index p index.

(** The array holds [MAX_PROFILE_TIME] points. *)
Definition sized (p : t) : Prop := length (data p) = Z.to_nat MAX_PROFILE_TIME.

End Plot.

(** Functions associated with drawing profiles: the preview of the target
    curve. *)
Module Draw.

(** The file-level [state], [time], [setpoint] of the namespace and the two
    [static] locals of [calculate]. *)
Record t : Type := {
  state : State;            (* State when drawing profile *)
  time : Z;                 (* Time when drawing profile *)
  setpoint : Q;             (* Set-point when drawing profile *)
  startOfSoakTime : Z;
  startOfDwellTime : Z
}.

(** Calculates one step of the profile.  The sums of the set-point are
    exact; they are the [float] sums of the source whenever these are
    binary32 numbers, which they are for the profiles of [exactProfile]
    below. *)
Definition calculate (arith : FieldArith) (profile : NvSolderProfile) (d : t) : t :=
  (* Advance time *)
  let time' := time d + 1 in
  match state d with
  | s_off | s_manual | s_fail | s_complete | s_init =>
      {| state := state d; time := time'; setpoint := setpoint d;
         startOfSoakTime := startOfSoakTime d;
         startOfDwellTime := startOfDwellTime d |}
  | s_preheat =>
      if Qltb (setpoint d) (inject_Z (soakTemp1 profile)) then
        {| state := s_preheat; time := time';
           setpoint := (setpoint d + ramp1Slope profile)%Q;
           startOfSoakTime := startOfSoakTime d;
           startOfDwellTime := startOfDwellTime d |}
      else
        {| state := s_soak; time := time'; setpoint := setpoint d;
           startOfSoakTime := time';
           startOfDwellTime := startOfDwellTime d |}
  | s_soak =>
      {| state :=
           if startOfSoakTime d + soakTime profile <=? time' then s_ramp_up
           else s_soak;
         time := time';
         setpoint :=
           if Qltb (setpoint d) (inject_Z (soakTemp2 profile))
           then soakInterpolation arith profile (time' - startOfSoakTime d)
           else setpoint d;
         startOfSoakTime := startOfSoakTime d;
         startOfDwellTime := startOfDwellTime d |}
  | s_ramp_up =>
      if Qltb (setpoint d) (inject_Z (peakTemp profile)) then
        {| state := s_ramp_up; time := time';
           setpoint := (setpoint d + ramp2Slope profile)%Q;
           startOfSoakTime := startOfSoakTime d;
           startOfDwellTime := startOfDwellTime d |}
      else
        {| state := s_dwell; time := time'; setpoint := setpoint d;
           startOfSoakTime := startOfSoakTime d;
           startOfDwellTime := time' |}
  | s_dwell =>
      {| state :=
           if startOfDwellTime d + peakDwell profile <? time' then s_ramp_down
           else s_dwell;
         time := time'; setpoint := setpoint d;
         startOfSoakTime := startOfSoakTime d;
         startOfDwellTime := startOfDwellTime d |}
  | s_ramp_down =>
      if Qgtb (setpoint d) 50 then
        {| state := s_ramp_down; time := time';
           setpoint := (setpoint d + rampDownSlope profile)%Q;
           startOfSoakTime := startOfSoakTime d;
           startOfDwellTime := startOfDwellTime d |}
      else
        {| state := s_off; time := time'; setpoint := setpoint d;
           startOfSoakTime := startOfSoakTime d;
           startOfDwellTime := startOfDwellTime d |}
  end.

(** What [plot] assigns before its loop; the two statics keep the values
    [soak0], [dwell0] an earlier preview left in them. *)
Definition start (soak0 dwell0 : Z) : t :=
  {| state := s_preheat; time := 0; setpoint := 50;
     startOfSoakTime := soak0; startOfDwellTime := dwell0 |}.

(** The preview after [n] calls of [calculate]. *)
Fixpoint run (arith : FieldArith) (profile : NvSolderProfile) (d : t) (n : nat) : t :=
  match n with
  | O => d
  | S n => calculate arith profile (run arith profile d n)
  end.

(** [plot]: [while (state != s_off) { calculate; addTargetPoint }], cut off
    after [fuel] iterations.  [None] is an access outside the plot's array;
    the flag tells whether the loop ended by itself. *)
Fixpoint plot_loop (arith : FieldArith) (profile : NvSolderProfile) (fuel : nat)
         (d : t) (p : Plot.t) : option (bool * t * Plot.t) :=
  match fuel with
  | O => Some (false, d, p)
  | S fuel =>
      if State_eqb (state d) s_off then Some (true, d, p)
      else
        let d' := calculate arith profile d in
        match Plot.addTargetPoint p (time d') (setpoint d') with
        | None => None
        | Some p' => plot_loop arith profile fuel d' p'
        end
  end.

Definition plot (arith : FieldArith) (profile : NvSolderProfile) (fuel : nat)
           (soak0 dwell0 : Z) (p : Plot.t) : option (bool * t * Plot.t) :=
  plot_loop arith profile fuel (start soak0 dwell0) p.

End Draw.

(** The globals of the namespace that the timer call-back works on, with the
    three [static] locals of [handler]. *)
Record Executor : Type := {
  currentProfile : NvSolderProfile;   (* Profile being run *)
  time : Z;                           (* Time in the sequence (seconds) *)
  setpoint : Q;                       (* Heater set-point *)
  ambient : Q;                        (* Ambient temperature at start *)
  state : State;
  startOfSoakTime : Z;                (* Records start of soak time *)
  startOfDwellTime : Z;               (* Records start of dwell time *)
  timeout : Z                         (* Used for timeout for profile changes *)
}.

Definition set_time (e : Executor) (v : Z) : Executor :=
  {| currentProfile := currentProfile e; time := v; setpoint := setpoint e;
     ambient := ambient e; state := state e;
     startOfSoakTime := startOfSoakTime e;
     startOfDwellTime := startOfDwellTime e; timeout := timeout e |}.

Definition set_setpoint (e : Executor) (v : Q) : Executor :=
  {| currentProfile := currentProfile e; time := time e; setpoint := v;
     ambient := ambient e; state := state e;
     startOfSoakTime := startOfSoakTime e;
     startOfDwellTime := startOfDwellTime e; timeout := timeout e |}.

Definition set_state (e : Executor) (v : State) : Executor :=
  {| currentProfile := currentProfile e; time := time e; setpoint := setpoint e;
     ambient := ambient e; state := v;
     startOfSoakTime := startOfSoakTime e;
     startOfDwellTime := startOfDwellTime e; timeout := timeout e |}.

Definition set_startOfSoakTime (e : Executor) (v : Z) : Executor :=
  {| currentProfile := currentProfile e; time := time e; setpoint := setpoint e;
     ambient := ambient e; state := state e;
     startOfSoakTime := v;
     startOfDwellTime := startOfDwellTime e; timeout := timeout e |}.

Definition set_startOfDwellTime (e : Executor) (v : Z) : Executor :=
  {| currentProfile := currentProfile e; time := time e; setpoint := setpoint e;
     ambient := ambient e; state := state e;
     startOfSoakTime := startOfSoakTime e;
     startOfDwellTime := v; timeout := timeout e |}.

Definition set_timeout (e : Executor) (v : Z) : Executor :=
  {| currentProfile := currentProfile e; time := time e; setpoint := setpoint e;
     ambient := ambient e; state := state e;
     startOfSoakTime := startOfSoakTime e;
     startOfDwellTime := startOfDwellTime e; timeout := v |}.

(** Tolerance of temperature checks *)
Definition delta : Z := 5.

(** The test that ends Preheat and Soak: the temperature has reached [goal],
    or has been within [delta] of it while the timeout counter read more
    than 5. *)
Definition reached (temperature : Q) (goal : Z) (e : Executor) : bool :=
  Qgeb temperature (inject_Z goal)
  || ((5 <? timeout e) && Qgeb temperature (inject_Z (goal - delta))).

(** Handles the call-back from the timer to step through the sequence.
    [temperature] is what [getTemperature()] answers during this tick. *)
Definition handler (arith : FieldArith) (temperature : Q) (e : Executor)
  : Executor * list Action :=
  (* Advance time *)
  let e := set_time e (time e + 1) in
  let profile := currentProfile e in
  match state e with
  | s_complete | s_fail =>
      (* Not operating *)
      (e, [PidSetSetpoint 0; PidEnable false;
           SetHeaterDutycycle 0; SetFanDutycycle 0])
  | s_off | s_manual | s_init => (e, [])
  | s_preheat =>
      if Qltb (setpoint e) (inject_Z (soakTemp1 profile)) then
        (* Follow profile *)
        let e := set_setpoint e (setpoint e + ramp1Slope profile)%Q in
        (set_timeout e 0, [PidSetSetpoint (setpoint e)])
      else
        (* Reached end of profile *)
        let e :=
          if reached temperature (soakTemp1 profile) e
          then set_startOfSoakTime (set_state e s_soak) (time e)
          else e in
        (* Do timeout *)
        let e := set_timeout e (timeout e + 1) in
        let e := if 50 <? timeout e then set_state e s_fail else e in
        (e, [])
  | s_soak =>
      let '(e, trace) :=
        if Qltb (setpoint e) (inject_Z (soakTemp2 profile)) then
          (* Follow profile *)
          let e := set_setpoint e
                     (soakInterpolation arith profile (time e - startOfSoakTime e)) in
          (set_timeout e 0, [PidSetSetpoint (setpoint e)])
        else (e, []) in
      let e :=
        if startOfSoakTime e + soakTime profile <=? time e then
          (* Reached end of soak time *)
          if reached temperature (soakTemp2 profile) e
          then set_state e s_ramp_up
          else
            let e := set_timeout e (timeout e + 1) in
            if 40 <? timeout e then set_state e s_fail else e
        else e in
      (e, trace)
  | s_ramp_up =>
      let '(e, trace) :=
        if Qltb (setpoint e) (inject_Z (peakTemp profile)) then
          let e := set_setpoint e (setpoint e + ramp2Slope profile)%Q in
          (set_timeout e 0, [PidSetSetpoint (setpoint e)])
        else (e, []) in
      let e :=
        if Qgeb temperature (inject_Z (peakTemp profile - delta))
        then set_startOfDwellTime (set_state e s_dwell) (time e)
        else
          let e := set_timeout e (timeout e + 1) in
          if 40 <? timeout e then set_state e s_fail else e in
      (e, trace)
  | s_dwell =>
      let e :=
        if startOfDwellTime e + peakDwell profile <? time e
        then set_state e s_ramp_down
        else e in
      (e, [])
  | s_ramp_down =>
      let e :=
        if Qgtb (setpoint e) (ambient e)
        then set_setpoint e (setpoint e + rampDownSlope profile)%Q
        else e in
      let e' := if Qltb temperature (ambient e) then set_state e s_complete else e in
      (e', [PidSetSetpoint (setpoint e)])
  end.

(** [step] is the state after one tick, [ticks] the state after a list of
    them with the readings of [temperatures], oldest first. *)
Definition step (arith : FieldArith) (temperature : Q) (e : Executor) : Executor :=
  fst (handler arith temperature e).

Fixpoint ticks (arith : FieldArith) (temperatures : list Q) (e : Executor) : Executor :=
  match temperatures with
  | [] => e
  | temperature :: rest => ticks arith rest (step arith temperature e)
  end.

(** The readings part of [thermocoupleStatus]: the array [temperatures] and
    the mask [activeThermocouples] it hands to the plot.  [temperatures[t]] is
    assigned before the branches that clear the local [temperature]. *)
Definition thermocoupleReadings (sensors : nat -> Sensor) : list cfloat * Z :=
  fold_left
    (fun '(temperatures, activeThermocouples) t =>
       let r := getReading (sensors t) in
       let temperatures := <[t := temperature r]> temperatures in
       if Z.land (code (status r)) 0x7 =? 0
       then (temperatures,
             Z.lor activeThermocouples (Z.shiftl 1 (Z.of_nat t)) mod 256)
       else (temperatures, activeThermocouples))
    (seq 0 DataPoint.NUM_THERMOCOUPLES)
    (replicate DataPoint.NUM_THERMOCOUPLES NaN, 0x00).

Definition thermocoupleStatus (sensors : nat -> Sensor) (time : Z) (p : Plot.t)
  : option Plot.t :=
  let '(temperatures, activeThermocouples) := thermocoupleReadings sensors in
  Plot.addThermocouplePoint p time temperatures activeThermocouples.

Inductive MessageBoxResult : Type :=
| MSG_IS_YES
| MSG_IS_NO.

(** Modelled from the spec: [checkThermocouples], which [runProfile] and
    [manualMode] call, is missing.  The spec has [runProfile]
    validate that the sensor channels are usable and abort when the fused
    temperature is undefined, and the fused temperature is undefined exactly
    when no channel contributes, a channel contributing iff its status is
    Enabled: the check succeeds iff some channel reads Enabled. *)
Definition checkThermocouples (sensors : nat -> Sensor) : bool :=
  existsb (fun t => status_eqb (status (getReading (sensors t))) TH_ENABLED)
          (seq 0 DataPoint.NUM_THERMOCOUPLES).

(** What a run of [runProfile] meets: the sensors when it is called, the
    operator's answer to "Run Profile?", the profile selected, the value
    [getTemperature()] answers when the ambient temperature is taken, the
    readings of the ticks that pass before the operator presses S (if the
    sequence has not ended by then), and the number of seconds the operator
    lets pass before acknowledging the end of the run. *)
Record Environment : Type := {
  sensors : nat -> Sensor;
  answer : MessageBoxResult;
  profile : NvSolderProfile;
  ambientReading : Q;
  readings : list Q;
  idle : nat
}.

(** The loop that waits for completion.  The timer call-back runs between two
    rounds of the loop, which reports once for every value of [time]. *)
Fixpoint waitForCompletion (arith : FieldArith) (temperatures : list Q)
         (e : Executor) : Executor * list Action :=
  match state e with
  | s_complete | s_fail => (e, [Report (time e)])
  | _ =>
      match temperatures with
      | [] => (e, [Report (time e)])                 (* SW_S *)
      | temperature :: rest =>
          let '(e1, trace1) := handler arith temperature e in
          let '(e2, trace2) := waitForCompletion arith rest e1 in
          (e2, Report (time e) :: trace1 ++ trace2)
      end
  end.

(** [report], once a second until a key is pressed. *)
Fixpoint reportUntilKey (seconds : nat) (e : Executor) : Executor * list Action :=
  match seconds with
  | O => (e, [])
  | S seconds =>
      let '(e', trace) := reportUntilKey seconds (set_time e (time e + 1)) in
      (e', Report (time e) :: trace)
  end.

(** What [runProfile] does once the loop that waits for completion is left. *)
Definition shutdown : list Action :=
  [PidSetSetpoint 0; PidEnable false; SetHeaterDutycycle 0;
   TimerStop; TimerDestroy;
   SetFanDutycycle 100;
   BuzzerPlay].

(** Run the current profile. *)
Definition runProfile (arith : FieldArith) (env : Environment) (e : Executor)
  : Executor * list Action :=
  if negb (checkThermocouples (sensors env)) then (e, [])
  else
    match answer env with
    | MSG_IS_NO => (e, [])
    | MSG_IS_YES =>
        let e :=
          {| currentProfile := profile env; time := 0;
             (* Obtain ambient temperature as reference *)
             setpoint := ambientReading env; ambient := ambientReading env;
             state := s_preheat;
             startOfSoakTime := startOfSoakTime e;
             startOfDwellTime := startOfDwellTime e;
             timeout := timeout e |} in
        let startup :=
          [PidSetSetpoint (ambient e); PidEnable true;
           (* Start Timer callback *)
           TimerCreate; TimerStart] in
        (* Wait for completion *)
        let '(e, running) := waitForCompletion arith (readings env) e in
        let e :=
          match state e with
          | s_complete => e
          | _ => set_state e s_fail
          end in
        (* Report every second until key-press *)
        let '(e, reporting) := reportUntilKey (idle env) e in
        (set_state e s_off,
         startup ++ running ++ shutdown ++ reporting ++ [SetFanDutycycle 0])
    end.

(** The buttons that the menus of this file test; the enumeration itself is
    declared in a header that is missing. *)
Inductive SwitchValue : Type :=
| SW_NONE
| SW_F1
| SW_F2
| SW_F3
| SW_F4
| SW_S.

(** Determines the plot scaling from the points array.  The three
    dimensions of the display, which this file takes from a header that is
    missing, are arguments. *)
Module Scales.

Definition MIN_TEMP : Z := 50.          (* Minimum temperature to plot (C) *)
Definition MIN_SCALE_TEMP : Z := 150.   (* Minimum temperature for scaling (C) *)
Definition MIN_SCALE_TIME : Z := 200.   (* Minimum time for scaling (s) *)

Record t : Type := {
  maxTemperature : Z;       (* Maximum temperature to plot *)
  timeScale : Q;            (* Time -> pixel scaling (s/pixel) *)
  temperatureScale : Q      (* Temperature -> pixel scaling (C/pixel) *)
}.

(** The loop over [time = 0 .. lastValid]; [None] is a point read outside
    the array of the plot. *)
Definition scanMaximum (p : Plot.t) : option Z :=
  fold_left
    (fun maxTemperature time =>
       match maxTemperature, Plot.getDataPoint p (Z.of_nat time) with
       | Some maxTemperature, Some point =>
           let pointTemp := DataPoint.maximum point in
           Some (if Qgtb pointTemp (inject_Z maxTemperature)
                 then c_trunc pointTemp else maxTemperature)
       | _, _ => None
       end)
    (seq 0 (Z.to_nat (Plot.getLastValid p + 1)))
    (Some MIN_SCALE_TEMP).

Definition calculateScales (LCD_HEIGHT LCD_WIDTH FONT_HEIGHT : Z) (p : Plot.t)
  : option t :=
  match scanMaximum p with
  | None => None
  | Some maxTemperature =>
      Some {| maxTemperature := maxTemperature;
              temperatureScale :=
                (inject_Z (maxTemperature - MIN_TEMP)
                 / inject_Z (LCD_HEIGHT - FONT_HEIGHT - 10))%Q;
              timeScale :=
                (inject_Z (if Plot.getLastValid p <? MIN_SCALE_TIME
                           then MIN_SCALE_TIME else Plot.getLastValid p)
                 / inject_Z (LCD_WIDTH - 12 - 24))%Q |}
  end.

End Scales.

(** Copying a profile to another slot.  A slot of [profiles] holds its
    flags and the rest of the profile, which the copy moves as a whole; the
    mask [P_UNLOCKED], which comes from a header that is missing, is an
    argument. *)
Module CopyProfile.

Record Slot : Type := {
  flags : Z;
  contents : NvSolderProfile
}.

(** The two statics of the namespace. *)
Record t : Type := {
  sourceProfileIndex : nat;
  destinationProfileIndex : nat
}.

Definition unlocked (P_UNLOCKED : Z) (slot : Slot) : bool :=
  negb (Z.land (flags slot) P_UNLOCKED =? 0).

(** [draw] reads [profiles] at both indices; [false] is a read outside the
    array. *)
Definition draw (c : t) (profiles : list Slot) : bool :=
  match profiles !! sourceProfileIndex c, profiles !! destinationProfileIndex c with
  | Some _, Some _ => true
  | _, _ => false
  end.

(** Copy a profile with confirmation dialogue; [rc] is the answer to the
    dialogue, should it be shown.  The test reads the two statics, the copy
    uses the two arguments.  [None] is an access outside the array. *)
Definition copyProfile (P_UNLOCKED : Z) (rc : MessageBoxResult) (c : t)
           (sourceIndex destinationIndex : nat) (profiles : list Slot)
  : option (list Slot * bool) :=
  match profiles !! destinationProfileIndex c with
  | None => None
  | Some guarded =>
      if (destinationProfileIndex c =? sourceProfileIndex c)%nat
         || negb (unlocked P_UNLOCKED guarded)
      then
        (* Illegal copy - quietly ignore *)
        Some (profiles, false)
      else
        match profiles !! destinationIndex, rc with
        | None, _ => None
        | Some _, MSG_IS_NO => Some (profiles, false)
        | Some _, MSG_IS_YES =>
            match profiles !! sourceIndex with
            | None => None
            | Some source =>
                (* Update profile in NV ram *)
                Some (<[destinationIndex :=
                          {| flags := Z.lor (flags source) P_UNLOCKED;
                             contents := contents source |}]> profiles,
                      true)
            end
        end
  end.

(** The loop of [run] over the buttons pressed, each with the answer the
    operator gives if the dialogue is shown.  The loop is left by S or by a
    copy; when the buttons run out the state reached is returned. *)
Fixpoint loop (P_UNLOCKED : Z) (events : list (SwitchValue * MessageBoxResult))
         (needsUpdate : bool) (c : t) (profiles : list Slot)
  : option (t * list Slot) :=
  if needsUpdate && negb (draw c profiles) then None
  else
    match events with
    | [] => Some (c, profiles)
    | (button, rc) :: events =>
        match button with
        | SW_F1 =>
            if (0 <? destinationProfileIndex c)%nat then
              loop P_UNLOCKED events true
                   {| sourceProfileIndex := sourceProfileIndex c;
                      destinationProfileIndex := destinationProfileIndex c - 1 |}
                   profiles
            else loop P_UNLOCKED events false c profiles
        | SW_F2 =>
            if (destinationProfileIndex c + 1 <? length profiles)%nat then
              loop P_UNLOCKED events true
                   {| sourceProfileIndex := sourceProfileIndex c;
                      destinationProfileIndex := destinationProfileIndex c + 1 |}
                   profiles
            else loop P_UNLOCKED events false c profiles
        | SW_F4 =>
            match copyProfile P_UNLOCKED rc c (sourceProfileIndex c)
                              (destinationProfileIndex c) profiles with
            | None => None
            | Some (profiles', true) => Some (c, profiles')
            | Some (profiles', false) => loop P_UNLOCKED events true c profiles'
            end
        | SW_S => Some (c, profiles)
        | SW_NONE | SW_F3 => loop P_UNLOCKED events false c profiles
        end
    end.

Definition run (P_UNLOCKED : Z) (index : nat)
           (events : list (SwitchValue * MessageBoxResult)) (profiles : list Slot)
  : option (t * list Slot) :=
  loop P_UNLOCKED events true
       {| sourceProfileIndex := index;
          destinationProfileIndex := 4 (* 1st writable profile *) |}
       profiles.

End CopyProfile.

(** Monitor thermocouple status; also allows thermocouples to be disabled.
    Each button comes with the number of seconds that pass, one report
    each, before it is pressed. *)
Fixpoint monitorLoop (presses : list (nat * SwitchValue)) (sensors : nat -> Sensor)
         (e : Executor) : (nat -> Sensor) * Executor * list Action :=
  match presses with
  | [] => (sensors, e, [])
  | (seconds, button) :: presses =>
      let '(e, reporting) := reportUntilKey seconds e in
      let toggle (t : nat) : nat -> Sensor :=
        fun u => if (u =? t)%nat
                 then enable (sensors u) (negb (isEnabled (sensors u)))
                 else sensors u in
      let continue (sensors : nat -> Sensor) :=
        let '(sensors, e, trace) := monitorLoop presses sensors e in
        (sensors, e, reporting ++ trace) in
      match button with
      | SW_F1 => continue (toggle 0%nat)
      | SW_F2 => continue (toggle 1%nat)
      | SW_F3 => continue (toggle 2%nat)
      | SW_F4 => continue (toggle 3%nat)
      | SW_S => (sensors, e, reporting)
      | SW_NONE => continue sensors
      end
  end.

Definition monitor (presses : list (nat * SwitchValue)) (sensors : nat -> Sensor)
           (e : Executor) : (nat -> Sensor) * Executor * list Action :=
  monitorLoop presses sensors (set_state (set_time e 0) s_off).

(** Logs oven status to stdout: the call-back of the timer in manual mode.
    The second component is the average temperature it prints, the readings
    of the channels whose status is 0 divided by their number, if any. *)
Definition logger (sensors : nat -> Sensor) (e : Executor) : Executor * cfloat :=
  let e := set_time e (time e + 1) in
  let '(measuredValues, averageTemperature) :=
    fold_left
      (fun '(measuredValues, averageTemperature) t =>
         let r := getReading (sensors t) in
         if code (status r) =? 0
         then
           (* Enabled and valid measurement *)
           (measuredValues + 1,
            match averageTemperature, temperature r with
            | Fin a, Fin x => Fin (a + x)%Q
            | _, _ => NaN
            end)
         else (measuredValues, averageTemperature))
      (seq 0 4) (0, Fin 0) in
  (e,
   if 0 <? measuredValues then
     match averageTemperature with
     | Fin a => Fin (a / inject_Z measuredValues)%Q
     | NaN => NaN
     end
   else averageTemperature).

(** What one pass of the loop of [manualMode] reads from its collaborators:
    the button, [pid.getSetpoint()], [ovenControl.getFanDutycycle()], and
    whether [pid.getElapsedTime()>=maxHeaterTime]. *)
Record ManualInput : Type := {
  button : SwitchValue;
  pidSetpoint : Q;
  fanDutycycle : Z;
  heaterTimeUp : bool
}.

(** The global [state] and the local [fanSpeed] of [manualMode]. *)
Record Manual : Type := {
  manualState : State;
  fanSpeed : Z
}.

(** One pass of the loop, from the safety check on; the flag tells whether
    the pass returned from [manualMode]. *)
Definition manualPass (i : ManualInput) (m : Manual) : Manual * list Action * bool :=
  (* Safety check: turn off after the maximum time of operation *)
  let safety :=
    if heaterTimeUp i then [PidEnable false; SetHeaterDutycycle 0] else [] in
  match button i with
  | SW_F1 =>
      (* Fan toggle *)
      if State_eqb (manualState m) s_off then
        (* Heater not operating - Fan control enabled *)
        if 0 <? fanDutycycle i
        then (m, safety ++ [SetFanDutycycle 0], false)
        else (m, safety ++ [SetFanDutycycle (fanSpeed m)], false)
      else (m, safety, false)
  | SW_F2 =>
      (* Heater toggle *)
      if State_eqb (manualState m) s_manual then
        (* Turn off heater, leave fan running at current speed *)
        ({| manualState := s_off; fanSpeed := fanDutycycle i |},
         safety ++ [PidEnable false; SetHeaterDutycycle 0], false)
      else
        (* Turn on heater: PID will control fan+heater *)
        ({| manualState := s_manual; fanSpeed := fanSpeed m |},
         safety ++ [PidEnable true], false)
  | SW_F3 =>
      if State_eqb (manualState m) s_manual then
        (* Oven operating: increase temperature set-point *)
        let t := c_trunc (pidSetpoint i) in
        if t <? 255
        then (m, safety ++ [PidSetSetpoint (inject_Z (t + 5))], false)
        else (m, safety, false)
      else
        (* Oven not operating: increase fan speed *)
        if fanSpeed m <? 100 then
          ({| manualState := manualState m; fanSpeed := fanSpeed m + 1 |},
           safety ++ [SetFanDutycycle (fanSpeed m + 1)], false)
        else (m, safety, false)
  | SW_F4 =>
      if State_eqb (manualState m) s_manual then
        (* Oven operating: decrease temperature set-point *)
        let t := c_trunc (pidSetpoint i) in
        if 0 <? t
        then (m, safety ++ [PidSetSetpoint (inject_Z (t - 5))], false)
        else (m, safety, false)
      else
        (* Oven not operating: decrease fan speed *)
        if 0 <? fanSpeed m then
          ({| manualState := manualState m; fanSpeed := fanSpeed m - 1 |},
           safety ++ [SetFanDutycycle (fanSpeed m - 1)], false)
        else (m, safety, false)
  | SW_S =>
      (* Exit *)
      (m,
       safety ++ [TimerStop; TimerDestroy;
                  PidSetSetpoint 0; PidEnable false;
                  SetHeaterDutycycle 0; SetFanDutycycle 0],
       true)
  | SW_NONE => (m, safety, false)
  end.

Fixpoint manualLoop (inputs : list ManualInput) (m : Manual) : Manual * list Action :=
  match inputs with
  | [] => (m, [])
  | i :: inputs =>
      let '(m, trace, exit) := manualPass i m in
      if exit then (m, trace)
      else
        let '(m, rest) := manualLoop inputs m in
        (m, trace ++ rest)
  end.

(** Manually control oven.  The result is the global [state] and the calls
    made; the call-back [logger] that the timer runs only prints. *)
Definition manualMode (sensors : nat -> Sensor) (inputs : list ManualInput)
           (state0 : State) : State * list Action :=
  if negb (checkThermocouples sensors) then (state0, [])
  else
    let '(m, trace) :=
      manualLoop inputs {| manualState := s_off; fanSpeed := 100 |} in
    (manualState m,
     [TimerCreate; TimerStart; PidSetSetpoint 100; PidEnable false] ++ trace).

End RunProfile.

(** ** Sequences of operations on the plot *)

(** The two ways a caller adds to the plot. *)
Inductive PlotOp : Type :=
| AddTargetPoint (time : Z) (temp : Q)
| AddThermocouplePoint (time : Z) (temps : list cfloat) (active : Z).

Definition opTime (op : PlotOp) : Z :=
  match op with
  | AddTargetPoint time _ => time
  | AddThermocouplePoint time _ _ => time
  end.

Definition plotOp (op : PlotOp) (p : RunProfile.Plot.t) : option RunProfile.Plot.t :=
  match op with
  | AddTargetPoint time temp => RunProfile.Plot.addTargetPoint p time temp
  | AddThermocouplePoint time temps active =>
      RunProfile.Plot.addThermocouplePoint p time temps active
  end.

(** The operations of [ops] one after the other, oldest first; [None] as soon
    as one of them leaves the array. *)
Fixpoint plotOps (ops : list PlotOp) (p : RunProfile.Plot.t) : option RunProfile.Plot.t :=
  match ops with
  | [] => Some p
  | op :: rest =>
      match plotOp op p with
      | None => None
      | Some p' => plotOps rest p'
      end
  end.

(** The largest time index below the capacity among [ops], and [m] if it is
    larger; whether a set of thermocouple values was added at a time index
    below the capacity. *)
Definition latestTime (ops : list PlotOp) (m : Z) : Z :=
  fold_left
    (fun m op => if opTime op <? RunProfile.MAX_PROFILE_TIME
                 then Z.max m (opTime op) else m)
    ops m.

Definition addsLiveData (op : PlotOp) : bool :=
  match op with
  | AddTargetPoint _ _ => false
  | AddThermocouplePoint time _ _ => time <? RunProfile.MAX_PROFILE_TIME
  end.

(** ** The order of the phases *)

(** The position of a state in the sequence a run goes through; 0 for the
    states that are not part of it. *)
Definition phase (s : State) : Z :=
  match s with
  | s_preheat => 1
  | s_soak => 2
  | s_ramp_up => 3
  | s_dwell => 4
  | s_ramp_down => 5
  | s_complete => 6
  | s_off | s_fail | s_init | s_manual => 0
  end.

(** ** Inputs used below *)

(** A data point with channel 1 Enabled at 100 degrees, channels 0 and 3
    Disabled and channel 2 open. *)
Definition one_enabled_at_100 : DataPoint.t :=
  DataPoint.setThermocouplePoint DataPoint.init
    [Fin 0; Fin 100; NaN; Fin 0]
    [Max31855.TH_DISABLED; Max31855.TH_ENABLED;
     Max31855.TH_OPEN; Max31855.TH_DISABLED].

(** A profile with [soakTemp1=100, soakTemp2=150, soakTime=60]. *)
Definition profile_100_150_60 : NvSolderProfile :=
  {| ramp1Slope := 3; soakTemp1 := 100; soakTemp2 := 150; soakTime := 60;
     ramp2Slope := 3; peakTemp := 210; peakDwell := 20;
     rampDownSlope := - (3) |}.

(** The globals as [runProfile] sets them before it starts the timer, the
    statics of [handler] still at their initial zero. *)
Definition started (profile : NvSolderProfile) (ambient : Q) : RunProfile.Executor :=
  {| RunProfile.currentProfile := profile; RunProfile.time := 0;
     RunProfile.setpoint := ambient; RunProfile.ambient := ambient;
     RunProfile.state := s_preheat;
     RunProfile.startOfSoakTime := 0; RunProfile.startOfDwellTime := 0;
     RunProfile.timeout := 0 |}.

(** Readings of a run from 25 degrees: 90 degrees for 29 ticks, 100 degrees
    at tick 30, then 140 degrees, below the relaxed threshold of 145. *)
Definition readings_to_soak_at_30 : list Q := repeat (90 : Q) 29 ++ [100 : Q].
Definition readings_stalled_soak : list Q := repeat (140 : Q) 105.

(** The same profile with a ramp of one degree per tick, and the stalled
    readings continued to tick 180. *)
Definition profile_slow_ramp : NvSolderProfile :=
  {| ramp1Slope := 1; soakTemp1 := 100; soakTemp2 := 150; soakTime := 60;
     ramp2Slope := 3; peakTemp := 210; peakDwell := 20;
     rampDownSlope := - (3) |}.
Definition readings_stalled_longer : list Q := repeat (140 : Q) 150.

(** Readings of a run from 25 degrees that wait at exactly
    [soakTemp1 - 5 = 95] degrees once the set-point has reached [soakTemp1],
    which it does at tick 25. *)
Definition readings_to_setpoint_100 : list Q := repeat (90 : Q) 25.
Definition readings_at_95 (n : nat) : list Q := repeat (95 : Q) n.

(** A sensor whose probe and cold junction both read [celsius] degrees with
    no fault bit set. *)
Definition sensor_reading (celsius : Z) (enabled : bool) : Max31855.Sensor :=
  {| Max31855.data :=
       (Z.shiftr (celsius * 16) 8 mod 256, (celsius * 16) mod 256,
        Z.shiftr (celsius * 256) 8 mod 256, (celsius * 256) mod 256);
     Max31855.offset := 0;
     Max31855.enabled := enabled |}.


(** The same with every thermocouple disabled. *)
Definition all_disabled_run : RunProfile.Environment :=
  {| RunProfile.sensors := fun _ => sensor_reading 25 false;
     RunProfile.answer := RunProfile.MSG_IS_YES;
     RunProfile.profile := profile_100_150_60;
     RunProfile.ambientReading := 25;
     RunProfile.readings := readings_to_soak_at_30 ++ readings_stalled_soak;
     RunProfile.idle := 2 |}.

(** The invariant of a profile definition. *)
Definition well_formed (p : NvSolderProfile) : Prop :=
  soakTemp1 p < soakTemp2 p /\ soakTemp2 p <= peakTemp p
  /\ (0 < ramp1Slope p)%Q /\ (0 < ramp2Slope p)%Q /\ (rampDownSlope p < 0)%Q.

(** Profiles with integer fields whose preview is computed without rounding
    and without overflow: slopes that are whole numbers of sixteenths of a
    degree per tick, 50 at most in size; temperatures between 0 and 600
    degrees (the peak: 600 degrees at most), which keeps the set-points
    within the 655.35 degrees that a point of the plot can hold; a soak and
    a dwell of 10^6 ticks at most, which keeps the product of the
    interpolation and the clock within an [int]. *)
Definition exactProfile (profile : NvSolderProfile) : bool :=
  sixteenths (ramp1Slope profile) && sixteenths (ramp2Slope profile)
  && sixteenths (rampDownSlope profile)
  && Qle_bool (ramp1Slope profile) 50 && Qle_bool (ramp2Slope profile) 50
  && Qle_bool (-50) (rampDownSlope profile)
  && (0 <=? soakTemp1 profile) && (soakTemp1 profile <=? 600)
  && (0 <=? soakTemp2 profile) && (soakTemp2 profile <=? 600)
  && (peakTemp profile <=? 600)
  && (soakTime profile <=? 1000000) && (peakDwell profile <=? 1000000).

(** The executor that stands where the preview [d] stands, running [profile]
    from [ambient] with its timeout counter at [timeout]. *)
Definition live_of (profile : NvSolderProfile) (d : RunProfile.Draw.t)
           (ambient : Q) (timeout : Z) : RunProfile.Executor :=
  {| RunProfile.currentProfile := profile;
     RunProfile.time := RunProfile.Draw.time d;
     RunProfile.setpoint := RunProfile.Draw.setpoint d;
     RunProfile.ambient := ambient;
     RunProfile.state := RunProfile.Draw.state d;
     RunProfile.startOfSoakTime := RunProfile.Draw.startOfSoakTime d;
     RunProfile.startOfDwellTime := RunProfile.Draw.startOfDwellTime d;
     RunProfile.timeout := timeout |}.

(** What is known of a preview in Soak: it entered at [startOfSoakTime], and
    after its first tick there the set-point lies on the interpolation line
    or has reached [soakTemp2]. *)
Definition on_soak_line (arith : FieldArith) (profile : NvSolderProfile)
           (d : RunProfile.Draw.t) : Prop :=
  RunProfile.Draw.state d = s_soak ->
  RunProfile.Draw.startOfSoakTime d <= RunProfile.Draw.time d
  /\ (RunProfile.Draw.startOfSoakTime d < RunProfile.Draw.time d ->
      (inject_Z (soakTemp2 profile) <= RunProfile.Draw.setpoint d)%Q
      \/ RunProfile.Draw.setpoint d
         = soakInterpolation arith profile
             (RunProfile.Draw.time d - RunProfile.Draw.startOfSoakTime d)).

(** * Properties *)

(** ** Comparisons *)

Lemma Qltb_lt (x y : Q) : Qltb x y = true <-> (x < y)%Q.
Proof.
  unfold Qltb. rewrite negb_true_iff, <- not_true_iff_false, Qle_bool_iff.
  split; [apply Qnot_le_lt | apply Qlt_not_le].
Qed.

Lemma Qltb_ge (x y : Q) : Qltb x y = false <-> (y <= x)%Q.
Proof.
  unfold Qltb. rewrite negb_false_iff. apply Qle_bool_iff.
Qed.

Lemma Qgeb_ge (x y : Q) : Qgeb x y = true <-> (y <= x)%Q.
Proof. apply Qle_bool_iff. Qed.

Lemma Qgeb_lt (x y : Q) : Qgeb x y = false <-> (x < y)%Q.
Proof.
  unfold Qgeb. rewrite <- not_true_iff_false, Qle_bool_iff.
  split; [apply Qnot_le_lt | apply Qlt_not_le].
Qed.

Lemma Qgtb_gt (x y : Q) : Qgtb x y = true <-> (y < x)%Q.
Proof. apply (Qltb_lt y x). Qed.

Lemma Qgtb_le (x y : Q) : Qgtb x y = false <-> (x <= y)%Q.
Proof. apply (Qltb_ge y x). Qed.

(** Case analysis on the tests of a goal. *)
Ltac split_tests :=
  repeat match goal with
    | |- context [Qltb ?a ?b] =>
        let H := fresh "Hq" in
        destruct (Qltb a b) eqn:H; [apply Qltb_lt in H | apply Qltb_ge in H]
    | |- context [Qgeb ?a ?b] =>
        let H := fresh "Hq" in
        destruct (Qgeb a b) eqn:H; [apply Qgeb_ge in H | apply Qgeb_lt in H]
    | |- context [Qgtb ?a ?b] =>
        let H := fresh "Hq" in
        destruct (Qgtb a b) eqn:H; [apply Qgtb_gt in H | apply Qgtb_le in H]
    | |- context [?a <=? ?b] => destruct (Z.leb_spec a b)
    | |- context [?a <? ?b] => destruct (Z.ltb_spec a b)
    end; cbn in *.

(** ** The plot store *)

Section PlotStore.

Import RunProfile.

(** C9.  After [Plot::reset], whatever the plot held before, the index of the
    last valid point is 0 and no live data is present. *)
Theorem C9_reset_is_empty (p : Plot.t) :
  Plot.getLastValid (Plot.reset p) = 0
  /\ Plot.isLiveDataPresent (Plot.reset p) = false.
Proof. split; reflexivity. Qed.

Lemma reset_sized (p : Plot.t) : Plot.sized (Plot.reset p).
Proof. unfold Plot.sized. apply length_replicate. Qed.

Lemma at_index_in_range (p : Plot.t) (time : Z) :
  Plot.sized p -> 0 <= time < MAX_PROFILE_TIME ->
  exists point, Plot.at_index p time = Some point.
Proof.
  intros Hsz Hr. unfold Plot.at_index.
  destruct (Z.ltb_spec time 0) as [Hneg | _]; [lia |].
  apply lookup_lt_is_Some_2. rewrite Hsz. lia.
Qed.

(** An index below zero passes the guard of both operations and reaches
    [data[time]]. *)
Lemma add_negative_index (p : Plot.t) (time : Z) (temp : Q)
      (temps : list cfloat) (active : Z) :
  time < 0 ->
  Plot.addTargetPoint p time temp = None
  /\ Plot.addThermocouplePoint p time temps active = None.
Proof.
  intros Hneg. unfold Plot.addTargetPoint, Plot.addThermocouplePoint, Plot.at_index.
  destruct (Z.leb_spec MAX_PROFILE_TIME time) as [Hge | _].
  - unfold MAX_PROFILE_TIME in Hge. lia.
  - destruct (Z.ltb_spec time 0); [tauto | lia].
Qed.

Lemma lastValid_max (l time : Z) : (if l <? time then time else l) = Z.max l time.
Proof. destruct (Z.ltb_spec l time); lia. Qed.

(** C10.  At or past the capacity both operations leave the plot as it is.
    For an index inside the array they succeed, replace [data[time]] only
    (the other entries and the length of the array are kept), set
    [lastValid] to the larger of [lastValid] and [time], which therefore
    never decreases and stays below the capacity, keep the marker, and
    [addThermocouplePoint] also raises [liveDataPresent]. *)
Theorem C10_add_point_bounds (p : Plot.t) (time : Z) (temp : Q)
        (temps : list cfloat) (active : Z) :
  Plot.sized p ->
  Plot.lastValid p < MAX_PROFILE_TIME ->
  (MAX_PROFILE_TIME <= time ->
     Plot.addTargetPoint p time temp = Some p
     /\ Plot.addThermocouplePoint p time temps active = Some p)
  /\ (0 <= time < MAX_PROFILE_TIME ->
      exists point,
        Plot.at_index p time = Some point
        /\ Plot.addTargetPoint p time temp =
             Some {| Plot.data := <[Z.to_nat time := DataPoint.setTarget point temp]>
                                    (Plot.data p);
                     Plot.lastValid := Z.max (Plot.lastValid p) time;
                     Plot.marker := Plot.marker p;
                     Plot.liveDataPresent := Plot.liveDataPresent p |}
        /\ Plot.addThermocouplePoint p time temps active =
             Some {| Plot.data :=
                       <[Z.to_nat time :=
                           DataPoint.addThermocouplePoint point temps active]>
                         (Plot.data p);
                     Plot.lastValid := Z.max (Plot.lastValid p) time;
                     Plot.marker := Plot.marker p;
                     Plot.liveDataPresent := true |})
  /\ (forall p',
        Plot.addTargetPoint p time temp = Some p'
        \/ Plot.addThermocouplePoint p time temps active = Some p' ->
        Plot.sized p'
        /\ Plot.lastValid p <= Plot.lastValid p' < MAX_PROFILE_TIME
        /\ forall j : nat, j <> Z.to_nat time ->
                           Plot.data p' !! j = Plot.data p !! j).
Proof.
  intros Hsz Hlast. split; [| split].
  - intros Hge. unfold Plot.addTargetPoint, Plot.addThermocouplePoint.
    destruct (Z.leb_spec MAX_PROFILE_TIME time); [split; reflexivity | lia].
  - intros Hr. destruct (at_index_in_range p time Hsz Hr) as [point Hpt].
    exists point. split; [exact Hpt |].
    unfold Plot.addTargetPoint, Plot.addThermocouplePoint.
    destruct (Z.leb_spec MAX_PROFILE_TIME time); [lia |].
    rewrite Hpt, lastValid_max. split; reflexivity.
  - intros p' Hadd.
    unfold Plot.addTargetPoint, Plot.addThermocouplePoint in Hadd.
    destruct (Z.leb_spec MAX_PROFILE_TIME time) as [Hge | Hlt].
    + assert (p' = p) as -> by (destruct Hadd; congruence).
      repeat split; [exact Hsz | lia | exact Hlast].
    + rewrite lastValid_max in Hadd.
      destruct (Plot.at_index p time) as [point |] eqn:Hpt;
        [| destruct Hadd; discriminate].
      destruct Hadd as [Hadd | Hadd]; injection Hadd as <-; simpl;
        (split; [unfold Plot.sized; simpl; rewrite length_insert; exact Hsz |]);
        (split; [lia |]);
        intros j Hj; apply list_lookup_insert_ne; congruence.
Qed.

Lemma C10_add_point_bounds_witness :
  let p := Plot.reset {| Plot.data := []; Plot.lastValid := 7;
                         Plot.marker := 0; Plot.liveDataPresent := true |} in
  (Plot.sized p /\ Plot.lastValid p < MAX_PROFILE_TIME)
  /\ Plot.addThermocouplePoint p 540 [Fin (25 # 1)] 1 = Some p
  /\ (exists p', Plot.addTargetPoint p 3 (50 # 1) = Some p'
                 /\ Plot.lastValid p' = 3).
Proof.
  intros p.
  assert (Hs : Plot.sized p) by apply reset_sized.
  assert (Hl : Plot.lastValid p < MAX_PROFILE_TIME) by reflexivity.
  destruct (C10_add_point_bounds p 540 (50 # 1) [Fin (25 # 1)] 1 Hs Hl)
    as [Hge _].
  destruct (C10_add_point_bounds p 3 (50 # 1) [Fin (25 # 1)] 1 Hs Hl)
    as [_ [Hin _]].
  split; [split; assumption |]. split.
  - apply Hge. unfold MAX_PROFILE_TIME. lia.
  - destruct Hin as [point [_ [Ht _]]]; [unfold MAX_PROFILE_TIME; lia |].
    eexists. split; [exact Ht | reflexivity].
Defined.

(** The preview of [profile_100_150_60] ends by itself after 175 steps, and
    every point it adds lies inside the plot. *)
Lemma preview_fits_the_plot (p : Plot.t) :
  exists d plot,
    Draw.plot IntegerFields profile_100_150_60 200 0 0 (Plot.reset p)
    = Some (true, d, plot)
    /\ Draw.state d = s_off /\ Draw.time d = 175
    /\ Plot.getLastValid plot = 175 /\ Plot.isLiveDataPresent plot = false.
Proof.
  eexists. eexists. split; [vm_compute; reflexivity |].
  repeat split; reflexivity.
Qed.

End PlotStore.

(** ** Sensor fusion *)


(** The loop shared by the two averaging functions: it adds up the values of
    the channels that are switched on and counts them. *)
Section Accumulate.

Context (P : nat -> Prop) `{!forall i, Decision (P i)}.
Variables (en : nat -> bool) (val : nat -> Z).
Hypothesis en_P : forall i, en i = true <-> P i.

Let body : Q * Z -> nat -> Q * Z :=
  fun '(average, numTemps) index =>
    if en index
    then ((average + inject_Z (val index))%Q, numTemps + 1)
    else (average, numTemps).



End Accumulate.




(** A channel is among the contributing ones exactly when its recorded
    status is Enabled. *)
Lemma contributing_iff (p : DataPoint.t) (index : nat) :
  index ∈ DataPoint.contributing p
  <-> (index < DataPoint.NUM_THERMOCOUPLES)%nat
      /\ DataPoint.getStatus p index = Max31855.code Max31855.TH_ENABLED.
Proof.
  unfold DataPoint.contributing.
  rewrite list_elem_of_filter, elem_of_seq. simpl. intuition lia.
Qed.

(** The status fields of [fState_status]: writing one and reading any. *)
Lemma testbit_7 (n : Z) : Z.testbit 7 n = (0 <=? n) && (n <? 3).
Proof.
  change 7 with (Z.ones 3).
  destruct (Z.leb_spec 0 n); [| apply Z.testbit_neg_r; lia].
  destruct (Z.ltb_spec n 3).
  - apply Z.ones_spec_low. lia.
  - apply Z.ones_spec_high. lia.
Qed.

Lemma code_bits (s : Max31855.ThermocoupleStatus) (n : Z) :
  3 <= n -> Z.testbit (Max31855.code s) n = false.
Proof.
  intros Hn.
  destruct (Z.eq_dec (Max31855.code s) 0) as [-> | Hnz]; [apply Z.bits_0 |].
  apply Z.bits_above_log2.
  - destruct s; simpl; lia.
  - assert (Z.log2 (Max31855.code s) < 3); [| lia].
    apply Z.log2_lt_pow2; destruct s; simpl in *; lia.
Qed.

Lemma field_bits (f sh n : Z) :
  0 <= sh -> 0 <= n ->
  Z.testbit (Z.land (Z.shiftr f sh) 7) n = (n <? 3) && Z.testbit f (n + sh).
Proof.
  intros Hsh Hn. rewrite Z.land_spec, Z.shiftr_spec, testbit_7 by lia.
  destruct (Z.leb_spec 0 n); [| lia]. simpl. apply andb_comm.
Qed.

Lemma getStatus_setStatus (p : DataPoint.t) (i j : nat) (s : Max31855.ThermocoupleStatus) :
  (i < DataPoint.NUM_THERMOCOUPLES)%nat -> (j < DataPoint.NUM_THERMOCOUPLES)%nat ->
  DataPoint.getStatus (DataPoint.setStatus p i s) j
  = if Nat.eqb i j then Max31855.code s else DataPoint.getStatus p j.
Proof.
  unfold DataPoint.NUM_THERMOCOUPLES. intros Hi Hj.
  unfold DataPoint.getStatus, DataPoint.setStatus, DataPoint.shift_of,
    DataPoint.THERMO_STATUS_WIDTH, DataPoint.THERMO_STATUS_OFFSET,
    DataPoint.THERMO_STATUS_MASK. simpl DataPoint.fState_status.
  change (Z.shiftl 1 3 - 1) with 7. change 65536 with (2 ^ 16).
  apply Z.bits_inj'. intros n Hn.
  rewrite field_bits by lia.
  destruct (Z.ltb_spec n 3) as [Hlow | Hhigh]; simpl andb.
  - rewrite Z.mod_pow2_bits_low by lia.
    rewrite Z.lor_spec, Z.land_spec, Z.lnot_spec, !Z.shiftl_spec by lia.
    rewrite Z.land_spec, !testbit_7.
    destruct (Nat.eqb_spec i j) as [-> | Hne].
    + replace (n + (3 * Z.of_nat j + 4) - (3 * Z.of_nat j + 4)) with n by lia.
      destruct (Z.leb_spec 0 n); [| lia]. destruct (Z.ltb_spec n 3); [| lia].
      simpl. rewrite andb_false_r, andb_true_r. reflexivity.
    + rewrite field_bits by lia.
      destruct (Z.ltb_spec n 3); [| lia]. simpl andb.
      assert ((0 <=? n + (3 * Z.of_nat j + 4) - (3 * Z.of_nat i + 4))
              && (n + (3 * Z.of_nat j + 4) - (3 * Z.of_nat i + 4) <? 3) = false)
        as ->.
      { destruct (Z.leb_spec 0 (n + (3 * Z.of_nat j + 4) - (3 * Z.of_nat i + 4)));
          [| reflexivity].
        destruct (Z.ltb_spec (n + (3 * Z.of_nat j + 4) - (3 * Z.of_nat i + 4)) 3);
          [lia | reflexivity]. }
      simpl. rewrite andb_false_r, andb_true_r, orb_false_r. reflexivity.
  - destruct (Nat.eqb_spec i j) as [-> | Hne].
    + symmetry. apply code_bits. lia.
    + rewrite field_bits by lia.
      destruct (Z.ltb_spec n 3); [lia |]. reflexivity.
Qed.

Lemma getStatus_setTemperature (p : DataPoint.t) (i : nat) (x : cfloat) (j : nat) :
  DataPoint.getStatus (DataPoint.setTemperature p i x) j = DataPoint.getStatus p j.
Proof. reflexivity. Qed.

Lemma getStatus_setThermocouplePoint (p : DataPoint.t) (temps : list cfloat)
      (statuses : list Max31855.ThermocoupleStatus) (j : nat) :
  (j < DataPoint.NUM_THERMOCOUPLES)%nat ->
  DataPoint.getStatus (DataPoint.setThermocouplePoint p temps statuses) j
  = Max31855.code (nth j statuses Max31855.TH_ENABLED).
Proof.
  intros Hj. unfold DataPoint.setThermocouplePoint. simpl fold_left.
  unfold DataPoint.NUM_THERMOCOUPLES in Hj.
  destruct j as [| [| [| [| j]]]]; try lia;
    repeat (rewrite getStatus_setStatus
              by (unfold DataPoint.NUM_THERMOCOUPLES; lia);
            simpl Nat.eqb; cbv iota;
            rewrite ?getStatus_setTemperature);
    reflexivity.
Qed.

(** Whatever the statuses recorded, the contributing channels are those
    recorded as Enabled: a Disabled channel, like a faulty one, is never
    averaged in. *)
Lemma contributing_setThermocouplePoint (p : DataPoint.t) (temps : list cfloat)
      (statuses : list Max31855.ThermocoupleStatus) (j : nat) :
  j ∈ DataPoint.contributing (DataPoint.setThermocouplePoint p temps statuses)
  <-> (j < DataPoint.NUM_THERMOCOUPLES)%nat
      /\ nth j statuses Max31855.TH_ENABLED = Max31855.TH_ENABLED.
Proof.
  rewrite contributing_iff. split; intros [Hj Hst]; (split; [exact Hj |]).
  - rewrite getStatus_setThermocouplePoint in Hst by exact Hj.
    destruct (nth j statuses Max31855.TH_ENABLED); simpl in Hst;
      try discriminate; reflexivity.
  - rewrite getStatus_setThermocouplePoint by exact Hj. rewrite Hst. reflexivity.
Qed.

(** In binary32 the mean of the single reading of 100 degrees is 100
    degrees, without rounding error, and the mean of no reading is NAN. *)
Lemma getAverageTemperature_binary32_at_100 :
  DataPoint.getAverageTemperature_binary32 one_enabled_at_100 = binary32_of_Z 100
  /\ DataPoint.getAverageTemperature_binary32
       (DataPoint.setStatus one_enabled_at_100 1 Max31855.TH_DISABLED) = S754_nan.
Proof. split; vm_compute; reflexivity. Qed.



(** ** The profile executor *)

Section ExecutorFacts.

Import RunProfile.

Lemma soakInterpolation_past (arith : FieldArith) (p : NvSolderProfile) (k : Z) :
  0 < soakTime p -> soakTemp1 p <= soakTemp2 p -> soakTime p <= k ->
  (inject_Z (soakTemp2 p) <= soakInterpolation arith p k)%Q.
Proof.
  intros Hs Hd Hk. destruct arith; unfold soakInterpolation.
  - rewrite <- Zle_Qle.
    rewrite Z.quot_div_nonneg by nia.
    assert (soakTemp2 p - soakTemp1 p
            <= k * (soakTemp2 p - soakTemp1 p) / soakTime p)
      by (apply Z.div_le_lower_bound; nia).
    lia.
  - assert (inject_Z (soakTemp2 p) - inject_Z (soakTemp1 p)
            <= inject_Z k * (inject_Z (soakTemp2 p) - inject_Z (soakTemp1 p))
               / inject_Z (soakTime p))%Q as H.
    { apply Qle_shift_div_l.
      - change 0%Q with (inject_Z 0). rewrite <- Zlt_Qlt. exact Hs.
      - unfold Qminus. rewrite <- inject_Z_opp, <- !inject_Z_plus, <- !inject_Z_mult.
        rewrite <- Zle_Qle. nia. }
    lra.
Qed.

Lemma soakInterpolation_mono (arith : FieldArith) (p : NvSolderProfile) (k : Z) :
  0 < soakTime p -> soakTemp1 p <= soakTemp2 p ->
  (soakInterpolation arith p k <= soakInterpolation arith p (k + 1))%Q.
Proof.
  intros Hs Hd. destruct arith; unfold soakInterpolation.
  - rewrite <- Zle_Qle. apply Z.add_le_mono_l.
    apply Z.quot_le_mono; nia.
  - apply Qplus_le_r. apply Qmult_le_compat_r.
    + apply Qmult_le_compat_r.
      * rewrite <- Zle_Qle. lia.
      * unfold Qminus. rewrite <- inject_Z_opp, <- inject_Z_plus.
        change 0%Q with (inject_Z 0). rewrite <- Zle_Qle. lia.
    + apply Qinv_le_0_compat. change 0%Q with (inject_Z 0). rewrite <- Zle_Qle. lia.
Qed.

Lemma reached_below (T : Q) (goal : Z) (e : Executor) :
  (T < inject_Z (goal - delta))%Q -> reached T goal e = false.
Proof.
  intros HT. unfold reached.
  assert (inject_Z (goal - delta) <= inject_Z goal)%Q
    by (rewrite <- Zle_Qle; unfold delta; lia).
  assert (Qgeb T (inject_Z goal) = false) as -> by (apply Qgeb_lt; lra).
  assert (Qgeb T (inject_Z (goal - delta)) = false) as -> by (apply Qgeb_lt; lra).
  rewrite andb_false_r. reflexivity.
Qed.

Lemma soak_tick (arith : FieldArith) (T : Q) (e : Executor) :
  state e = s_soak ->
  (T < inject_Z (soakTemp2 (currentProfile e) - delta))%Q ->
  0 < soakTime (currentProfile e) ->
  soakTemp1 (currentProfile e) <= soakTemp2 (currentProfile e) ->
  0 <= timeout e ->
  let e' := step arith T e in
  currentProfile e' = currentProfile e
  /\ time e' = time e + 1
  /\ startOfSoakTime e' = startOfSoakTime e
  /\ 0 <= timeout e'
  /\ (time e + 1 < startOfSoakTime e + soakTime (currentProfile e) ->
      state e' = s_soak)
  /\ (startOfSoakTime e + soakTime (currentProfile e) <= time e + 1 ->
      (inject_Z (soakTemp2 (currentProfile e)) <= setpoint e')%Q
      /\ ((setpoint e < inject_Z (soakTemp2 (currentProfile e)))%Q ->
          state e' = s_soak /\ timeout e' = 1)
      /\ ((inject_Z (soakTemp2 (currentProfile e)) <= setpoint e)%Q ->
          timeout e' = timeout e + 1
          /\ state e' = if 40 <? timeout e + 1 then s_fail else s_soak)).
Proof.
  intros Hs HT Htime Hd Hto.
  pose proof (soakInterpolation_past arith (currentProfile e)
                (time e + 1 - startOfSoakTime e) Htime Hd) as Hpast.
  unfold step, handler. cbn. rewrite Hs.
  destruct (Qltb (setpoint e) _) eqn:Hsp;
    [apply Qltb_lt in Hsp | apply Qltb_ge in Hsp]; cbn;
    rewrite (reached_below _ _ _ HT); split_tests;
    repeat split; intros; try assumption; try lia; try lra;
    try (apply Hpast; lia).
Qed.

Lemma fail_tick (arith : FieldArith) (T : Q) (e : Executor) :
  state e = s_fail ->
  state (step arith T e) = s_fail /\ time (step arith T e) = time e + 1.
Proof.
  intros Hs. unfold step, handler. cbn. rewrite Hs. cbn.
  split; [exact Hs | reflexivity].
Qed.

Lemma time_tick (arith : FieldArith) (T : Q) (e : Executor) :
  time (step arith T e) = time e + 1.
Proof.
  unfold step, handler. cbn.
  destruct (state e); cbn; try reflexivity; unfold reached; cbn;
    repeat match goal with
      | |- context [if ?b then _ else _] => destruct b; cbn
      end; reflexivity.
Qed.

Lemma time_ticks (arith : FieldArith) (temperatures : list Q) (e : Executor) :
  time (ticks arith temperatures e) = time e + Z.of_nat (length temperatures).
Proof.
  revert e. induction temperatures as [| T rest IH]; intros e; simpl ticks.
  - simpl. lia.
  - rewrite IH, time_tick. simpl length. lia.
Qed.

Lemma fail_ticks (arith : FieldArith) (temperatures : list Q) (e : Executor) :
  state e = s_fail -> state (ticks arith temperatures e) = s_fail.
Proof.
  revert e. induction temperatures as [| T rest IH]; intros e Hs; simpl.
  - exact Hs.
  - apply IH. apply fail_tick. exact Hs.
Qed.

Section SoakTimeout.

Variable arith : FieldArith.
Variable profile : NvSolderProfile.
Hypothesis soakTime_pos : 0 < soakTime profile.
Hypothesis soak_rising : soakTemp1 profile <= soakTemp2 profile.

(** Temperatures that stay below the relaxed threshold of Soak. *)
Let below (temperatures : list Q) : Prop :=
  Forall (fun T => (T < inject_Z (soakTemp2 profile - delta))%Q) temperatures.

Lemma soak_fails_within (temperatures : list Q) :
  forall e : Executor,
    currentProfile e = profile -> state e = s_soak -> 0 <= timeout e ->
    below temperatures ->
    (time e + 1 < startOfSoakTime e + soakTime profile ->
     startOfSoakTime e + soakTime profile - (time e + 1) + 41
     <= Z.of_nat (length temperatures)) ->
    (startOfSoakTime e + soakTime profile <= time e + 1 ->
     (setpoint e < inject_Z (soakTemp2 profile))%Q ->
     41 <= Z.of_nat (length temperatures)) ->
    (startOfSoakTime e + soakTime profile <= time e + 1 ->
     (inject_Z (soakTemp2 profile) <= setpoint e)%Q ->
     41 - timeout e <= Z.of_nat (length temperatures)
     /\ 1 <= Z.of_nat (length temperatures)) ->
    state (ticks arith temperatures e) = s_fail.
Proof.
  induction temperatures as [| T rest IH];
    intros e Hp Hs Hto Hbelow Hpre Hlow Hhigh.
  - exfalso. simpl in *.
    destruct (Z.lt_ge_cases (time e + 1) (startOfSoakTime e + soakTime profile));
      [lia |].
    destruct (Qlt_le_dec (setpoint e) (inject_Z (soakTemp2 profile)));
      [specialize (Hlow ltac:(lia) ltac:(assumption)); lia
      | specialize (Hhigh ltac:(lia) ltac:(assumption)); lia].
  - apply Forall_cons_iff in Hbelow. destruct Hbelow as [HT Hrest].
    cbv beta in HT.
    simpl ticks.
    destruct (soak_tick arith T e Hs) as (Hp' & Ht' & Hst' & Hto' & Hpre' & Hpast');
      try assumption; try (rewrite Hp; assumption).
    rewrite Hp in *.
    simpl length in *. rewrite Nat2Z.inj_succ in *.
    destruct (Z.lt_ge_cases (time e + 1) (startOfSoakTime e + soakTime profile))
      as [Hbefore | Hafter].
    + apply IH; try assumption; try (apply Hpre'; assumption);
        rewrite ?Ht', ?Hst'; intros; try split; lia.
    + destruct (Hpast' Hafter) as (Hsp' & Hreset & Hcount).
      destruct (Qlt_le_dec (setpoint e) (inject_Z (soakTemp2 profile)))
        as [Hl | Hh].
      * destruct (Hreset Hl) as [Hs' Hto1].
        apply IH; try assumption; rewrite ?Ht', ?Hst', ?Hto1;
          intros; try split; try lia; try lra.
        all: specialize (Hlow Hafter Hl); lia.
      * destruct (Hcount Hh) as [Hto1 Hs'].
        destruct (Hhigh Hafter Hh) as [Hb1 Hb2].
        destruct (Z.ltb_spec 40 (timeout e + 1)).
        -- apply fail_ticks. exact Hs'.
        -- apply IH; try assumption; rewrite ?Ht', ?Hst', ?Hto1;
             intros; try split; try lia; try lra.
Qed.

End SoakTimeout.

(** C2 (as the code has it).  In Soak, with a positive [soakTime],
    [soakTemp1 <= soakTemp2] and readings that stay below the relaxed
    threshold [soakTemp2 - 5]: once the soak time is over and the set-point
    stands at [soakTemp2], every tick adds one to the timeout counter and the
    tick on which it passes 40 moves the state to Fail; the state is Fail
    after any run of at least 41 ticks that ends 40 ticks or more past
    [startOfSoakTime + soakTime]; and for [soakTemp1=100, soakTemp2=150,
    soakTime=60], when the executor is in Soak at some tick up to 94, having
    entered Soak at tick 35 at the latest, the state is Fail at tick 135. *)
Theorem C2_soak_timeout_fails (arith : FieldArith) (e : Executor)
        (temperatures : list Q) :
  state e = s_soak ->
  0 < soakTime (currentProfile e) ->
  soakTemp1 (currentProfile e) <= soakTemp2 (currentProfile e) ->
  0 <= timeout e ->
  Forall (fun T => (T < inject_Z (soakTemp2 (currentProfile e) - delta))%Q)
         temperatures ->
  (forall T,
      (T < inject_Z (soakTemp2 (currentProfile e) - delta))%Q ->
      startOfSoakTime e + soakTime (currentProfile e) <= time e + 1 ->
      (inject_Z (soakTemp2 (currentProfile e)) <= setpoint e)%Q ->
      timeout (step arith T e) = timeout e + 1
      /\ state (step arith T e) = if 40 <? timeout e + 1 then s_fail else s_soak)
  /\ (41 <= Z.of_nat (length temperatures) ->
      startOfSoakTime e + soakTime (currentProfile e) + 40
      <= time e + Z.of_nat (length temperatures) ->
      state (ticks arith temperatures e) = s_fail)
  /\ (soakTemp1 (currentProfile e) = 100 ->
      soakTemp2 (currentProfile e) = 150 ->
      soakTime (currentProfile e) = 60 ->
      startOfSoakTime e <= 35 -> time e <= 94 ->
      time e + Z.of_nat (length temperatures) = 135 ->
      time (ticks arith temperatures e) = 135
      /\ state (ticks arith temperatures e) = s_fail).
Proof.
  intros Hs Htime Hd Hto Hbelow.
  assert (Hrun : 41 <= Z.of_nat (length temperatures) ->
                 startOfSoakTime e + soakTime (currentProfile e) + 40
                 <= time e + Z.of_nat (length temperatures) ->
                 state (ticks arith temperatures e) = s_fail).
  { intros Hlen Hend.
    apply (soak_fails_within arith (currentProfile e) Htime Hd);
      try assumption; try reflexivity; intros; try split; lia. }
  split; [| split].
  - intros T HT Hpast Hsp.
    destruct (soak_tick arith T e Hs HT Htime Hd Hto)
      as (_ & _ & _ & _ & _ & Hafter).
    destruct (Hafter Hpast) as (_ & _ & Hcount). exact (Hcount Hsp).
  - exact Hrun.
  - intros H1 H2 H3 Hst Ht Hlen. split.
    + rewrite time_ticks. exact Hlen.
    + apply Hrun; rewrite ?H3; lia.
Qed.

(** The run of [readings_to_soak_at_30] enters Soak at tick 30; stalled at
    140 degrees it is still in Soak at tick 129 and in Fail from tick 130. *)
Lemma stalled_soak_run :
  let e30 := ticks IntegerFields readings_to_soak_at_30
                   (started profile_100_150_60 25) in
  (state e30, time e30, startOfSoakTime e30) = (s_soak, 30, 30)
  /\ state (ticks IntegerFields (firstn 99 readings_stalled_soak) e30) = s_soak
  /\ state (ticks IntegerFields (firstn 100 readings_stalled_soak) e30) = s_fail
  /\ state (ticks FloatFields (firstn 99 readings_stalled_soak)
                  (ticks FloatFields readings_to_soak_at_30
                         (started profile_100_150_60 25))) = s_soak
  /\ state (ticks FloatFields (firstn 100 readings_stalled_soak)
                  (ticks FloatFields readings_to_soak_at_30
                         (started profile_100_150_60 25))) = s_fail.
Proof. vm_compute. repeat split. Qed.

Lemma C2_soak_timeout_fails_witness :
  let e30 := ticks IntegerFields readings_to_soak_at_30
                   (started profile_100_150_60 25) in
  time (ticks IntegerFields readings_stalled_soak e30) = 135
  /\ state (ticks IntegerFields readings_stalled_soak e30) = s_fail.
Proof.
  intros e30.
  assert (Hs : state e30 = s_soak) by (vm_compute; reflexivity).
  assert (Hp : currentProfile e30 = profile_100_150_60)
    by (vm_compute; reflexivity).
  assert (Hbelow :
            Forall (fun T => (T < inject_Z (soakTemp2 (currentProfile e30) - delta))%Q)
                   readings_stalled_soak).
  { rewrite Hp. unfold readings_stalled_soak. apply Forall_forall.
    intros T HT. apply list_elem_of_In, repeat_spec in HT. subst T.
    vm_compute. reflexivity. }
  destruct (C2_soak_timeout_fails IntegerFields e30 readings_stalled_soak)
    as (_ & _ & Hconcrete); try assumption;
    try (rewrite Hp; vm_compute; first [reflexivity | discriminate]).
  - vm_compute. discriminate.
  - apply Hconcrete; try (rewrite Hp); vm_compute;
      first [reflexivity | discriminate].
Defined.

(** C2 as it is worded fails: it fixes neither the ramp of the profile nor
    the temperature the run starts from, and Soak is entered by the set-point
    and the reading together.  With [ramp1Slope = 1] from 25 degrees and the
    readings it names (100 degrees at tick 30, 140 degrees after it, all
    below 145) the set-point reaches 100 at tick 75, Soak is entered at tick
    76, the state is still Soak at tick 135 and it is Fail from tick 176. *)
Lemma C2_slow_ramp_is_in_soak_at_tick_135 :
  let readings := readings_to_soak_at_30 ++ readings_stalled_longer in
  (nth 29 readings 0 == 100)%Q
  /\ forallb (fun T => Qltb T 145) readings = true
  /\ forall arith,
       let after n := ticks arith (firstn n readings)
                            (started profile_slow_ramp 25) in
       (state (after 30%nat), time (after 30%nat)) = (s_preheat, 30)
       /\ (state (after 75%nat), timeout (after 75%nat)) = (s_preheat, 0)
       /\ (setpoint (after 75%nat) == 100)%Q
       /\ (state (after 76%nat), startOfSoakTime (after 76%nat)) = (s_soak, 76)
       /\ (state (after 135%nat), time (after 135%nat)) = (s_soak, 135)
       /\ state (after 175%nat) = s_soak
       /\ state (after 176%nat) = s_fail.
Proof.
  split; [reflexivity |]. split; [vm_compute; reflexivity |].
  intros []; vm_compute; repeat split; reflexivity.
Qed.

(** *** Preheat *)

Lemma preheat_ramp_tick (arith : FieldArith) (T : Q) (e : Executor) :
  state e = s_preheat ->
  (setpoint e < inject_Z (soakTemp1 (currentProfile e)))%Q ->
  step arith T e
  = set_timeout (set_setpoint (set_time e (time e + 1))
                              (setpoint e + ramp1Slope (currentProfile e))%Q) 0.
Proof.
  intros Hs Hsp. unfold step, handler. cbn. rewrite Hs.
  apply Qltb_lt in Hsp. rewrite Hsp. reflexivity.
Qed.

Lemma preheat_wait_tick (arith : FieldArith) (T : Q) (e : Executor) :
  state e = s_preheat ->
  (inject_Z (soakTemp1 (currentProfile e)) <= setpoint e)%Q ->
  (T < inject_Z (soakTemp1 (currentProfile e)))%Q ->
  timeout e < 50 ->
  let e' := step arith T e in
  currentProfile e' = currentProfile e
  /\ time e' = time e + 1
  /\ setpoint e' = setpoint e
  /\ timeout e' = timeout e + 1
  /\ state e'
     = (if (5 <? timeout e)
           && Qgeb T (inject_Z (soakTemp1 (currentProfile e) - delta))
        then s_soak else s_preheat)
  /\ startOfSoakTime e'
     = (if (5 <? timeout e)
           && Qgeb T (inject_Z (soakTemp1 (currentProfile e) - delta))
        then time e + 1 else startOfSoakTime e).
Proof.
  intros Hs Hsp HT Hto. unfold step, handler. cbn. rewrite Hs.
  apply Qltb_ge in Hsp. rewrite Hsp. unfold reached. cbn.
  apply Qgeb_lt in HT. rewrite HT. cbn.
  destruct ((5 <? timeout e) && Qgeb T _); cbn;
    (destruct (Z.ltb_spec 50 (timeout e + 1)); [lia |]);
    cbn; rewrite ?Hs; repeat split; reflexivity.
Qed.

(** While the counter reads at most 5 when it is compared, no reading below
    [soakTemp1] ends Preheat. *)
Lemma preheat_waits (arith : FieldArith) (temperatures : list Q) :
  forall e : Executor,
    state e = s_preheat ->
    (inject_Z (soakTemp1 (currentProfile e)) <= setpoint e)%Q ->
    Forall (fun T => (T < inject_Z (soakTemp1 (currentProfile e)))%Q) temperatures ->
    timeout e + Z.of_nat (length temperatures) <= 6 ->
    let e' := ticks arith temperatures e in
    currentProfile e' = currentProfile e
    /\ time e' = time e + Z.of_nat (length temperatures)
    /\ setpoint e' = setpoint e
    /\ timeout e' = timeout e + Z.of_nat (length temperatures)
    /\ state e' = s_preheat.
Proof.
  induction temperatures as [| T rest IH]; intros e Hs Hsp Hall Hlen.
  - simpl. repeat split; try lia. exact Hs.
  - apply Forall_cons_iff in Hall. destruct Hall as [HT Hrest].
    simpl length in *. rewrite Nat2Z.inj_succ in *. simpl ticks.
    destruct (preheat_wait_tick arith T e Hs Hsp HT ltac:(lia))
      as (Hp' & Ht' & Hsp' & Hto' & Hs' & _).
    destruct (Z.ltb_spec 5 (timeout e)) as [Hgt | _]; [lia |].
    cbn in Hs'.
    destruct (IH (step arith T e)) as (Hp2 & Ht2 & Hsp2 & Hto2 & Hs2);
      rewrite ?Hp', ?Hsp', ?Hto'; try assumption; try lia.
    cbv zeta. rewrite Hp2, Ht2, Hsp2, Hto2, Hs2, Hp', Ht', Hsp', Hto'.
    repeat split; lia.
Qed.

(** C4 (as the code has it).  In Preheat the counter is compared with [> 5]
    before it is incremented.  From the tick on which the set-point reaches
    [soakTemp1], which clears the counter, a reading of exactly
    [soakTemp1 - 5] does not end Preheat on the sixth tick that follows,
    where the counter still reads 5, and does on the seventh, where it
    reads 6. *)
Theorem C4_relaxed_exit_when_counter_reads_6 (arith : FieldArith) (e : Executor)
        (T0 : Q) (temperatures : list Q) :
  state e = s_preheat ->
  (setpoint e < inject_Z (soakTemp1 (currentProfile e)))%Q ->
  (inject_Z (soakTemp1 (currentProfile e))
   <= setpoint e + ramp1Slope (currentProfile e))%Q ->
  length temperatures = 5%nat ->
  Forall (fun T => (T < inject_Z (soakTemp1 (currentProfile e)))%Q) temperatures ->
  let T := inject_Z (soakTemp1 (currentProfile e) - delta) in
  let e0 := step arith T0 e in
  let e5 := ticks arith temperatures e0 in
  let e6 := step arith T e5 in
  let e7 := step arith T e6 in
  (state e0 = s_preheat /\ timeout e0 = 0)
  /\ (state e5 = s_preheat /\ timeout e5 = 5)
  /\ (state e6 = s_preheat /\ timeout e6 = 6)
  /\ (state e7 = s_soak /\ startOfSoakTime e7 = time e + 8).
Proof.
  intros Hs Hlow Hhigh Hlen Hall T e0 e5 e6 e7.
  assert (He0 : e0 = set_timeout
                       (set_setpoint (set_time e (time e + 1))
                                     (setpoint e + ramp1Slope (currentProfile e))%Q) 0)
    by (apply preheat_ramp_tick; assumption).
  assert (Hp0 : currentProfile e0 = currentProfile e) by (rewrite He0; reflexivity).
  assert (Hs0 : state e0 = s_preheat) by (rewrite He0; exact Hs).
  assert (Hto0 : timeout e0 = 0) by (rewrite He0; reflexivity).
  assert (Hsp0 : (inject_Z (soakTemp1 (currentProfile e0)) <= setpoint e0)%Q)
    by (rewrite He0; exact Hhigh).
  assert (Ht0 : time e0 = time e + 1) by (rewrite He0; reflexivity).
  destruct (preheat_waits arith temperatures e0 Hs0 Hsp0)
    as (Hp5 & Ht5 & Hsp5 & Hto5 & Hs5);
    [rewrite Hp0; exact Hall | rewrite Hto0, Hlen; simpl; lia |].
  change (ticks arith temperatures e0) with e5 in Hp5, Ht5, Hsp5, Hto5, Hs5.
  rewrite Hto0, Hlen in Hto5. rewrite Ht0, Hlen in Ht5.
  change (timeout e5 = 5) in Hto5.
  assert (HT : forall x, currentProfile x = currentProfile e ->
                         (T < inject_Z (soakTemp1 (currentProfile x)))%Q).
  { intros x ->. unfold T, delta. rewrite <- Zlt_Qlt. lia. }
  assert (Hband : forall x, currentProfile x = currentProfile e ->
                  Qgeb T (inject_Z (soakTemp1 (currentProfile x) - delta)) = true).
  { intros x ->. apply Qgeb_ge. unfold T. apply Qle_refl. }
  destruct (preheat_wait_tick arith T e5 Hs5)
    as (Hp6 & Ht6 & Hsp6 & Hto6 & Hs6 & _);
    [rewrite Hsp5, Hp5; exact Hsp0 | apply HT; congruence
    | rewrite Hto5; reflexivity |].
  change (step arith T e5) with e6 in Hp6, Ht6, Hsp6, Hto6, Hs6.
  rewrite Hto5 in Hs6, Hto6.
  change (timeout e6 = 6) in Hto6. change (state e6 = s_preheat) in Hs6.
  destruct (preheat_wait_tick arith T e6 Hs6)
    as (Hp7 & Ht7 & Hsp7 & Hto7 & Hs7 & Hst7);
    [rewrite Hsp6, Hsp5, Hp6, Hp5; exact Hsp0
    | apply HT; congruence | rewrite Hto6; reflexivity |].
  change (step arith T e6) with e7 in Hp7, Ht7, Hsp7, Hto7, Hs7, Hst7.
  rewrite Hto6 in Hs7, Hst7. rewrite Hband in Hs7, Hst7 by congruence.
  change (state e7 = s_soak) in Hs7.
  change (startOfSoakTime e7 = time e6 + 1) in Hst7.
  repeat split; try assumption.
  rewrite Hst7, Ht6, Ht5. clearbody e0 e5 e6 e7 T. simpl. lia.
Qed.

Lemma C4_relaxed_exit_when_counter_reads_6_witness :
  let e := ticks IntegerFields (firstn 24 readings_to_setpoint_100)
                 (started profile_100_150_60 25) in
  let e0 := step IntegerFields 90 e in
  let e5 := ticks IntegerFields (readings_at_95 5) e0 in
  let e6 := step IntegerFields 95 e5 in
  let e7 := step IntegerFields 95 e6 in
  (state e0 = s_preheat /\ timeout e0 = 0)
  /\ (state e5 = s_preheat /\ timeout e5 = 5)
  /\ (state e6 = s_preheat /\ timeout e6 = 6)
  /\ (state e7 = s_soak /\ startOfSoakTime e7 = 32).
Proof.
  intros e.
  apply (C4_relaxed_exit_when_counter_reads_6
           IntegerFields e 90 (readings_at_95 5)).
  - vm_compute. reflexivity.
  - vm_compute. reflexivity.
  - vm_compute. discriminate.
  - reflexivity.
  - unfold readings_at_95. simpl repeat.
    repeat (constructor; [vm_compute; reflexivity |]). constructor.
Defined.

(** C4 as it is worded fails: with the set-point at [soakTemp1 = 100] since
    tick 25 and the reading at exactly 95 degrees, the sixth tick of waiting
    (tick 31) leaves the state in Preheat; Soak is entered on the seventh. *)
Lemma C4_sixth_tick_stays_in_preheat :
  let e := ticks IntegerFields readings_to_setpoint_100
                 (started profile_100_150_60 25) in
  (state e = s_preheat /\ (setpoint e == 100)%Q /\ timeout e = 0)
  /\ state (ticks IntegerFields (readings_at_95 6) e) <> s_soak
  /\ state (ticks IntegerFields (readings_at_95 7) e) = s_soak
  /\ state (ticks FloatFields (readings_at_95 6)
                  (ticks FloatFields readings_to_setpoint_100
                         (started profile_100_150_60 25))) <> s_soak.
Proof.
  vm_compute. repeat split; discriminate.
Qed.

(** *** Failure paths *)






(** C7.  When no channel reads Enabled, [runProfile] returns at its first
    test: it calls none of the collaborators (no duty cycle is written, the
    PID is not enabled, the timer is neither created nor started) and leaves
    the globals, the run state among them, as they were. *)
Theorem C7_no_usable_channel_no_run (arith : FieldArith) (env : Environment)
        (e : Executor) :
  (forall t, (t < DataPoint.NUM_THERMOCOUPLES)%nat ->
             Max31855.status (Max31855.getReading (sensors env t))
             <> Max31855.TH_ENABLED) ->
  runProfile arith env e = (e, []).
Proof.
  intros Hnone. unfold runProfile.
  assert (checkThermocouples (sensors env) = false) as ->; [| reflexivity].
  unfold checkThermocouples. apply not_true_iff_false. intros Hex.
  apply existsb_exists in Hex. destruct Hex as [t [Hin Hen]].
  apply in_seq in Hin. apply (Hnone t); [lia |].
  unfold Max31855.status_eqb in Hen. apply Z.eqb_eq in Hen.
  destruct (Max31855.status _); simpl in Hen; try discriminate. reflexivity.
Qed.

Lemma C7_no_usable_channel_no_run_witness :
  runProfile IntegerFields all_disabled_run (started profile_100_150_60 0)
  = (started profile_100_150_60 0, []).
Proof.
  apply C7_no_usable_channel_no_run.
  intros t _. vm_compute. discriminate.
Defined.

End ExecutorFacts.

(** ** The preview of the target curve *)

Section PreviewFacts.

Import RunProfile.

Variable arith : FieldArith.
Variable profile : NvSolderProfile.

Lemma soakInterpolation_0 : (soakInterpolation arith profile 0 == inject_Z (soakTemp1 profile))%Q.
Proof.
  destruct arith; unfold soakInterpolation.
  - rewrite Z.mul_0_l. simpl Z.quot. rewrite Z.add_0_r. reflexivity.
  - change (inject_Z 0) with 0%Q. unfold Qdiv. ring.
Qed.

Lemma on_soak_line_calculate (d : Draw.t) :
  on_soak_line arith profile d ->
  on_soak_line arith profile (Draw.calculate arith profile d).
Proof.
  unfold on_soak_line, Draw.calculate. intros Hinv.
  destruct (Draw.state d) eqn:Hs; cbn; try discriminate.
  - destruct (Qltb _ _); cbn; [discriminate |]. intros _. split; lia.
  - destruct (Hinv eq_refl) as [Hle _].
    destruct (Z.leb_spec (Draw.startOfSoakTime d + soakTime profile)
                         (Draw.time d + 1)); [discriminate |].
    intros _. split; [lia |]. intros _.
    destruct (Qltb _ _) eqn:Hq; [right; reflexivity |].
    left. apply Qltb_ge. exact Hq.
  - destruct (Qltb _ _); cbn; discriminate.
  - destruct (_ <? _); discriminate.
  - destruct (Qgtb _ _); cbn; discriminate.
Qed.

Lemma on_soak_line_run (soak0 dwell0 : Z) (n : nat) :
  on_soak_line arith profile (Draw.run arith profile (Draw.start soak0 dwell0) n).
Proof.
  induction n as [| n IH]; simpl.
  - unfold on_soak_line. simpl. discriminate.
  - apply on_soak_line_calculate. exact IH.
Qed.

(** One step of the preview never lowers the set-point while heating, save
    on the first tick of Soak, and never raises it in RampDown. *)
Lemma calculate_monotone (d : Draw.t) :
  well_formed profile -> 0 < soakTime profile ->
  on_soak_line arith profile d ->
  let d' := Draw.calculate arith profile d in
  (Draw.state d = s_preheat \/ Draw.state d = s_ramp_up \/ Draw.state d = s_dwell ->
   (Draw.setpoint d <= Draw.setpoint d')%Q)
  /\ (Draw.state d = s_soak -> Draw.time d <> Draw.startOfSoakTime d ->
      (Draw.setpoint d <= Draw.setpoint d')%Q)
  /\ (Draw.state d = s_soak -> Draw.time d = Draw.startOfSoakTime d ->
      (inject_Z (soakTemp1 profile) <= Draw.setpoint d')%Q
      /\ ((Draw.setpoint d == inject_Z (soakTemp1 profile))%Q ->
          (Draw.setpoint d <= Draw.setpoint d')%Q))
  /\ (Draw.state d = s_ramp_down -> (Draw.setpoint d' <= Draw.setpoint d)%Q).
Proof.
  intros (H12 & H2p & Hr1 & Hr2 & Hrd) Htime Hline.
  assert (Hmono := fun k => soakInterpolation_mono arith profile k Htime
                              ltac:(lia)).
  assert (H21 : (inject_Z (soakTemp1 profile) < inject_Z (soakTemp2 profile))%Q)
    by (rewrite <- Zlt_Qlt; exact H12).
  unfold Draw.calculate. cbv zeta.
  split; [| split; [| split]].
  - intros [Hs | [Hs | Hs]]; rewrite Hs; cbn.
    + destruct (Qltb _ _); cbn; lra.
    + destruct (Qltb _ _); cbn; lra.
    + lra.
  - intros Hs Hne. rewrite Hs. cbn.
    destruct (Hline Hs) as [Hle Hon].
    destruct (Qltb _ _) eqn:Hq; [apply Qltb_lt in Hq | lra].
    destruct Hon as [Hfull | Hat]; [lia | lra |].
    rewrite Hat at 1.
    replace (Draw.time d + 1 - Draw.startOfSoakTime d)
      with (Draw.time d - Draw.startOfSoakTime d + 1) by lia.
    apply Hmono.
  - intros Hs Heq. rewrite Hs. cbn.
    destruct (Qltb _ _) eqn:Hq; [apply Qltb_lt in Hq | apply Qltb_ge in Hq].
    + replace (Draw.time d + 1 - Draw.startOfSoakTime d) with (0 + 1) by lia.
      pose proof (Hmono 0) as H01. rewrite soakInterpolation_0 in H01.
      split; [exact H01 |]. intros Hat. rewrite Hat. exact H01.
    + split; lra.
  - intros Hs. rewrite Hs. cbn. destruct (Qgtb _ _); cbn; lra.
Qed.

(** C5 (as the code has it).  For a well-formed profile with a positive
    soak time, the set-points of the preview started by [plot] do not
    decrease over the ticks of Preheat, RampUp and Dwell, nor over the ticks
    of Soak after the first; on the first tick of Soak the set-point is put
    on the line from [soakTemp1], so it stays at or above [soakTemp1], and
    does not decrease if Preheat ended exactly at [soakTemp1]; over the
    ticks of RampDown the set-points do not increase. *)
Theorem C5_setpoint_monotone_but_entering_soak (soak0 dwell0 : Z) (n : nat) :
  well_formed profile -> 0 < soakTime profile ->
  let d := Draw.run arith profile (Draw.start soak0 dwell0) n in
  let d' := Draw.run arith profile (Draw.start soak0 dwell0) (S n) in
  (Draw.state d = s_preheat \/ Draw.state d = s_ramp_up \/ Draw.state d = s_dwell ->
   (Draw.setpoint d <= Draw.setpoint d')%Q)
  /\ (Draw.state d = s_soak -> Draw.time d <> Draw.startOfSoakTime d ->
      (Draw.setpoint d <= Draw.setpoint d')%Q)
  /\ (Draw.state d = s_soak -> Draw.time d = Draw.startOfSoakTime d ->
      (inject_Z (soakTemp1 profile) <= Draw.setpoint d')%Q
      /\ ((Draw.setpoint d == inject_Z (soakTemp1 profile))%Q ->
          (Draw.setpoint d <= Draw.setpoint d')%Q))
  /\ (Draw.state d = s_ramp_down -> (Draw.setpoint d' <= Draw.setpoint d)%Q).
Proof.
  intros Hwf Htime. simpl.
  apply calculate_monotone; try assumption. apply on_soak_line_run.
Qed.

End PreviewFacts.

Lemma profile_100_150_60_well_formed : well_formed profile_100_150_60.
Proof. unfold well_formed. simpl. repeat apply conj; try lia; reflexivity. Qed.

Lemma C5_setpoint_monotone_but_entering_soak_witness :
  let d := RunProfile.Draw.run IntegerFields profile_100_150_60
                               (RunProfile.Draw.start 0 0) 40 in
  let d' := RunProfile.Draw.run IntegerFields profile_100_150_60
                                (RunProfile.Draw.start 0 0) 41 in
  (well_formed profile_100_150_60 /\ 0 < soakTime profile_100_150_60)
  /\ (RunProfile.Draw.state d = s_soak
      /\ RunProfile.Draw.time d <> RunProfile.Draw.startOfSoakTime d)
  /\ (RunProfile.Draw.setpoint d <= RunProfile.Draw.setpoint d')%Q.
Proof.
  intros d d'.
  assert (Hwf := profile_100_150_60_well_formed).
  assert (Htime : 0 < soakTime profile_100_150_60) by reflexivity.
  assert (Hs : RunProfile.Draw.state d = s_soak) by (vm_compute; reflexivity).
  assert (Hne : RunProfile.Draw.time d <> RunProfile.Draw.startOfSoakTime d)
    by (vm_compute; discriminate).
  split; [split; assumption |]. split; [split; assumption |].
  destruct (C5_setpoint_monotone_but_entering_soak
              IntegerFields profile_100_150_60 0 0 40 Hwf Htime)
    as (_ & Hsoak & _).
  exact (Hsoak Hs Hne).
Defined.

(** C5 as it is worded fails: the profile below is well formed, its preview
    reaches 101 degrees at tick 17 and enters Soak at tick 18, and the tick
    after that lowers the set-point onto the line from [soakTemp1 = 100]. *)
Lemma C5_setpoint_drops_entering_soak :
  well_formed profile_100_150_60
  /\ (forall arith,
         let d := RunProfile.Draw.run arith profile_100_150_60
                                      (RunProfile.Draw.start 0 0) 18 in
         let d' := RunProfile.Draw.run arith profile_100_150_60
                                       (RunProfile.Draw.start 0 0) 19 in
         RunProfile.Draw.state d = s_soak
         /\ (RunProfile.Draw.setpoint d == 101)%Q
         /\ (RunProfile.Draw.setpoint d' < RunProfile.Draw.setpoint d)%Q).
Proof.
  split; [exact profile_100_150_60_well_formed |].
  intros []; vm_compute; repeat split; reflexivity.
Qed.

(** ** The preview against the executor *)

Section PreviewAndExecutor.

Import RunProfile.

Variable arith : FieldArith.
Variable profile : NvSolderProfile.

Lemma ramp_down_tick (T : Q) (e : Executor) :
  state e = s_ramp_down ->
  state (step arith T e) = (if Qltb T (ambient e) then s_complete else s_ramp_down)
  /\ setpoint (step arith T e)
     = (if Qgtb (setpoint e) (ambient e)
        then (setpoint e + rampDownSlope (currentProfile e))%Q
        else setpoint e).
Proof.
  intros Hs. unfold step, handler. cbn. rewrite Hs.
  destruct (Qgtb _ _); cbn; destruct (Qltb _ _); cbn; rewrite ?Hs;
    split; reflexivity.
Qed.

(** C6 (as the code has it).  Started from the same point, one step of the
    preview and one tick of the executor advance the time alike and make the
    same change to the set-point in every state, in RampDown provided the
    ambient temperature of the run is the 50 degrees the preview is built on;
    the administrative states and Dwell take the same transitions.  The
    preview leaves Preheat and RampUp when the set-point has reached the
    target and Soak when the soak time is over.  The executor takes the same
    transition in Preheat when the measured temperature has reached
    [soakTemp1] and the timeout counter is below 50, and in Soak when the
    measured temperature has reached [soakTemp2]; in Preheat with the
    set-point at [soakTemp1] and the counter at 50 or above it goes to Fail
    whatever the temperature; it leaves RampUp on the measured temperature
    alone.  In RampDown the preview lowers the set-point while it is above
    50 degrees and then stops in state Off, the executor lowers it while it
    is above ambient and goes to Complete when the measured temperature
    falls below ambient. *)
Theorem C6_preview_and_executor_step (d : Draw.t) (T amb : Q) (to : Z) :
  let e := live_of profile d amb to in
  let d' := Draw.calculate arith profile d in
  let e' := step arith T e in
  time e' = Draw.time d'
  /\ (Draw.state d <> s_ramp_down -> setpoint e' = Draw.setpoint d')
  /\ (Draw.state d = s_ramp_down -> amb = 50%Q -> setpoint e' = Draw.setpoint d')
  /\ (Draw.state d = s_off \/ Draw.state d = s_manual \/ Draw.state d = s_init
      \/ Draw.state d = s_fail \/ Draw.state d = s_complete ->
      state e' = Draw.state d /\ Draw.state d' = Draw.state d)
  /\ (Draw.state d = s_dwell ->
      state e' = Draw.state d'
      /\ Draw.state d'
         = (if Draw.startOfDwellTime d + peakDwell profile <? Draw.time d + 1
            then s_ramp_down else s_dwell))
  /\ (Draw.state d = s_preheat ->
      Draw.state d'
      = (if Qltb (Draw.setpoint d) (inject_Z (soakTemp1 profile))
         then s_preheat else s_soak)
      /\ ((inject_Z (soakTemp1 profile) <= T)%Q -> to < 50 ->
          state e' = Draw.state d'
          /\ startOfSoakTime e' = Draw.startOfSoakTime d')
      /\ ((inject_Z (soakTemp1 profile) <= Draw.setpoint d)%Q -> 50 <= to ->
          state e' = s_fail))
  /\ (Draw.state d = s_soak ->
      Draw.state d'
      = (if Draw.startOfSoakTime d + soakTime profile <=? Draw.time d + 1
         then s_ramp_up else s_soak)
      /\ ((inject_Z (soakTemp2 profile) <= T)%Q -> state e' = Draw.state d'))
  /\ (Draw.state d = s_ramp_up ->
      Draw.state d'
      = (if Qltb (Draw.setpoint d) (inject_Z (peakTemp profile))
         then s_ramp_up else s_dwell)
      /\ (state e' = s_dwell <-> (inject_Z (peakTemp profile - delta) <= T)%Q))
  /\ (Draw.state d = s_ramp_down ->
      Draw.state d' = (if Qgtb (Draw.setpoint d) 50 then s_ramp_down else s_off)
      /\ state e' = (if Qltb T amb then s_complete else s_ramp_down)
      /\ Draw.setpoint d'
         = (if Qgtb (Draw.setpoint d) 50
            then (Draw.setpoint d + rampDownSlope profile)%Q
            else Draw.setpoint d)
      /\ setpoint e'
         = (if Qgtb (Draw.setpoint d) amb
            then (Draw.setpoint d + rampDownSlope profile)%Q
            else Draw.setpoint d)).
Proof.
  intros e d' e'. subst e d' e'.
  unfold step, handler, Draw.calculate, live_of, reached. cbn.
  repeat apply conj.
  - destruct (Draw.state d); cbn; split_tests; reflexivity.
  - intros Hne. destruct (Draw.state d); try congruence; cbn; split_tests;
      reflexivity.
  - intros Hs ->. rewrite Hs. cbn. split_tests; reflexivity.
  - intros Hs.
    repeat match goal with H : _ \/ _ |- _ => destruct H as [H | H] end;
      rewrite Hs; cbn; split; reflexivity.
  - intros Hs. rewrite Hs. cbn. split_tests; split; reflexivity.
  - intros Hs. rewrite Hs. cbn.
    destruct (Qltb (Draw.setpoint d) _) eqn:Hq; cbn;
      (split; [reflexivity |]); split.
    + intros HT Hto. split; reflexivity.
    + intros Hsp Hto. apply Qltb_lt in Hq. lra.
    + intros HT Hto. apply Qgeb_ge in HT. rewrite HT. cbn.
      destruct (Z.ltb_spec 50 (to + 1)); [lia |]. split; reflexivity.
    + intros Hsp Hto.
      destruct (_ || _); cbn;
        (destruct (Z.ltb_spec 50 (to + 1)); [reflexivity | lia]).
  - intros Hs. rewrite Hs. cbn.
    destruct (Qltb (Draw.setpoint d) _); cbn;
      destruct (Z.leb_spec (Draw.startOfSoakTime d + soakTime profile)
                           (Draw.time d + 1)); cbn;
      (split; [reflexivity |]); intros HT; try reflexivity;
      apply Qgeb_ge in HT; rewrite HT; reflexivity.
  - intros Hs. rewrite Hs. cbn.
    destruct (Qltb (Draw.setpoint d) _); cbn; (split; [reflexivity |]);
      (destruct (Qgeb T _) eqn:HT; [apply Qgeb_ge in HT | apply Qgeb_lt in HT]);
      cbn; split_tests; split; intros; try reflexivity; try assumption;
      try discriminate; lra.
  - intros Hs. rewrite Hs. cbn.
    split_tests; repeat split; try reflexivity; exfalso; lra.
Qed.

End PreviewAndExecutor.

Lemma C6_preview_and_executor_step_witness :
  let d := RunProfile.Draw.run IntegerFields profile_100_150_60
                               (RunProfile.Draw.start 0 0) 150 in
  RunProfile.Draw.state d = s_ramp_down
  /\ RunProfile.setpoint
       (RunProfile.step IntegerFields 60 (live_of profile_100_150_60 d 50 0))
     = RunProfile.Draw.setpoint
         (RunProfile.Draw.calculate IntegerFields profile_100_150_60 d).
Proof.
  intros d.
  assert (Hs : RunProfile.Draw.state d = s_ramp_down) by (vm_compute; reflexivity).
  split; [exact Hs |].
  destruct (C6_preview_and_executor_step
              IntegerFields profile_100_150_60 d 60 50 0)
    as (_ & _ & Hdown & _).
  exact (Hdown Hs eq_refl).
Defined.

(** C6 as it is worded fails: at tick 174 of the preview of the profile
    below the set-point has come down to 48 degrees; the preview ends in Off,
    a state that no measured temperature, ambient temperature or value of the
    timeout counter lets the executor take from RampDown, where it neither
    fails; and in a run from 25 degrees the executor goes on lowering the
    set-point, which the preview holds at 48. *)
Lemma C6_preview_ends_in_off_at_50 :
  let d := RunProfile.Draw.run IntegerFields profile_100_150_60
                               (RunProfile.Draw.start 0 0) 174 in
  let d' := RunProfile.Draw.calculate IntegerFields profile_100_150_60 d in
  (RunProfile.Draw.state d = s_ramp_down /\ RunProfile.Draw.state d' = s_off)
  /\ (forall T amb to,
         let e' := RunProfile.step IntegerFields T
                                   (live_of profile_100_150_60 d amb to) in
         RunProfile.state e' <> s_off /\ RunProfile.state e' <> s_fail)
  /\ ((RunProfile.Draw.setpoint d' == 48)%Q
      /\ (RunProfile.setpoint
            (RunProfile.step IntegerFields 60
                             (live_of profile_100_150_60 d 25 0)) == 45)%Q).
Proof.
  intros d d'.
  assert (Hs : RunProfile.Draw.state d = s_ramp_down) by (vm_compute; reflexivity).
  split; [split; [exact Hs | vm_compute; reflexivity] |]. split.
  - intros T amb to e'.
    destruct (ramp_down_tick IntegerFields T (live_of profile_100_150_60 d amb to) Hs)
      as [Hst _].
    subst e'. rewrite Hst. destruct (Qltb _ _); split; discriminate.
  - split; vm_compute; reflexivity.
Qed.

(** ** Disabled channels *)

Section DisabledChannels.

Import Max31855.

(** [getEnabledReading] reports 0 degrees for a disabled thermocouple. *)
Lemma getEnabledReading_disabled (s : Sensor) :
  status (getEnabledReading s) = TH_DISABLED ->
  temperature (getEnabledReading s) = Fin 0.
Proof.
  unfold getEnabledReading.
  destruct (status_eqb (status (getReading s)) TH_DISABLED) eqn:Heq.
  - reflexivity.
  - simpl. intros Hd. rewrite Hd in Heq. discriminate.
Qed.

(** A thermocouple is read as disabled only if its probe reading is valid:
    the temperature [getReading] hands out is then the reading itself. *)
Lemma getReading_disabled (s : Sensor) :
  status (getReading s) = TH_DISABLED ->
  exists q, temperature (getReading s) = Fin q.
Proof.
  unfold getReading. destruct (data s) as [[[d0 d1] d2] d3].
  destruct (Z.land d3 7 =? 0) eqn:Hraw.
  - intros _. repeat match goal with
                | |- context [if ?b then _ else _] => destruct b
                end; simpl; eauto.
  - apply Z.eqb_neq in Hraw.
    assert (0 <= Z.land d3 7 < 8) as Hrange.
    { change 7 with (Z.ones 3). rewrite Z.land_ones by lia.
      apply Z.mod_pos_bound. lia. }
    assert (Z.land d3 7 = 1 \/ Z.land d3 7 = 2 \/ Z.land d3 7 = 3
            \/ Z.land d3 7 = 4 \/ Z.land d3 7 = 5 \/ Z.land d3 7 = 6
            \/ Z.land d3 7 = 7) as Hcases by lia.
    destruct Hcases as [-> | [-> | [-> | [-> | [-> | [-> | ->]]]]]];
      simpl; discriminate.
Qed.

Lemma enabled_test (s : ThermocoupleStatus) :
  (Z.land (code s) 0x7 =? 0) = status_eqb s TH_ENABLED.
Proof. destruct s; reflexivity. Qed.

(** What [thermocoupleStatus] hands to the plot: for every channel the
    temperature [getReading] answered, whatever its status, and a mask whose
    bit is set exactly for the channels that read Enabled. *)
Lemma thermocoupleReadings_spec (sensors : nat -> Sensor) (t : nat) :
  (t < RunProfile.DataPoint.NUM_THERMOCOUPLES)%nat ->
  nth t (fst (RunProfile.thermocoupleReadings sensors)) NaN
  = temperature (getReading (sensors t))
  /\ negb (Z.land (snd (RunProfile.thermocoupleReadings sensors))
                  (Z.shiftl 1 (Z.of_nat t)) =? 0)
     = status_eqb (status (getReading (sensors t))) TH_ENABLED.
Proof.
  unfold RunProfile.DataPoint.NUM_THERMOCOUPLES. intros Ht.
  pose proof (enabled_test (status (getReading (sensors 0%nat)))) as E0.
  pose proof (enabled_test (status (getReading (sensors 1%nat)))) as E1.
  pose proof (enabled_test (status (getReading (sensors 2%nat)))) as E2.
  pose proof (enabled_test (status (getReading (sensors 3%nat)))) as E3.
  unfold RunProfile.thermocoupleReadings. simpl fold_left.
  destruct t as [| [| [| [| t]]]]; try lia;
    destruct (status_eqb (status (getReading (sensors 0%nat))) TH_ENABLED);
    destruct (status_eqb (status (getReading (sensors 1%nat))) TH_ENABLED);
    destruct (status_eqb (status (getReading (sensors 2%nat))) TH_ENABLED);
    destruct (status_eqb (status (getReading (sensors 3%nat))) TH_ENABLED);
    rewrite ?E0, ?E1, ?E2, ?E3; split; reflexivity.
Qed.

(** [logThermocoupleStatus] prints what [getThermocouplePoint] returns, and
    that does not depend on the temperatures the point has recorded. *)
Lemma getThermocouplePoint_ignores_record (p : RunProfile.DataPoint.t)
      (thermocouples' : list Z) (temp : list Q) :
  RunProfile.DataPoint.getThermocouplePoint
    {| RunProfile.DataPoint.state := RunProfile.DataPoint.state p;
       RunProfile.DataPoint.heater := RunProfile.DataPoint.heater p;
       RunProfile.DataPoint.fan := RunProfile.DataPoint.fan p;
       RunProfile.DataPoint.activeThermocouples :=
         RunProfile.DataPoint.activeThermocouples p;
       RunProfile.DataPoint.target := RunProfile.DataPoint.target p;
       RunProfile.DataPoint.thermocouples := thermocouples' |} temp
  = RunProfile.DataPoint.getThermocouplePoint p temp.
Proof. reflexivity. Qed.

(** C8, on a disabled thermocouple whose probe reads 25 degrees.
    [getEnabledReading] reports 0 degrees for it, and its bit is clear in the
    mask that [thermocoupleStatus] records, so that the fused temperature of
    the recorded point leaves it out (here it is NAN, all four being
    disabled); but the temperature that [thermocoupleStatus] records for it
    is the 25 degrees of the probe, not 0. *)
Theorem C8_disabled_channel_is_recorded_with_its_reading :
  let sensors := RunProfile.sensors all_disabled_run in
  let empty := RunProfile.Plot.reset
                 {| RunProfile.Plot.data := []; RunProfile.Plot.lastValid := 0;
                    RunProfile.Plot.marker := 0;
                    RunProfile.Plot.liveDataPresent := false |} in
  (forall t, status (getReading (sensors t)) = TH_DISABLED
             /\ temperature (getReading (sensors t)) = Fin (100 # 4)
             /\ temperature (getEnabledReading (sensors t)) = Fin 0)
  /\ exists plot point,
      RunProfile.thermocoupleStatus sensors 0 empty = Some plot
      /\ RunProfile.Plot.getLastPoint plot = Some point
      /\ RunProfile.DataPoint.activeThermocouples point = 0
      /\ RunProfile.DataPoint.averageTemperature point = NaN
      /\ RunProfile.DataPoint.thermocouples point = [2500; 2500; 2500; 2500].
Proof.
  intros sensors empty. split.
  - intros t. vm_compute. repeat split; reflexivity.
  - eexists. eexists. vm_compute. repeat split; reflexivity.
Qed.

End DisabledChannels.


(** ** More on the thermocouple interface *)

Section SensorFacts.

Import Max31855.

Lemma rawStatus_range (s : Sensor) : 0 <= rawStatus s < 8.
Proof.
  unfold rawStatus. change 7 with (Z.ones 3). rewrite Z.land_ones by lia.
  apply Z.mod_pos_bound. lia.
Qed.

Lemma rawStatus_cases (s : Sensor) :
  rawStatus s = 0 \/ rawStatus s = 1 \/ rawStatus s = 2 \/ rawStatus s = 3
  \/ rawStatus s = 4 \/ rawStatus s = 5 \/ rawStatus s = 6 \/ rawStatus s = 7.
Proof. pose proof (rawStatus_range s). lia. Qed.

(** The cold-junction reading is a number whatever the status bits. *)
Lemma coldReference_defined (s : Sensor) :
  exists q, coldReference (getReading s) = Fin q.
Proof.
  pose proof (rawStatus_cases s) as Hcases.
  unfold rawStatus in *. unfold getReading.
  destruct s as [[[[d0 d1] d2] d3] off en]. simpl data in *. simpl snd in *.
  destruct Hcases as [H | [H | [H | [H | [H | [H | [H | H]]]]]]];
    rewrite H; destruct en; simpl; eauto.
Qed.

(** X1.  What [getReading] answers, by the three status bits and the enabled
    flag.  It never answers [TH_MISSING]. *)
Theorem getReading_classification (s : Sensor) :
  let r := getReading s in
  status r <> TH_MISSING
  /\ (exists q, coldReference r = Fin q)
  /\ (temperature r = NaN <-> rawStatus s <> 0)
  /\ (status r = TH_ENABLED <-> rawStatus s = 0 /\ enabled s = true)
  /\ (status r = TH_DISABLED <-> rawStatus s = 0 /\ enabled s = false)
  /\ (status r = TH_OPEN <-> Z.testbit (rawStatus s) 0 = true)
  /\ (status r = TH_SHORT_GND
      <-> Z.testbit (rawStatus s) 0 = false /\ Z.testbit (rawStatus s) 1 = true)
  /\ (status r = TH_SHORT_VCC <-> rawStatus s = 4).
Proof.
  pose proof (rawStatus_cases s) as Hcases.
  unfold rawStatus in *. unfold getReading.
  destruct s as [[[[d0 d1] d2] d3] off en]. simpl data in *. simpl snd in *.
  simpl enabled. simpl offset.
  destruct Hcases as [H | [H | [H | [H | [H | [H | [H | H]]]]]]];
    rewrite H; destruct en; simpl;
    repeat split; intros;
    repeat match goal with
      | X : _ /\ _ |- _ => destruct X
      end;
    try discriminate; try congruence; try lia; eauto.
Qed.


Lemma to_int16_range (w : Z) : -32768 <= to_int16 w < 32768.
Proof.
  unfold to_int16. pose proof (Z.mod_pos_bound w 65536 ltac:(lia)).
  destruct (Z.ltb_spec (w mod 65536) 32768); lia.
Qed.

(** X2.  A valid probe reading is the manual offset plus a multiple of a quarter
    of a degree between -2048 and 2047.75; the cold junction is a multiple
    of a sixteenth between -2048 and 2047.9375. *)
Theorem getReading_resolution (s : Sensor) :
  let r := getReading s in
  (forall q, temperature r = Fin q ->
             exists k, -8192 <= k < 8192
                       /\ q = (inject_Z k / 4 + inject_Z (offset s))%Q)
  /\ (forall q, coldReference r = Fin q ->
                exists k, -2048 <= k < 2048 /\ q = (inject_Z k / 16)%Q).
Proof.
  unfold getReading.
  destruct s as [[[[d0 d1] d2] d3] off en]. simpl data. simpl enabled. simpl offset.
  set (t := Z.shiftr (to_int16 (Z.lor (Z.shiftl d0 8) d1)) 2).
  set (c := Z.shiftr (to_int16 (Z.lor (Z.shiftl d2 8) d3)) 4).
  assert (Ht : -8192 <= t < 8192).
  { unfold t. rewrite Z.shiftr_div_pow2 by lia.
    pose proof (to_int16_range (Z.lor (Z.shiftl d0 8) d1)).
    change (2 ^ 2) with 4. split.
    - apply Z.div_le_lower_bound; lia.
    - apply Z.div_lt_upper_bound; lia. }
  assert (Hc : -2048 <= c < 2048).
  { unfold c. rewrite Z.shiftr_div_pow2 by lia.
    pose proof (to_int16_range (Z.lor (Z.shiftl d2 8) d3)).
    change (2 ^ 4) with 16. split.
    - apply Z.div_le_lower_bound; lia.
    - apply Z.div_lt_upper_bound; lia. }
  split; intros q Hq.
  - exists t. split; [exact Ht |].
    repeat match type of Hq with
      | context [if ?b then _ else _] => destruct b
      end; cbn [temperature coldReference] in Hq;
      first [discriminate | injection Hq as <-; reflexivity].
  - exists c. split; [exact Hc |].
    repeat match type of Hq with
      | context [if ?b then _ else _] => destruct b
      end; cbn [temperature coldReference] in Hq;
      first [discriminate | injection Hq as <-; reflexivity].
Qed.

(** X3.  Toggling the enabled flag leaves both temperatures as they are, turns an
    Enabled reading into a Disabled one and back, and does not touch the
    status of a faulty probe; toggling twice restores the sensor. *)
Theorem toggleEnable_reading (s : Sensor) :
  let r := getReading s in
  let r' := getReading (toggleEnable s) in
  temperature r' = temperature r
  /\ coldReference r' = coldReference r
  /\ (status r = TH_ENABLED <-> status r' = TH_DISABLED)
  /\ (status r = TH_DISABLED <-> status r' = TH_ENABLED)
  /\ (status r <> TH_ENABLED -> status r <> TH_DISABLED -> status r' = status r)
  /\ toggleEnable (toggleEnable s) = s.
Proof.
  pose proof (rawStatus_cases s) as Hcases.
  unfold rawStatus in *. unfold getReading, toggleEnable.
  destruct s as [[[[d0 d1] d2] d3] off en]. simpl data in *. simpl snd in *.
  simpl enabled. simpl offset.
  destruct Hcases as [H | [H | [H | [H | [H | [H | [H | H]]]]]]];
    rewrite H; destruct en; simpl;
    repeat split; intros; try discriminate; try congruence.
Qed.

End SensorFacts.

(** ** The case fan *)

Section CaseFan.

Import Max31855 CaseTemperatureMonitor.

Lemma c_trunc_mono (x y : Q) : (x <= y)%Q -> c_trunc x <= c_trunc y.
Proof.
  intros Hxy. unfold c_trunc.
  destruct (Qle_bool 0 x) eqn:Hx; destruct (Qle_bool 0 y) eqn:Hy.
  - apply Qfloor_resp_le. exact Hxy.
  - apply Qle_bool_iff in Hx. apply not_true_iff_false in Hy.
    exfalso. apply Hy. apply Qle_bool_iff. lra.
  - apply not_true_iff_false in Hx. rewrite Qle_bool_iff in Hx.
    apply Qle_bool_iff in Hy.
    assert (Qceiling x <= 0).
    { change 0 with (Qceiling 0). apply Qceiling_resp_le. lra. }
    assert (0 <= Qfloor y).
    { change 0 with (Qfloor 0). apply Qfloor_resp_le. exact Hy. }
    lia.
  - apply Qceiling_resp_le. exact Hxy.
Qed.

Lemma c_trunc_Z (z : Z) : c_trunc (inject_Z z) = z.
Proof.
  unfold c_trunc. destruct (Qle_bool 0 (inject_Z z));
    [apply Qfloor_Z | apply Qceiling_Z].
Qed.

Lemma c_trunc_below (x : Q) (z : Z) : (x < inject_Z z)%Q -> 0 < z -> c_trunc x < z.
Proof.
  intros Hx Hz. unfold c_trunc. destruct (Qle_bool 0 x) eqn:H0.
  - pose proof (Qfloor_le x) as Hf.
    assert (inject_Z (Qfloor x) < inject_Z z)%Q by lra.
    rewrite <- Zlt_Qlt in H. exact H.
  - apply not_true_iff_false in H0. rewrite Qle_bool_iff in H0.
    assert (Qceiling x <= 0).
    { change 0 with (Qceiling 0). apply Qceiling_resp_le. lra. }
    lia.
Qed.

Section Span.

Variables startTemp maxTemp : Z.
Hypothesis span : startTemp < maxTemp.

Let ramp (c : Q) : Q :=
  (10 + (100 * (c - inject_Z startTemp)) / inject_Z (maxTemp - startTemp))%Q.

Lemma ramp_mono (c c' : Q) : (c <= c')%Q -> (ramp c <= ramp c')%Q.
Proof.
  intros Hc. unfold ramp. apply Qplus_le_r.
  apply Qmult_le_compat_r.
  - lra.
  - apply Qinv_le_0_compat. change 0%Q with (inject_Z 0).
    rewrite <- Zle_Qle. lia.
Qed.

Lemma ramp_start : (ramp (inject_Z startTemp) == 10)%Q.
Proof.
  unfold ramp. field.
  change 0%Q with (inject_Z 0). rewrite inject_Z_injective. lia.
Qed.

Lemma ramp_max : (ramp (inject_Z maxTemp) == 110)%Q.
Proof.
  unfold ramp. unfold Qminus at 1.
  rewrite <- inject_Z_opp, <- inject_Z_plus.
  assert (~ (inject_Z (maxTemp - startTemp) == 0)%Q).
  { change 0%Q with (inject_Z 0). rewrite inject_Z_injective. lia. }
  replace (maxTemp + - startTemp) with (maxTemp - startTemp) by lia.
  field. assumption.
Qed.

Lemma dutyCycleFor_range (c : Q) :
  dutyCycleFor startTemp maxTemp c = 0
  \/ 10 <= dutyCycleFor startTemp maxTemp c <= 100.
Proof.
  unfold dutyCycleFor. fold (ramp c).
  destruct (Z.ltb_spec (c_trunc (ramp c)) 10); simpl; [left; reflexivity |].
  destruct (Z.ltb_spec 100 (c_trunc (ramp c))); right; lia.
Qed.

(** X4.  The duty cycle of the case fan is 0 or between 10 and 100; it is 0
    exactly below [startTemp], 10 at [startTemp], 100 from [maxTemp] on, and
    it never decreases when the temperature rises. *)
Theorem dutyCycleFor_shape (c c' : Q) :
  (dutyCycleFor startTemp maxTemp c = 0
   \/ 10 <= dutyCycleFor startTemp maxTemp c <= 100)
  /\ (dutyCycleFor startTemp maxTemp c = 0 <-> (c < inject_Z startTemp)%Q)
  /\ dutyCycleFor startTemp maxTemp (inject_Z startTemp) = 10
  /\ ((inject_Z maxTemp <= c)%Q -> dutyCycleFor startTemp maxTemp c = 100)
  /\ ((c <= c')%Q ->
      dutyCycleFor startTemp maxTemp c <= dutyCycleFor startTemp maxTemp c').
Proof.
  assert (Hlow : forall x, (x < inject_Z startTemp)%Q -> c_trunc (ramp x) < 10).
  { intros x Hx. apply c_trunc_below; [| lia].
    assert (ramp x < ramp (inject_Z startTemp))%Q; [| rewrite ramp_start in H; exact H].
    unfold ramp. apply Qplus_lt_r. unfold Qdiv.
    apply Qmult_lt_compat_r.
    - apply Qinv_lt_0_compat. change 0%Q with (inject_Z 0).
      rewrite <- Zlt_Qlt. lia.
    - lra. }
  assert (Hhigh : forall x, (inject_Z startTemp <= x)%Q -> 10 <= c_trunc (ramp x)).
  { intros x Hx. rewrite <- (c_trunc_Z 10). apply c_trunc_mono.
    rewrite <- ramp_start. apply ramp_mono. exact Hx. }
  assert (Hmax : forall x, (inject_Z maxTemp <= x)%Q -> 110 <= c_trunc (ramp x)).
  { intros x Hx. rewrite <- (c_trunc_Z 110). apply c_trunc_mono.
    rewrite <- ramp_max. apply ramp_mono. exact Hx. }
  unfold dutyCycleFor. fold (ramp c). fold (ramp c'). fold (ramp (inject_Z startTemp)).
  split; [| split; [| split; [| split]]].
  - destruct (Z.ltb_spec (c_trunc (ramp c)) 10); simpl;
      [left; reflexivity |].
    destruct (Z.ltb_spec 100 (c_trunc (ramp c))); right; lia.
  - split.
    + intros H0. destruct (Qlt_le_dec c (inject_Z startTemp)) as [Hl | Hg];
        [exact Hl | exfalso].
      specialize (Hhigh c Hg).
      destruct (Z.ltb_spec (c_trunc (ramp c)) 10); [lia |].
      destruct (Z.ltb_spec 100 (c_trunc (ramp c))); lia.
    + intros Hl. specialize (Hlow c Hl).
      destruct (Z.ltb_spec (c_trunc (ramp c)) 10); [reflexivity | lia].
  - assert (c_trunc (ramp (inject_Z startTemp)) = 10) as ->.
    { apply Z.le_antisymm.
      - rewrite <- (c_trunc_Z 10). apply c_trunc_mono. rewrite ramp_start.
        apply Qle_refl.
      - apply Hhigh. apply Qle_refl. }
    reflexivity.
  - intros Hg. specialize (Hmax c Hg).
    destruct (Z.ltb_spec (c_trunc (ramp c)) 10); [lia |].
    destruct (Z.ltb_spec 100 (c_trunc (ramp c))); lia.
  - intros Hcc. pose proof (c_trunc_mono _ _ (ramp_mono c c' Hcc)).
    destruct (Z.ltb_spec (c_trunc (ramp c)) 10);
      destruct (Z.ltb_spec (c_trunc (ramp c')) 10); simpl;
      repeat match goal with
        | |- context [100 <? ?x] => destruct (Z.ltb_spec 100 x)
        end; lia.
Qed.

(** X5.  [checkCaseTemp] sets the duty cycle of the case fan whenever the
    sensor is not read as disabled, faulty probe or not, and leaves the fan
    as it is for a disabled sensor, whose cold junction is just as valid. *)
Theorem checkCaseTemp_updates (tempSensor : Sensor) :
  (status (getReading tempSensor) = TH_DISABLED ->
   checkCaseTemp startTemp maxTemp tempSensor = Unchanged)
  /\ (status (getReading tempSensor) <> TH_DISABLED ->
      exists c, coldReference (getReading tempSensor) = Fin c
                /\ checkCaseTemp startTemp maxTemp tempSensor
                   = SetDutyCycle (dutyCycleFor startTemp maxTemp c)
                /\ (dutyCycleFor startTemp maxTemp c = 0
                    \/ 10 <= dutyCycleFor startTemp maxTemp c <= 100)).
Proof using span.
  destruct (coldReference_defined tempSensor) as [c Hc].
  unfold checkCaseTemp. split.
  - intros ->. reflexivity.
  - intros Hnd. exists c. rewrite Hc.
    destruct (status (getReading tempSensor)); simpl; try congruence;
      (split; [reflexivity |]); (split; [reflexivity |]);
      apply dutyCycleFor_range.
Qed.

End Span.

End CaseFan.

Lemma dutyCycleFor_shape_witness :
  40 < 80
  /\ CaseTemperatureMonitor.dutyCycleFor 40 80 60
     <= CaseTemperatureMonitor.dutyCycleFor 40 80 70.
Proof.
  split; [lia |].
  apply (dutyCycleFor_shape 40 80 ltac:(lia) 60 70). vm_compute. discriminate.
Defined.

Lemma checkCaseTemp_updates_witness :
  40 < 80
  /\ CaseTemperatureMonitor.checkCaseTemp 40 80 (sensor_reading 60 false)
     = CaseTemperatureMonitor.Unchanged.
Proof.
  split; [lia |].
  apply (checkCaseTemp_updates 40 80 ltac:(lia) (sensor_reading 60 false)).
  vm_compute. reflexivity.
Defined.


(** ** More on the data point of dataPoint.h *)

Section DataPointFacts.

Import Max31855.

Lemma getStatus_setStatus_witness :
  DataPoint.getStatus (DataPoint.setStatus one_enabled_at_100 2 TH_SHORT_VCC) 2
  = code TH_SHORT_VCC.
Proof.
  apply (getStatus_setStatus one_enabled_at_100 2 2 TH_SHORT_VCC);
    unfold DataPoint.NUM_THERMOCOUPLES; lia.
Defined.

Lemma testbit_15 (n : Z) : Z.testbit 15 n = (0 <=? n) && (n <? 4).
Proof.
  change 15 with (Z.ones 4).
  destruct (Z.leb_spec 0 n); [| apply Z.testbit_neg_r; lia].
  destruct (Z.ltb_spec n 4).
  - apply Z.ones_spec_low. lia.
  - apply Z.ones_spec_high. lia.
Qed.

Lemma State_code_bits (s : State) (n : Z) :
  4 <= n -> Z.testbit (State_code s) n = false.
Proof.
  intros Hn.
  destruct (Z.eq_dec (State_code s) 0) as [-> | Hnz]; [apply Z.bits_0 |].
  apply Z.bits_above_log2.
  - destruct s; simpl; lia.
  - assert (Z.log2 (State_code s) < 4); [| lia].
    apply Z.log2_lt_pow2; destruct s; simpl in *; lia.
Qed.

(** X6.  The state and the four statuses share [fState_status] without
    disturbing one another: the state written is the state read, writing the
    state keeps every status, and writing a status keeps the state. *)
Theorem state_and_status_fields (p : DataPoint.t) (s : State)
        (st : ThermocoupleStatus) (i : nat) :
  (i < DataPoint.NUM_THERMOCOUPLES)%nat ->
  DataPoint.getState (DataPoint.setState p s) = State_code s
  /\ DataPoint.getStatus (DataPoint.setState p s) i = DataPoint.getStatus p i
  /\ DataPoint.getState (DataPoint.setStatus p i st) = DataPoint.getState p.
Proof.
  unfold DataPoint.NUM_THERMOCOUPLES. intros Hi.
  unfold DataPoint.getState, DataPoint.setState, DataPoint.getStatus,
    DataPoint.setStatus, DataPoint.shift_of, DataPoint.STATE_MASK,
    DataPoint.THERMO_STATUS_WIDTH, DataPoint.THERMO_STATUS_OFFSET,
    DataPoint.THERMO_STATUS_MASK.
  simpl DataPoint.fState_status.
  change (Z.shiftl 1 3 - 1) with 7. change 65536 with (2 ^ 16).
  split; [| split]; apply Z.bits_inj'; intros n Hn.
  - rewrite Z.land_spec, testbit_15.
    destruct (Z.leb_spec 0 n); [| lia]. simpl.
    destruct (Z.ltb_spec n 4).
    + rewrite andb_true_r, Z.mod_pow2_bits_low by lia.
      rewrite Z.lor_spec, !Z.land_spec, Z.lnot_spec, testbit_15 by lia.
      destruct (Z.leb_spec 0 n); [| lia]. destruct (Z.ltb_spec n 4); [| lia].
      simpl. rewrite andb_false_r, andb_true_r. reflexivity.
    + rewrite andb_false_r. symmetry. apply State_code_bits. lia.
  - rewrite !field_bits by lia.
    destruct (Z.ltb_spec n 3); simpl; [| reflexivity].
    rewrite Z.mod_pow2_bits_low by lia.
    rewrite Z.lor_spec, !Z.land_spec, Z.lnot_spec, !testbit_15 by lia.
    destruct (Z.leb_spec 0 (n + (3 * Z.of_nat i + 4))); [| lia].
    destruct (Z.ltb_spec (n + (3 * Z.of_nat i + 4)) 4); [lia |].
    simpl. rewrite andb_false_r, andb_true_r, orb_false_r. reflexivity.
  - rewrite !Z.land_spec, testbit_15.
    destruct (Z.leb_spec 0 n); [| lia]. simpl.
    destruct (Z.ltb_spec n 4); [| rewrite !andb_false_r; reflexivity].
    rewrite !andb_true_r, Z.mod_pow2_bits_low by lia.
    rewrite Z.lor_spec, Z.land_spec, Z.lnot_spec, !Z.shiftl_spec by lia.
    rewrite !(Z.testbit_neg_r _ (n - (3 * Z.of_nat i + 4))) by lia.
    simpl. rewrite andb_true_r, orb_false_r. reflexivity.
Qed.

Lemma state_and_status_fields_witness :
  DataPoint.getState (DataPoint.setState one_enabled_at_100 s_soak)
  = State_code s_soak
  /\ DataPoint.getStatus (DataPoint.setState one_enabled_at_100 s_soak) 1
     = DataPoint.getStatus one_enabled_at_100 1
  /\ DataPoint.getState (DataPoint.setStatus one_enabled_at_100 1 TH_OPEN)
     = DataPoint.getState one_enabled_at_100.
Proof.
  apply (state_and_status_fields one_enabled_at_100 s_soak TH_OPEN 1).
  unfold DataPoint.NUM_THERMOCOUPLES. lia.
Defined.


(** *** Rounding to binary32 *)

Lemma round_even_error (y : Q) :
  (y - (1 # 2) <= inject_Z (round_even y))%Q
  /\ (inject_Z (round_even y) <= y + (1 # 2))%Q.
Proof.
  unfold round_even.
  pose proof (Qfloor_le y) as Hlo. pose proof (Qlt_floor y) as Hhi.
  rewrite inject_Z_plus in Hhi. change (inject_Z 1) with 1%Q in Hhi.
  destruct (Qle_bool (y - inject_Z (Qfloor y)) (1 # 2)) eqn:H1.
  - apply Qle_bool_iff in H1.
    destruct (Qle_bool (1 # 2) (y - inject_Z (Qfloor y))) eqn:H2.
    + apply Qle_bool_iff in H2.
      destruct (Z.even (Qfloor y)); [split; lra |].
      rewrite inject_Z_plus. change (inject_Z 1) with 1%Q. split; lra.
    + split; lra.
  - assert (H1' : ~ (y - inject_Z (Qfloor y) <= 1 # 2)%Q)
      by (rewrite <- Qle_bool_iff, H1; discriminate).
    apply Qnot_le_lt in H1'.
    rewrite inject_Z_plus. change (inject_Z 1) with 1%Q. split; lra.
Qed.

Lemma round_even_integer (y : Q) (n : Z) :
  (y == inject_Z n)%Q -> round_even y = n.
Proof.
  intros Hy. unfold round_even.
  assert (Hf : Qfloor y = n) by (rewrite Hy; apply Qfloor_Z).
  rewrite Hf.
  assert (H1 : Qle_bool (y - inject_Z n) (1 # 2) = true)
    by (apply Qle_bool_iff; lra).
  rewrite H1.
  destruct (Qle_bool (1 # 2) (y - inject_Z n)) eqn:H2; [| reflexivity].
  apply Qle_bool_iff in H2. lra.
Qed.

Lemma round_even_nonneg (y : Q) : (0 <= y)%Q -> 0 <= round_even y.
Proof.
  intros Hy. assert (Hf : 0 <= Qfloor y).
  { change 0 with (Qfloor 0). apply Qfloor_resp_le. exact Hy. }
  unfold round_even.
  destruct (Qle_bool _ _); [destruct (Qle_bool _ _); [destruct (Z.even _) |] |];
    lia.
Qed.

Lemma round_even_le (y : Q) (n : Z) : (y <= inject_Z n)%Q -> round_even y <= n.
Proof.
  intros Hy.
  destruct (Qlt_le_dec y (inject_Z n)) as [Hlt | Hge].
  - assert (Hf : Qfloor y <= n).
    { rewrite <- (Qfloor_Z n). apply Qfloor_resp_le. exact Hy. }
    assert (Hf' : Qfloor y <> n).
    { intros E. pose proof (Qfloor_le y) as H. rewrite E in H. lra. }
    unfold round_even.
    destruct (Qle_bool _ _); [destruct (Qle_bool _ _); [destruct (Z.even _) |] |];
      lia.
  - rewrite (round_even_integer y n); [lia | lra].
Qed.

(** Below 65536 the exponent is at most 15. *)
Lemma binade_below_65536 (x : Q) :
  (0 <= x)%Q -> (x <= 65535)%Q -> -126 <= binade x <= 15.
Proof.
  intros H0 H1. unfold binade.
  assert (Ha : (Qabs x <= 65535)%Q) by (rewrite Qabs_pos; assumption).
  destruct (Qle_bool 1 (Qabs x)) eqn:Hb.
  - assert (Hf : Qfloor (Qabs x) <= 65535).
    { change 65535 with (Qfloor 65535). apply Qfloor_resp_le. exact Ha. }
    pose proof (Z.log2_le_mono _ _ Hf) as Hl.
    change (Z.log2 65535) with 15 in Hl. lia.
  - pose proof (Z.log2_up_nonneg (Qceiling (/ Qabs x))). lia.
Qed.

(** Below 65536 the spacing of binary32 is at most 2^-8: rounding moves a
    value by 2^-9 at most, and not out of the range of a [uint16_t]. *)
Lemma fl32_below_65536 (x : Q) :
  (0 <= x)%Q -> (x <= 65535)%Q ->
  (x - (1 # 512) <= fl32 x)%Q /\ (fl32 x <= x + (1 # 512))%Q
  /\ (0 <= fl32 x)%Q /\ (fl32 x <= 65535)%Q.
Proof.
  intros H0 H1. destruct (binade_below_65536 x H0 H1) as [Hlo Hhi].
  unfold fl32. set (e := binade x) in *. unfold pow2.
  destruct (Z.leb_spec 0 (e - 23)); [lia |].
  set (M := 2 ^ (- (e - 23))).
  assert (HM : 256 <= M).
  { unfold M. change 256 with (2 ^ 8). apply Z.pow_le_mono_r; lia. }
  assert (Hm : (256 <= inject_Z M)%Q)
    by (change 256%Q with (inject_Z 256); rewrite <- Zle_Qle; exact HM).
  set (m := inject_Z M) in *.
  assert (Hy : (x / (1 / m) == x * m)%Q) by (field; lra).
  assert (Hxm : (0 <= x * m)%Q) by (apply Qmult_le_0_compat; lra).
  assert (Hxm' : (x * m <= 65535 * m)%Q) by (apply Qmult_le_compat_r; lra).
  set (y := (x / (1 / m))%Q) in *.
  destruct (round_even_error y) as [Ra Rb].
  assert (Rn : 0 <= round_even y) by (apply round_even_nonneg; lra).
  assert (Ru : round_even y <= 65535 * M).
  { apply round_even_le. rewrite inject_Z_mult. fold m.
    change (inject_Z 65535) with 65535%Q. lra. }
  rewrite Zle_Qle in Rn, Ru. rewrite inject_Z_mult in Ru. fold m in Ru.
  change (inject_Z 0) with 0%Q in Rn. change (inject_Z 65535) with 65535%Q in Ru.
  set (r := inject_Z (round_even y)) in *.
  assert (Hu : (r * (1 / m) == r / m)%Q) by (field; lra).
  rewrite Hu.
  assert (Hhalf : ((1 # 2) / m <= 1 # 512)%Q).
  { apply Qle_shift_div_r; lra. }
  assert (Hdiv : forall a b : Q, (a <= b * m -> a / m <= b)%Q).
  { intros a b Hab. apply Qle_shift_div_r; lra. }
  assert (Hdiv' : forall a b : Q, (a * m <= b -> a <= b / m)%Q).
  { intros a b Hab. apply Qle_shift_div_l; lra. }
  repeat apply conj.
  - apply Qle_trans with (x - (1 # 2) / m)%Q; [lra |].
    apply Hdiv'.
    assert ((x - (1 # 2) / m) * m == x * m - (1 # 2))%Q by (field; lra).
    lra.
  - apply Qle_trans with (x + (1 # 2) / m)%Q; [| lra].
    apply Hdiv.
    assert ((x + (1 # 2) / m) * m == x * m + (1 # 2))%Q by (field; lra).
    lra.
  - apply Hdiv'. lra.
  - apply Hdiv. lra.
Qed.

(** [fl32] is the rounding of the binary32 operations of the standard
    library: the product 1.005f*100.0f, which is 100.5 although the factor
    is below 1.005; the product of the number next to 200.015 and 100; the
    quotient 1/3; the sum 50 + 2^-20, which is 50. *)
Lemma fl32_is_binary32 :
  let third := binary32_div (binary32_of_Z 1) (binary32_of_Z 3) in
  let x1 := binary32_div (binary32_of_Z 1005) (binary32_of_Z 1000) in
  let x2 := binary32_div (binary32_of_Z 13108183) (binary32_of_Z 65536) in
  let tiny := binary32_div (binary32_of_Z 1) (binary32_of_Z 1048576) in
  (binary32_value third == fl32 (1 # 3))%Q
  /\ (binary32_value x1 == fl32 (1005 # 1000))%Q
  /\ (binary32_value (binary32_mul x1 (binary32_of_Z 100))
      == fl32 (fl32 (1005 # 1000) * 100))%Q
  /\ (fl32 (fl32 (1005 # 1000) * 100) == 201 # 2)%Q
  /\ (binary32_value (binary32_mul x2 (binary32_of_Z 100))
      == fl32 ((13108183 # 65536) * 100))%Q
  /\ (fl32 ((13108183 # 65536) * 100) == 40003 # 2)%Q
  /\ (binary32_value (binary32_add (binary32_of_Z 50) tiny)
      == fl32 (50 + (1 # 1048576)))%Q
  /\ (fl32 (50 + (1 # 1048576)) == 50)%Q.
Proof. vm_compute. repeat split. Qed.

(** Rounding to hundredths. *)
Lemma c_round_error (x : Q) :
  (0 <= x)%Q ->
  (x - (1 # 2) < inject_Z (c_round x))%Q /\ (inject_Z (c_round x) <= x + (1 # 2))%Q.
Proof.
  intros Hx. unfold c_round.
  apply Qle_bool_iff in Hx. rewrite Hx.
  pose proof (Qfloor_le (x + (1 # 2))). pose proof (Qlt_floor (x + (1 # 2))) as Hlt.
  rewrite inject_Z_plus in Hlt. change (inject_Z 1) with 1%Q in Hlt.
  split; lra.
Qed.

Lemma to_uint16_in_range (x : Q) :
  (0 <= x)%Q -> (x <= 65535)%Q ->
  to_uint16 (Fin x) = c_round x /\ 0 <= c_round x <= 65535.
Proof.
  intros H0 H1. destruct (c_round_error x H0) as [Hlo Hhi].
  assert (0 <= c_round x <= 65535) as Hr.
  { split.
    - assert (inject_Z (-1) < inject_Z (c_round x))%Q as H
          by (change (inject_Z (-1)) with (-1)%Q; lra).
      rewrite <- Zlt_Qlt in H. lia.
    - assert (inject_Z (c_round x) < inject_Z 65536)%Q as H
          by (change (inject_Z 65536) with 65536%Q; lra).
      rewrite <- Zlt_Qlt in H. lia. }
  split; [| exact Hr]. simpl. apply Z.mod_small. lia.
Qed.

Lemma nth_insert_eq (l : list Z) (i : nat) (v : Z) :
  (i < length l)%nat -> nth i (<[i := v]> l) 0 = v.
Proof.
  intros Hi. rewrite nth_lookup, list_lookup_insert_eq by exact Hi. reflexivity.
Qed.

Lemma nth_insert_ne (l : list Z) (i j : nat) (v : Z) :
  i <> j -> nth j (<[i := v]> l) 0 = nth j l 0.
Proof.
  intros Hij. rewrite !nth_lookup, list_lookup_insert_ne by exact Hij. reflexivity.
Qed.

(** What is stored for a temperature [q]: [round] of the binary32 product
    [q*100.0f]. *)
Lemma hundredths_error (q : Q) :
  (0 <= q)%Q -> (q <= 65535 # 100)%Q ->
  let c := to_uint16 (Fin (fl32 (q * 100))) in
  (q * 100 - (257 # 512) <= inject_Z c)%Q
  /\ (inject_Z c <= q * 100 + (257 # 512))%Q
  /\ (q - (51 # 10000) <= inject_Z c / 100)%Q
  /\ (inject_Z c / 100 <= q + (51 # 10000))%Q
  /\ (forall k : Z, (q == inject_Z k / 100)%Q -> c = k).
Proof.
  intros H0 H1 c.
  assert (Hx0 : (0 <= q * 100)%Q) by lra.
  assert (Hx1 : (q * 100 <= 65535)%Q) by lra.
  destruct (fl32_below_65536 _ Hx0 Hx1) as (Fa & Fb & Fc & Fd).
  destruct (to_uint16_in_range _ Fc Fd) as [Hto _].
  destruct (c_round_error _ Fc) as [Hlo Hhi].
  unfold c. rewrite Hto. clear c Hto.
  set (c := c_round (fl32 (q * 100))) in *.
  unfold Qdiv. change (/ 100)%Q with (1 # 100)%Q.
  repeat apply conj; try lra.
  intros k Hk.
  assert (Hk' : (q * 100 == inject_Z k)%Q) by lra.
  assert (Hl : (inject_Z (k - 1) < inject_Z c)%Q)
    by (unfold Z.sub; rewrite inject_Z_plus;
        change (inject_Z (- (1))) with (-1)%Q; lra).
  assert (Hu : (inject_Z c < inject_Z (k + 1))%Q)
    by (rewrite inject_Z_plus; change (inject_Z 1) with 1%Q; lra).
  rewrite <- Zlt_Qlt in Hl, Hu. lia.
Qed.

(** X7.  A temperature between 0 and 655.35 degrees that is written to a
    channel is stored as the number of hundredths that [round] makes of the
    binary32 product [temperature*100.0f]: a number within 1/2 + 2^-9 of a
    hundred times the temperature.  It is read back to within 0.0051
    degrees (which leaves room for the rounding of the quotient that reads
    it back), and exactly when it is a whole number of hundredths; the
    other channels and all the statuses are kept. *)
Theorem temperature_round_trip (p : DataPoint.t) (i : nat) (q : Q) :
  (i < length (DataPoint.fThermocouples p))%nat ->
  (0 <= q)%Q -> (q <= 65535 # 100)%Q ->
  let p' := DataPoint.setTemperature p i (Fin q) in
  (q * 100 - (257 # 512) <= inject_Z (DataPoint.raw p' i))%Q
  /\ (inject_Z (DataPoint.raw p' i) <= q * 100 + (257 # 512))%Q
  /\ (q - (51 # 10000) <= DataPoint.getTemperature p' i)%Q
  /\ (DataPoint.getTemperature p' i <= q + (51 # 10000))%Q
  /\ (forall k : Z, (q == inject_Z k / 100)%Q ->
                    (DataPoint.getTemperature p' i == q)%Q)
  /\ (forall j, j <> i ->
                DataPoint.getTemperature p' j = DataPoint.getTemperature p j)
  /\ (forall j, DataPoint.getStatus p' j = DataPoint.getStatus p j).
Proof.
  intros Hi H0 H1 p'.
  destruct (hundredths_error q H0 H1) as (Ha & Hb & Hc & Hd & Hk).
  assert (Hraw : DataPoint.raw p' i = to_uint16 (Fin (fl32 (q * 100)))).
  { unfold p', DataPoint.raw, DataPoint.setTemperature,
      DataPoint.FIXED_POINT_SCALE.
    simpl DataPoint.fThermocouples. rewrite nth_insert_eq by exact Hi.
    reflexivity. }
  unfold DataPoint.getTemperature, DataPoint.FIXED_POINT_SCALE.
  rewrite Hraw.
  split; [exact Ha |]. split; [exact Hb |].
  split; [exact Hc |]. split; [exact Hd |]. split; [| split].
  - intros k Hq. rewrite (Hk k Hq). rewrite Hq. reflexivity.
  - intros j Hj. unfold p', DataPoint.raw, DataPoint.setTemperature.
    simpl DataPoint.fThermocouples.
    rewrite nth_insert_ne by congruence. reflexivity.
  - intros j. reflexivity.
Qed.

Lemma temperature_round_trip_witness :
  (DataPoint.getTemperature
     (DataPoint.setTemperature DataPoint.init 2 (Fin (12345 # 1000))) 2
   <= (12345 # 1000) + (51 # 10000))%Q.
Proof.
  apply (temperature_round_trip DataPoint.init 2 (12345 # 1000)).
  - simpl. lia.
  - vm_compute. discriminate.
  - vm_compute. discriminate.
Defined.

(** The rounding of the product shows in what is stored: 1.005f is below
    1.005, yet a hundred times it is 100.5 in binary32 and 101 is stored;
    the number next to 200.015 is stored as 20002 and read back more than
    half a hundredth away. *)
Lemma setTemperature_rounds_the_product :
  DataPoint.raw
    (DataPoint.setTemperature DataPoint.init 0 (Fin (fl32 (1005 # 1000)))) 0
  = 101
  /\ (fl32 (1005 # 1000) < 1005 # 1000)%Q
  /\ DataPoint.raw
       (DataPoint.setTemperature DataPoint.init 0 (Fin (13108183 # 65536))) 0
     = 20002
  /\ ((13108183 # 65536) + (1 # 200) < 20002 # 100)%Q.
Proof. vm_compute. repeat split. Qed.

(** X8.  What [setThermocouplePoint] records is what [getThermocouplePoint]
    returns: the four statuses as they were given, and every temperature
    between 0 and 655.35 degrees to within 0.0051 degrees (half a hundredth
    from [round], and the rounding of the binary32 product and quotient). *)
Theorem thermocouple_point_round_trip (p : DataPoint.t) (temps : list cfloat)
        (statuses : list ThermocoupleStatus) :
  length (DataPoint.fThermocouples p) = DataPoint.NUM_THERMOCOUPLES ->
  let p' := DataPoint.setThermocouplePoint p temps statuses in
  snd (DataPoint.getThermocouplePoint p')
  = map (fun j => code (nth j statuses TH_ENABLED)) (seq 0 DataPoint.NUM_THERMOCOUPLES)
  /\ length (fst (DataPoint.getThermocouplePoint p')) = DataPoint.NUM_THERMOCOUPLES
  /\ (forall j q,
         (j < DataPoint.NUM_THERMOCOUPLES)%nat ->
         nth j temps NaN = Fin q -> (0 <= q)%Q -> (q <= 65535 # 100)%Q ->
         (q - (51 # 10000) <= nth j (fst (DataPoint.getThermocouplePoint p')) 0)%Q
         /\ (nth j (fst (DataPoint.getThermocouplePoint p')) 0
             <= q + (51 # 10000))%Q).
Proof.
  intros Hlen p'. split; [| split].
  - unfold DataPoint.getThermocouplePoint. simpl. unfold p'.
    rewrite !getStatus_setThermocouplePoint
      by (unfold DataPoint.NUM_THERMOCOUPLES; lia).
    reflexivity.
  - reflexivity.
  - intros j q Hj Hq H0 H1.
    assert (Hraw : DataPoint.raw p' j = to_uint16 (Fin (fl32 (q * 100)))).
    { unfold p', DataPoint.raw, DataPoint.setThermocouplePoint.
      destruct p as [fs fh ff ft th]. simpl in Hlen.
      destruct th as [| a [| b [| c [| d [| x th]]]]]; try discriminate.
      unfold DataPoint.NUM_THERMOCOUPLES in Hj.
      destruct j as [| [| [| [| j]]]]; try lia; simpl; simpl in Hq;
        rewrite Hq; reflexivity. }
    assert (Hget : nth j (fst (DataPoint.getThermocouplePoint p')) 0%Q
                   = (inject_Z (to_uint16 (Fin (fl32 (q * 100)))) / 100)%Q).
    { unfold DataPoint.getThermocouplePoint. simpl fst.
      unfold DataPoint.NUM_THERMOCOUPLES in *.
      rewrite <- Hraw.
      destruct j as [| [| [| [| j]]]]; try lia; reflexivity. }
    rewrite Hget.
    destruct (hundredths_error q H0 H1) as (_ & _ & Hc & Hd & _).
    split; assumption.
Qed.

Lemma thermocouple_point_round_trip_witness :
  snd (DataPoint.getThermocouplePoint one_enabled_at_100)
  = map code [TH_DISABLED; TH_ENABLED; TH_OPEN; TH_DISABLED].
Proof.
  apply (thermocouple_point_round_trip DataPoint.init). reflexivity.
Defined.

Lemma hundredths_le (a b : Z) : a <= b -> (inject_Z a / 100 <= inject_Z b / 100)%Q.
Proof.
  intros Hab. unfold Qdiv. change (/ 100)%Q with (1 # 100)%Q.
  rewrite Zle_Qle in Hab. lra.
Qed.

Lemma largest_of_five (t a b c d : Z) :
  let m := fold_left (fun max x => if max <? x then x else max) [a; b; c; d] t in
  (t <= m /\ a <= m /\ b <= m /\ c <= m /\ d <= m)
  /\ (m = t \/ m = a \/ m = b \/ m = c \/ m = d).
Proof.
  cbv zeta. simpl. rewrite !lastValid_max. lia.
Qed.

(** X9.  [maximum] is the largest of the recorded target and the four recorded
    temperatures. *)
Theorem maximum_is_largest (p : DataPoint.t) :
  (DataPoint.getTargetTemperature p <= DataPoint.maximum p)%Q
  /\ (forall j, (j < DataPoint.NUM_THERMOCOUPLES)%nat ->
                (DataPoint.getTemperature p j <= DataPoint.maximum p)%Q)
  /\ (DataPoint.maximum p = DataPoint.getTargetTemperature p
      \/ exists j, (j < DataPoint.NUM_THERMOCOUPLES)%nat
                   /\ DataPoint.maximum p = DataPoint.getTemperature p j).
Proof.
  pose proof (largest_of_five (DataPoint.fTargetTemp p) (DataPoint.raw p 0)
                (DataPoint.raw p 1) (DataPoint.raw p 2) (DataPoint.raw p 3))
    as [(Ht & H0 & H1 & H2 & H3) Hone].
  unfold DataPoint.maximum, DataPoint.getTargetTemperature,
    DataPoint.getTemperature, DataPoint.NUM_THERMOCOUPLES,
    DataPoint.FIXED_POINT_SCALE.
  change (fold_left _ (seq 0 4) (DataPoint.fTargetTemp p))
    with (fold_left (fun max x => if max <? x then x else max)
                    [DataPoint.raw p 0; DataPoint.raw p 1;
                     DataPoint.raw p 2; DataPoint.raw p 3]
                    (DataPoint.fTargetTemp p)).
  split; [| split].
  - apply hundredths_le. exact Ht.
  - intros j Hj. apply hundredths_le.
    destruct j as [| [| [| [| j]]]]; try lia; assumption.
  - destruct Hone as [-> | [-> | [-> | [-> | ->]]]];
      first [ left; reflexivity
            | right; exists 0%nat; split; [lia | reflexivity]
            | right; exists 1%nat; split; [lia | reflexivity]
            | right; exists 2%nat; split; [lia | reflexivity]
            | right; exists 3%nat; split; [lia | reflexivity] ].
Qed.

End DataPointFacts.


(** ** More on the plot store *)

Section PlotSequences.

Import RunProfile.

Lemma MAX_PROFILE_TIME_540 : MAX_PROFILE_TIME = 540.
Proof. reflexivity. Qed.

(** One operation at a time index that is not negative, on a plot of the
    right size. *)
Lemma plotOp_step (op : PlotOp) (p : Plot.t) :
  Plot.sized p -> 0 <= opTime op ->
  exists p',
    plotOp op p = Some p'
    /\ Plot.sized p'
    /\ Plot.lastValid p'
       = (if opTime op <? MAX_PROFILE_TIME
          then Z.max (Plot.lastValid p) (opTime op) else Plot.lastValid p)
    /\ Plot.liveDataPresent p' = Plot.liveDataPresent p || addsLiveData op
    /\ Plot.marker p' = Plot.marker p.
Proof.
  intros Hsz Ht.
  destruct (Z.ltb_spec (opTime op) MAX_PROFILE_TIME) as [Hlt | Hge].
  - destruct (at_index_in_range p (opTime op) Hsz (conj Ht Hlt)) as [point Hpt].
    destruct op as [time temp | time temps active]; simpl in *;
      unfold Plot.addTargetPoint, Plot.addThermocouplePoint;
      (destruct (Z.leb_spec MAX_PROFILE_TIME time) as [Hge | _]; [lia |]);
      rewrite Hpt, lastValid_max; eexists; (split; [reflexivity |]); simpl;
      (split; [unfold Plot.sized; simpl; rewrite length_insert; exact Hsz |]).
    + rewrite orb_false_r. repeat apply conj; reflexivity.
    + destruct (Z.ltb_spec time MAX_PROFILE_TIME); [| lia].
      rewrite orb_true_r. repeat apply conj; reflexivity.
  - exists p.
    destruct op as [time temp | time temps active]; simpl in *;
      unfold Plot.addTargetPoint, Plot.addThermocouplePoint;
      (destruct (Z.leb_spec MAX_PROFILE_TIME time) as [_ | Hlt]; [| lia]).
    + rewrite orb_false_r. repeat apply conj; try reflexivity; exact Hsz.
    + destruct (Z.ltb_spec time MAX_PROFILE_TIME); [lia |].
      rewrite orb_false_r. repeat apply conj; try reflexivity; exact Hsz.
Qed.

Lemma latestTime_cons (op : PlotOp) (ops : list PlotOp) (m : Z) :
  latestTime (op :: ops) m
  = latestTime ops (if opTime op <? MAX_PROFILE_TIME
                    then Z.max m (opTime op) else m).
Proof. reflexivity. Qed.

Lemma latestTime_bounds (ops : list PlotOp) (m : Z) :
  0 <= m < MAX_PROFILE_TIME ->
  Forall (fun op => 0 <= opTime op) ops ->
  m <= latestTime ops m < MAX_PROFILE_TIME.
Proof.
  revert m. induction ops as [| op ops IH]; intros m Hm Hops.
  - unfold latestTime. cbn [fold_left]. lia.
  - apply Forall_cons_iff in Hops. destruct Hops as [Hop Hops].
    rewrite latestTime_cons.
    destruct (Z.ltb_spec (opTime op) MAX_PROFILE_TIME) as [Hlt | Hge].
    + assert (Hm' : 0 <= Z.max m (opTime op) < MAX_PROFILE_TIME) by lia.
      specialize (IH _ Hm' Hops). lia.
    + exact (IH _ Hm Hops).
Qed.

Lemma plotOps_steps (ops : list PlotOp) (p : Plot.t) :
  Plot.sized p ->
  Forall (fun op => 0 <= opTime op) ops ->
  exists p',
    plotOps ops p = Some p'
    /\ Plot.sized p'
    /\ Plot.lastValid p' = latestTime ops (Plot.lastValid p)
    /\ Plot.liveDataPresent p' = Plot.liveDataPresent p || existsb addsLiveData ops
    /\ Plot.marker p' = Plot.marker p.
Proof.
  revert p. induction ops as [| op ops IH]; intros p Hsz Hops.
  - exists p. simpl. rewrite orb_false_r. repeat apply conj; try reflexivity.
    exact Hsz.
  - apply Forall_cons_iff in Hops. destruct Hops as [Hop Hops].
    destruct (plotOp_step op p Hsz Hop) as [p1 [H1 [Hsz1 [Hl1 [Hd1 Hm1]]]]].
    destruct (IH p1 Hsz1 Hops) as [p' [H' [Hsz' [Hl' [Hd' Hm']]]]].
    exists p'. cbn [plotOps existsb]. rewrite H1.
    split; [exact H' |]. split; [exact Hsz' |]. split; [| split].
    + rewrite Hl', Hl1, latestTime_cons. reflexivity.
    + rewrite Hd', Hd1. symmetry. apply orb_assoc.
    + congruence.
Qed.

(** X11.  However many target and thermocouple points are added after a reset, at
    whatever time indices from zero on, no operation leaves the array: the
    plot keeps its 540 entries, the index of the last valid point is the
    largest index below 540 that was added (0 if there is none), so that
    [getLastPoint] always has a point to return, live data is present exactly
    when a set of thermocouple values was added below index 540, and the
    marker stays at 0. *)
Theorem plot_after_reset (p0 : Plot.t) (ops : list PlotOp) :
  Forall (fun op => 0 <= opTime op) ops ->
  exists p,
    plotOps ops (Plot.reset p0) = Some p
    /\ Plot.sized p
    /\ Plot.getLastValid p = latestTime ops 0
    /\ 0 <= Plot.getLastValid p < MAX_PROFILE_TIME
    /\ (exists point, Plot.getLastPoint p = Some point)
    /\ Plot.isLiveDataPresent p = existsb addsLiveData ops
    /\ Plot.getMarker p = 0.
Proof.
  intros Hops.
  destruct (plotOps_steps ops (Plot.reset p0) (reset_sized p0) Hops)
    as [p [Hp [Hsz [Hl [Hd Hm]]]]].
  simpl in Hl, Hd, Hm.
  assert (Hb : 0 <= latestTime ops 0 < MAX_PROFILE_TIME).
  { pose proof (latestTime_bounds ops 0) as Hb.
    rewrite MAX_PROFILE_TIME_540 in *. specialize (Hb ltac:(lia) Hops). lia. }
  exists p. unfold Plot.getLastValid, Plot.getLastPoint, Plot.isLiveDataPresent,
    Plot.getMarker.
  rewrite Hl. repeat apply conj; try assumption; try reflexivity; try lia.
  apply (at_index_in_range p _ Hsz Hb).
Qed.

Lemma at_index_insert_ne (p : Plot.t) (l : Z) (m : Z) (b : bool)
      (time j : Z) (point : DataPoint.t) :
  0 <= time -> j <> time ->
  Plot.at_index {| Plot.data := <[Z.to_nat time := point]> (Plot.data p);
                   Plot.lastValid := l; Plot.marker := m;
                   Plot.liveDataPresent := b |} j
  = Plot.at_index p j.
Proof.
  intros Ht Hj. unfold Plot.at_index. simpl.
  destruct (Z.ltb_spec j 0); [reflexivity |].
  apply list_lookup_insert_ne. lia.
Qed.

Lemma at_index_insert_eq (p : Plot.t) (l : Z) (m : Z) (b : bool)
      (time : Z) (point : DataPoint.t) :
  Plot.sized p -> 0 <= time < MAX_PROFILE_TIME ->
  Plot.at_index {| Plot.data := <[Z.to_nat time := point]> (Plot.data p);
                   Plot.lastValid := l; Plot.marker := m;
                   Plot.liveDataPresent := b |} time
  = Some point.
Proof.
  intros Hsz Ht. unfold Plot.at_index. simpl.
  destruct (Z.ltb_spec time 0); [lia |].
  apply list_lookup_insert_eq. rewrite Hsz. lia.
Qed.

(** X12.  A target temperature between 0 and 655.35 degrees added at an index
    inside the array is stored as [round] of the binary32 product
    [temp*100.0f], within 1/2 + 2^-9 of a hundred times the temperature, and
    is read back from that index to within 0.0051 degrees; the thermocouple
    values, the mask and the state recorded at the index are kept, and so is
    every other point of the plot. *)
Theorem target_point_round_trip (p : Plot.t) (time : Z) (temp : Q) :
  Plot.sized p -> 0 <= time < MAX_PROFILE_TIME ->
  (0 <= temp)%Q -> (temp <= 65535 # 100)%Q ->
  exists p' old new,
    Plot.addTargetPoint p time temp = Some p'
    /\ Plot.getDataPoint p time = Some old
    /\ Plot.getDataPoint p' time = Some new
    /\ (temp * 100 - (257 # 512) <= inject_Z (DataPoint.target new))%Q
    /\ (inject_Z (DataPoint.target new) <= temp * 100 + (257 # 512))%Q
    /\ (temp - (51 # 10000) <= DataPoint.getTarget new)%Q
    /\ (DataPoint.getTarget new <= temp + (51 # 10000))%Q
    /\ DataPoint.thermocouples new = DataPoint.thermocouples old
    /\ DataPoint.activeThermocouples new = DataPoint.activeThermocouples old
    /\ DataPoint.getState new = DataPoint.getState old
    /\ forall j, j <> time -> Plot.getDataPoint p' j = Plot.getDataPoint p j.
Proof.
  intros Hsz Ht H0 H1.
  destruct (at_index_in_range p time Hsz Ht) as [old Hold].
  unfold Plot.addTargetPoint, Plot.getDataPoint.
  destruct (Z.leb_spec MAX_PROFILE_TIME time) as [Hge | _]; [lia |].
  rewrite Hold. eexists. exists old. eexists.
  split; [reflexivity |]. split; [reflexivity |].
  split; [apply (at_index_insert_eq p _ _ _ time _ Hsz Ht) |].
  destruct (hundredths_error temp H0 H1) as (Ha & Hb & Hc & Hd & _).
  unfold DataPoint.getTarget, DataPoint.setTarget, DataPoint.FIXED_POINT_SCALE.
  simpl DataPoint.target.
  split; [exact Ha |]. split; [exact Hb |].
  split; [exact Hc |]. split; [exact Hd |].
  repeat apply conj; try reflexivity.
  intros j Hj. apply at_index_insert_ne; lia.
Qed.

(** X13.  The record of the thermocouples and the record of the target temperature
    do not disturb each other: adding a target point at one index and a set
    of thermocouple values at another (or the same) index gives the same plot
    in either order. *)
Theorem target_and_thermocouple_points_commute (p : Plot.t) (t1 t2 : Z)
        (temp : Q) (temps : list cfloat) (active : Z) :
  Plot.sized p -> 0 <= t1 -> 0 <= t2 ->
  plotOps [AddTargetPoint t1 temp; AddThermocouplePoint t2 temps active] p
  = plotOps [AddThermocouplePoint t2 temps active; AddTargetPoint t1 temp] p.
Proof.
  intros Hsz H1 H2. cbn [plotOps plotOp].
  unfold Plot.addTargetPoint, Plot.addThermocouplePoint.
  destruct (Z.leb_spec MAX_PROFILE_TIME t1) as [Hge1 | Hlt1];
    destruct (Z.leb_spec MAX_PROFILE_TIME t2) as [Hge2 | Hlt2].
  - reflexivity.
  - destruct (Plot.at_index p t2); reflexivity.
  - destruct (Plot.at_index p t1); reflexivity.
  - destruct (at_index_in_range p t1 Hsz (conj H1 Hlt1)) as [pt1 Hpt1].
    destruct (at_index_in_range p t2 Hsz (conj H2 Hlt2)) as [pt2 Hpt2].
    rewrite Hpt1, Hpt2. rewrite !lastValid_max.
    cbn [Plot.lastValid Plot.marker Plot.liveDataPresent].
    destruct (Z.eq_dec t1 t2) as [-> | Hne].
    + rewrite !(at_index_insert_eq p _ _ _ t2 _ Hsz (conj H2 Hlt2)).
      cbn [Plot.data]. rewrite !list_insert_insert_eq.
      assert (pt1 = pt2) as -> by congruence.
      do 2 f_equal; first [reflexivity | lia].
    + rewrite (at_index_insert_ne p _ _ _ t1 t2) by lia.
      rewrite (at_index_insert_ne p _ _ _ t2 t1) by lia.
      rewrite Hpt1, Hpt2. cbn [Plot.data].
      do 2 f_equal; try lia.
      apply list_insert_insert_ne. lia.
Qed.

End PlotSequences.

Lemma plot_after_reset_witness :
  exists p,
    plotOps [AddTargetPoint 1 (53 # 1);
             AddThermocouplePoint 7 [Fin (25 # 1)] 1;
             AddTargetPoint 600 (50 # 1)]
            (RunProfile.Plot.reset
               {| RunProfile.Plot.data := []; RunProfile.Plot.lastValid := 9;
                  RunProfile.Plot.marker := 3;
                  RunProfile.Plot.liveDataPresent := false |})
    = Some p
    /\ RunProfile.Plot.getLastValid p = 7
    /\ RunProfile.Plot.isLiveDataPresent p = true.
Proof.
  destruct (plot_after_reset
              {| RunProfile.Plot.data := []; RunProfile.Plot.lastValid := 9;
                 RunProfile.Plot.marker := 3;
                 RunProfile.Plot.liveDataPresent := false |}
              [AddTargetPoint 1 (53 # 1);
               AddThermocouplePoint 7 [Fin (25 # 1)] 1;
               AddTargetPoint 600 (50 # 1)])
    as [p [Hp [_ [Hl [_ [_ [Hd _]]]]]]].
  - repeat constructor; simpl; lia.
  - exists p. split; [exact Hp |]. split; [exact Hl | exact Hd].
Defined.

Lemma target_point_round_trip_witness :
  exists p' new,
    RunProfile.Plot.addTargetPoint
      (RunProfile.Plot.reset
         {| RunProfile.Plot.data := []; RunProfile.Plot.lastValid := 0;
            RunProfile.Plot.marker := 0;
            RunProfile.Plot.liveDataPresent := false |}) 3 (1234567 # 10000)
    = Some p'
    /\ RunProfile.Plot.getDataPoint p' 3 = Some new
    /\ (RunProfile.DataPoint.getTarget new
        <= (1234567 # 10000) + (51 # 10000))%Q.
Proof.
  destruct (target_point_round_trip
              (RunProfile.Plot.reset
                 {| RunProfile.Plot.data := []; RunProfile.Plot.lastValid := 0;
                    RunProfile.Plot.marker := 0;
                    RunProfile.Plot.liveDataPresent := false |})
              3 (1234567 # 10000))
    as [p' [old [new [Hadd [_ [Hnew [_ [_ [_ [Hhi _]]]]]]]]]].
  - apply reset_sized.
  - unfold RunProfile.MAX_PROFILE_TIME. lia.
  - unfold Qle. simpl. lia.
  - unfold Qle. simpl. lia.
  - exists p', new. split; [exact Hadd |]. split; [exact Hnew | exact Hhi].
Defined.

Lemma target_and_thermocouple_points_commute_witness :
  let p := RunProfile.Plot.reset
             {| RunProfile.Plot.data := []; RunProfile.Plot.lastValid := 0;
                RunProfile.Plot.marker := 0;
                RunProfile.Plot.liveDataPresent := false |} in
  plotOps [AddTargetPoint 4 (60 # 1); AddThermocouplePoint 4 [Fin (25 # 1)] 1] p
  = plotOps [AddThermocouplePoint 4 [Fin (25 # 1)] 1; AddTargetPoint 4 (60 # 1)] p.
Proof.
  intros p.
  apply (target_and_thermocouple_points_commute p 4 4 (60 # 1) [Fin (25 # 1)] 1).
  - apply reset_sized.
  - lia.
  - lia.
Defined.


(** ** The loop of the preview *)

Section PreviewLoop.

Import RunProfile.

Variable arith : FieldArith.
Variable profile : NvSolderProfile.

Lemma run_front (d : Draw.t) (n : nat) :
  Draw.run arith profile d (S n)
  = Draw.run arith profile (Draw.calculate arith profile d) n.
Proof.
  induction n as [| n IH]; [reflexivity |].
  change (Draw.run arith profile d (S (S n)))
    with (Draw.calculate arith profile (Draw.run arith profile d (S n))).
  rewrite IH. reflexivity.
Qed.

Lemma calculate_time (d : Draw.t) :
  Draw.time (Draw.calculate arith profile d) = Draw.time d + 1.
Proof.
  unfold Draw.calculate.
  destruct (Draw.state d); try reflexivity;
    repeat match goal with
      | |- context [if ?c then _ else _] => destruct c
      end; reflexivity.
Qed.

(** The preview is in state Off only with its set-point at or below 50
    degrees, unless it was started there. *)
Lemma calculate_off (d : Draw.t) :
  (Draw.state d = s_off -> (Draw.setpoint d <= 50)%Q) ->
  Draw.state (Draw.calculate arith profile d) = s_off ->
  (Draw.setpoint (Draw.calculate arith profile d) <= 50)%Q.
Proof.
  intros Hinv. unfold Draw.calculate.
  destruct (Draw.state d) eqn:Hs; cbn; try discriminate.
  - intros _. apply Hinv. reflexivity.
  - destruct (Qltb _ _); cbn; discriminate.
  - destruct (_ <=? _); discriminate.
  - destruct (Qltb _ _); cbn; discriminate.
  - destruct (_ <? _); discriminate.
  - destruct (Qgtb (Draw.setpoint d) 50) eqn:Hg; cbn; [discriminate |].
    intros _. apply Qgtb_le in Hg. exact Hg.
Qed.

(** The preview only writes the target temperature of the points it adds:
    what a point records of the thermocouples is kept. *)
Lemma addTargetPoint_frame (p p' : Plot.t) (time : Z) (temp : Q) :
  Plot.sized p -> 0 <= time ->
  Plot.addTargetPoint p time temp = Some p' ->
  Plot.sized p'
  /\ Plot.liveDataPresent p' = Plot.liveDataPresent p
  /\ Plot.marker p' = Plot.marker p
  /\ Plot.lastValid p <= Plot.lastValid p'
  /\ forall j,
       option_map DataPoint.thermocouples (Plot.getDataPoint p' j)
       = option_map DataPoint.thermocouples (Plot.getDataPoint p j)
       /\ option_map DataPoint.activeThermocouples (Plot.getDataPoint p' j)
          = option_map DataPoint.activeThermocouples (Plot.getDataPoint p j).
Proof.
  intros Hsz Ht. unfold Plot.addTargetPoint.
  destruct (Z.leb_spec MAX_PROFILE_TIME time) as [Hge | Hlt].
  - intros [= <-]. repeat apply conj; try reflexivity; try exact Hsz; try lia.
    intros j. split; reflexivity.
  - destruct (Plot.at_index p time) as [point |] eqn:Hpt; [| discriminate].
    rewrite lastValid_max. intros [= <-]. cbn.
    split; [unfold Plot.sized; cbn; rewrite length_insert; exact Hsz |].
    split; [reflexivity |]. split; [reflexivity |]. split; [lia |].
    intros j. unfold Plot.getDataPoint.
    destruct (Z.eq_dec j time) as [-> | Hne].
    + rewrite (at_index_insert_eq p _ _ _ time _ Hsz (conj Ht Hlt)), Hpt.
      split; reflexivity.
    + rewrite (at_index_insert_ne p _ _ _ time j _ Ht Hne). split; reflexivity.
Qed.



(** The loop ends as soon as the preview is in state Off. *)
Lemma plot_loop_ends (n : nat) (d : Draw.t) (p : Plot.t) :
  Plot.sized p -> 0 <= Draw.time d ->
  (Draw.state d = s_off -> (Draw.setpoint d <= 50)%Q) ->
  Draw.state (Draw.run arith profile d n) = s_off ->
  exists d' p',
    Draw.plot_loop arith profile (S n) d p = Some (true, d', p')
    /\ Draw.state d' = s_off /\ (Draw.setpoint d' <= 50)%Q.
Proof.
  revert d p. induction n as [| n IH]; intros d p Hsz Ht Hinv Hoff.
  - cbn in Hoff. exists d, p.
    split; [cbn [Draw.plot_loop]; rewrite Hoff; reflexivity |].
    split; [exact Hoff | exact (Hinv Hoff)].
  - cbn [Draw.plot_loop].
    destruct (State_eqb (Draw.state d) s_off) eqn:Hs.
    + assert (Hd : Draw.state d = s_off)
        by (destruct (Draw.state d); cbn in Hs; congruence).
      exists d, p. repeat apply conj; [reflexivity | exact Hd | exact (Hinv Hd)].
    + assert (Ht' : 0 <= Draw.time (Draw.calculate arith profile d))
        by (rewrite calculate_time; lia).
      destruct (Plot.addTargetPoint p (Draw.time (Draw.calculate arith profile d))
                                    (Draw.setpoint (Draw.calculate arith profile d)))
        as [p1 |] eqn:Hadd.
      * destruct (addTargetPoint_frame _ _ _ _ Hsz Ht' Hadd) as [Hsz1 _].
        rewrite run_front in Hoff.
        exact (IH (Draw.calculate arith profile d) p1 Hsz1 Ht'
                  (calculate_off d Hinv) Hoff).
      * exfalso. unfold Plot.addTargetPoint in Hadd.
        destruct (_ <=? _) eqn:Hle; [discriminate |].
        apply Z.leb_gt in Hle.
        destruct (at_index_in_range p _ Hsz (conj Ht' Hle)) as [pt Hpt].
        rewrite Hpt in Hadd. discriminate.
Qed.

(** *** Every phase of the preview ends *)

Lemma inject_Z_S (k : nat) :
  (inject_Z (Z.of_nat (S k)) == inject_Z (Z.of_nat k) + 1)%Q.
Proof.
  rewrite Nat2Z.inj_succ. unfold Z.succ. rewrite inject_Z_plus. reflexivity.
Qed.

Lemma steps_suffice (a r : Q) :
  (0 < r)%Q -> exists k : nat, (a <= inject_Z (Z.of_nat k) * r)%Q.
Proof.
  intros Hr. exists (Z.to_nat (Qceiling (a / r))).
  assert (H1 : (a / r <= inject_Z (Qceiling (a / r)))%Q) by apply Qle_ceiling.
  assert (H2 : (inject_Z (Qceiling (a / r))
                <= inject_Z (Z.of_nat (Z.to_nat (Qceiling (a / r)))))%Q).
  { rewrite <- Zle_Qle. lia. }
  assert (He : (a == a / r * r)%Q) by (field; lra).
  apply (Qle_trans _ (a / r * r)); [rewrite <- He; apply Qle_refl |].
  apply Qmult_le_compat_r; [exact (Qle_trans _ _ _ H1 H2) | lra].
Qed.

Lemma later (d : Draw.t) (s : State) :
  (exists n,
     Draw.state (Draw.run arith profile (Draw.calculate arith profile d) n)
     = s) ->
  exists n, Draw.state (Draw.run arith profile d n) = s.
Proof. intros [n Hn]. exists (S n). rewrite run_front. exact Hn. Qed.

Lemma preheat_ends (k : nat) (d : Draw.t) :
  (0 < ramp1Slope profile)%Q ->
  Draw.state d = s_preheat ->
  (inject_Z (soakTemp1 profile) - Draw.setpoint d
   <= inject_Z (Z.of_nat k) * ramp1Slope profile)%Q ->
  exists n, Draw.state (Draw.run arith profile d n) = s_soak.
Proof.
  intros Hr. revert d. induction k as [| k IH]; intros d Hs Hk;
    apply later; unfold Draw.calculate at 1; rewrite Hs;
    destruct (Qltb (Draw.setpoint d) (inject_Z (soakTemp1 profile))) eqn:Hq;
    try (exists O; reflexivity); apply Qltb_lt in Hq.
  - change (inject_Z (Z.of_nat 0)) with 0%Q in Hk. lra.
  - apply IH; [reflexivity |]. cbn [Draw.setpoint].
    rewrite inject_Z_S in Hk. lra.
Qed.

Lemma soak_ends (k : nat) (d : Draw.t) :
  Draw.state d = s_soak ->
  Draw.startOfSoakTime d + soakTime profile - Draw.time d <= Z.of_nat k + 1 ->
  exists n, Draw.state (Draw.run arith profile d n) = s_ramp_up.
Proof.
  revert d. induction k as [| k IH]; intros d Hs Hk;
    apply later; unfold Draw.calculate at 1; rewrite Hs;
    destruct (Z.leb_spec (Draw.startOfSoakTime d + soakTime profile)
                         (Draw.time d + 1));
    try (exists O; reflexivity).
  - lia.
  - apply IH; [reflexivity |]. cbn [Draw.startOfSoakTime Draw.time]. lia.
Qed.

Lemma ramp_up_ends (k : nat) (d : Draw.t) :
  (0 < ramp2Slope profile)%Q ->
  Draw.state d = s_ramp_up ->
  (inject_Z (peakTemp profile) - Draw.setpoint d
   <= inject_Z (Z.of_nat k) * ramp2Slope profile)%Q ->
  exists n, Draw.state (Draw.run arith profile d n) = s_dwell.
Proof.
  intros Hr. revert d. induction k as [| k IH]; intros d Hs Hk;
    apply later; unfold Draw.calculate at 1; rewrite Hs;
    destruct (Qltb (Draw.setpoint d) (inject_Z (peakTemp profile))) eqn:Hq;
    try (exists O; reflexivity); apply Qltb_lt in Hq.
  - change (inject_Z (Z.of_nat 0)) with 0%Q in Hk. lra.
  - apply IH; [reflexivity |]. cbn [Draw.setpoint].
    rewrite inject_Z_S in Hk. lra.
Qed.

Lemma dwell_ends (k : nat) (d : Draw.t) :
  Draw.state d = s_dwell ->
  Draw.startOfDwellTime d + peakDwell profile - Draw.time d <= Z.of_nat k ->
  exists n, Draw.state (Draw.run arith profile d n) = s_ramp_down.
Proof.
  revert d. induction k as [| k IH]; intros d Hs Hk;
    apply later; unfold Draw.calculate at 1; rewrite Hs;
    destruct (Z.ltb_spec (Draw.startOfDwellTime d + peakDwell profile)
                         (Draw.time d + 1));
    try (exists O; reflexivity).
  - lia.
  - apply IH; [reflexivity |]. cbn [Draw.startOfDwellTime Draw.time]. lia.
Qed.

Lemma ramp_down_ends (k : nat) (d : Draw.t) :
  (rampDownSlope profile < 0)%Q ->
  Draw.state d = s_ramp_down ->
  (Draw.setpoint d - 50 <= inject_Z (Z.of_nat k) * - rampDownSlope profile)%Q ->
  exists n, Draw.state (Draw.run arith profile d n) = s_off.
Proof.
  intros Hr. revert d. induction k as [| k IH]; intros d Hs Hk;
    apply later; unfold Draw.calculate at 1; rewrite Hs;
    destruct (Qgtb (Draw.setpoint d) 50) eqn:Hq;
    try (exists O; reflexivity); apply Qgtb_gt in Hq.
  - change (inject_Z (Z.of_nat 0)) with 0%Q in Hk. lra.
  - apply IH; [reflexivity |]. cbn [Draw.setpoint].
    rewrite inject_Z_S in Hk. lra.
Qed.

Lemma run_add (d : Draw.t) (n m : nat) :
  Draw.run arith profile d (n + m)
  = Draw.run arith profile (Draw.run arith profile d n) m.
Proof.
  induction m as [| m IH].
  - rewrite Nat.add_0_r. reflexivity.
  - rewrite Nat.add_succ_r. cbn [Draw.run]. rewrite IH. reflexivity.
Qed.

Lemma then_later (d : Draw.t) (n : nat) (s : State) :
  (exists m, Draw.state (Draw.run arith profile (Draw.run arith profile d n) m) = s) ->
  exists m, Draw.state (Draw.run arith profile d m) = s.
Proof. intros [m Hm]. exists (n + m)%nat. rewrite run_add. exact Hm. Qed.

Lemma nat_above (z : Z) : exists k : nat, z <= Z.of_nat k.
Proof. exists (Z.to_nat z). lia. Qed.

Lemma preview_reaches_off (d : Draw.t) :
  (0 < ramp1Slope profile)%Q -> (0 < ramp2Slope profile)%Q ->
  (rampDownSlope profile < 0)%Q ->
  Draw.state d = s_preheat ->
  exists n, Draw.state (Draw.run arith profile d n) = s_off.
Proof.
  intros H1 H2 H3 Hs.
  destruct (steps_suffice (inject_Z (soakTemp1 profile) - Draw.setpoint d) _ H1)
    as [k1 Hk1].
  destruct (preheat_ends k1 d H1 Hs Hk1) as [n1 Hn1].
  apply (then_later d n1). set (d1 := Draw.run arith profile d n1) in *.
  destruct (nat_above (Draw.startOfSoakTime d1 + soakTime profile
                       - Draw.time d1 - 1)) as [k2 Hk2].
  destruct (soak_ends k2 d1 Hn1 ltac:(lia)) as [n2 Hn2].
  apply (then_later d1 n2). set (d2 := Draw.run arith profile d1 n2) in *.
  destruct (steps_suffice (inject_Z (peakTemp profile) - Draw.setpoint d2) _ H2)
    as [k3 Hk3].
  destruct (ramp_up_ends k3 d2 H2 Hn2 Hk3) as [n3 Hn3].
  apply (then_later d2 n3). set (d3 := Draw.run arith profile d2 n3) in *.
  destruct (nat_above (Draw.startOfDwellTime d3 + peakDwell profile
                       - Draw.time d3)) as [k4 Hk4].
  destruct (dwell_ends k4 d3 Hn3 Hk4) as [n4 Hn4].
  apply (then_later d3 n4). set (d4 := Draw.run arith profile d3 n4) in *.
  assert (H3' : (0 < - rampDownSlope profile)%Q) by lra.
  destruct (steps_suffice (Draw.setpoint d4 - 50) _ H3') as [k5 Hk5].
  exact (ramp_down_ends k5 d4 H3 Hn4 Hk5).
Qed.

(** *** A ramp-down slope that is not negative *)




End PreviewLoop.



(** *** Profiles whose preview is exact in binary32 *)

Section ExactPreview.

Import RunProfile.

Lemma sixteenths_spec (q : Q) :
  sixteenths q = true <-> exists k : Z, (q == inject_Z k / 16)%Q.
Proof.
  unfold sixteenths. rewrite Qeq_bool_iff. split.
  - intros H. exists (Qfloor (q * 16)). rewrite <- H. field.
  - intros [k Hk].
    assert (H : (q * 16 == inject_Z k)%Q) by (rewrite Hk; field).
    rewrite H at 2. rewrite Qfloor_Z. exact H.
Qed.

Lemma sixteenths_plus (a b : Q) :
  sixteenths a = true -> sixteenths b = true -> sixteenths (a + b) = true.
Proof.
  rewrite !sixteenths_spec. intros [k Hk] [l Hl]. exists (k + l).
  rewrite Hk, Hl, inject_Z_plus. field.
Qed.

Lemma sixteenths_integer (n : Z) : sixteenths (inject_Z n) = true.
Proof.
  apply sixteenths_spec. exists (16 * n).
  rewrite inject_Z_mult. change (inject_Z 16) with 16%Q. field.
Qed.

(** Below 2^20 a whole number of sixteenths is a binary32 number. *)
Lemma fl32_sixteenths (q : Q) :
  sixteenths q = true -> (-1000000 <= q)%Q -> (q <= 1000000)%Q ->
  (fl32 q == q)%Q.
Proof.
  intros Hg Hlo Hhi. apply sixteenths_spec in Hg. destruct Hg as [k Hk].
  assert (He : -126 <= binade q <= 19).
  { unfold binade.
    assert (Ha : (Qabs q <= 1000000)%Q) by (apply Qabs_Qle_condition; split; lra).
    destruct (Qle_bool 1 (Qabs q)) eqn:Hb.
    - assert (Hf : Qfloor (Qabs q) <= 1000000).
      { change 1000000 with (Qfloor 1000000). apply Qfloor_resp_le. exact Ha. }
      pose proof (Z.log2_le_mono _ _ Hf) as Hl.
      change (Z.log2 1000000) with 19 in Hl. lia.
    - pose proof (Z.log2_up_nonneg (Qceiling (/ Qabs q))). lia. }
  unfold fl32. set (e := binade q) in *. unfold pow2.
  destruct (Z.leb_spec 0 (e - 23)); [lia |].
  replace (- (e - 23)) with (4 + (19 - e)) by lia.
  rewrite Z.pow_add_r by lia. change (2 ^ 4) with 16.
  set (N := 2 ^ (19 - e)).
  assert (HN : 0 < N) by (apply Z.pow_pos_nonneg; lia).
  assert (Hn : (0 < inject_Z N)%Q)
    by (change 0%Q with (inject_Z 0); rewrite <- Zlt_Qlt; exact HN).
  rewrite inject_Z_mult. change (inject_Z 16) with 16%Q.
  set (n := inject_Z N) in *.
  assert (Hy : (q / (1 / (16 * n)) == inject_Z (k * N))%Q).
  { rewrite inject_Z_mult. fold n. rewrite Hk. field. lra. }
  rewrite (round_even_integer _ _ Hy), inject_Z_mult. fold n.
  rewrite Hk. field. lra.
Qed.

Lemma quot_between (elapsed duration delta : Z) :
  0 < duration -> 0 <= elapsed <= duration ->
  Z.min 0 delta <= Z.quot (elapsed * delta) duration <= Z.max 0 delta.
Proof.
  intros Hd He.
  destruct (Z.le_gt_cases 0 delta) as [Hp | Hn].
  - rewrite Z.quot_div_nonneg by nia.
    assert (0 <= elapsed * delta / duration) by (apply Z.div_pos; nia).
    assert (elapsed * delta / duration <= delta).
    { apply Z.div_le_upper_bound; nia. }
    lia.
  - replace (elapsed * delta) with (- (elapsed * - delta)) by lia.
    rewrite Z.quot_opp_l by lia. rewrite Z.quot_div_nonneg by nia.
    assert (0 <= elapsed * - delta / duration) by (apply Z.div_pos; nia).
    assert (elapsed * - delta / duration <= - delta).
    { apply Z.div_le_upper_bound; nia. }
    lia.
Qed.

Variable profile : NvSolderProfile.

Hypothesis exact : exactProfile profile = true.
Hypothesis soak_time : 0 < soakTime profile.
Hypothesis ramp1 : (0 < ramp1Slope profile)%Q.
Hypothesis ramp2 : (0 < ramp2Slope profile)%Q.
Hypothesis ramp_down : (rampDownSlope profile < 0)%Q.

Let invariant (d : Draw.t) : Prop :=
  sixteenths (Draw.setpoint d) = true
  /\ (0 <= Draw.setpoint d)%Q /\ (Draw.setpoint d <= 650)%Q
  /\ (Draw.state d = s_soak ->
      Draw.startOfSoakTime d <= Draw.time d
      < Draw.startOfSoakTime d + soakTime profile).

Lemma exact_fields :
  sixteenths (ramp1Slope profile) = true
  /\ sixteenths (ramp2Slope profile) = true
  /\ sixteenths (rampDownSlope profile) = true
  /\ (ramp1Slope profile <= 50)%Q /\ (ramp2Slope profile <= 50)%Q
  /\ (-50 <= rampDownSlope profile)%Q
  /\ 0 <= soakTemp1 profile <= 600 /\ 0 <= soakTemp2 profile <= 600
  /\ peakTemp profile <= 600.
Proof using exact.
  unfold exactProfile in exact. rewrite !andb_true_iff in exact.
  rewrite !Qle_bool_iff, !Z.leb_le in exact. tauto.
Qed.

Lemma calculate_exact (d : Draw.t) :
  invariant d -> invariant (Draw.calculate IntegerFields profile d).
Proof using exact soak_time ramp1 ramp2 ramp_down.
  destruct exact_fields as (G1 & G2 & G3 & B1 & B2 & B3 & T1 & T2 & T3).
  intros (Hg & Hlo & Hhi & Hsoak). unfold invariant, Draw.calculate.
  destruct (Draw.state d) eqn:Hs; cbn;
    try (repeat apply conj; [assumption | assumption | assumption | discriminate]).
  - (* Preheat *)
    destruct (Qltb (Draw.setpoint d) (inject_Z (soakTemp1 profile))) eqn:Hc; cbn.
    + apply Qltb_lt in Hc.
      assert (inject_Z (soakTemp1 profile) <= 600)%Q
        by (change 600%Q with (inject_Z 600); rewrite <- Zle_Qle; lia).
      repeat apply conj; [apply sixteenths_plus; assumption | lra | lra
                         | discriminate].
    + repeat apply conj; [assumption | assumption | assumption | intros _; lia].
  - (* Soak *)
    specialize (Hsoak eq_refl).
    pose proof (quot_between (Draw.time d + 1 - Draw.startOfSoakTime d)
                  (soakTime profile) (soakTemp2 profile - soakTemp1 profile)
                  soak_time ltac:(lia)) as Hq.
    set (v := soakTemp1 profile + _) in *.
    assert (Hv : 0 <= v <= 600) by (unfold v; lia).
    rewrite Zle_Qle in Hv. rewrite (Zle_Qle v) in Hv.
    change (inject_Z 0) with 0%Q in Hv. change (inject_Z 600) with 600%Q in Hv.
    repeat apply conj.
    + destruct (Qltb _ _); [apply sixteenths_integer | assumption].
    + destruct (Qltb _ _); [lra | assumption].
    + destruct (Qltb _ _); [lra | assumption].
    + destruct (Z.leb_spec (Draw.startOfSoakTime d + soakTime profile)
                           (Draw.time d + 1)); [discriminate | intros _; lia].
  - (* RampUp *)
    destruct (Qltb (Draw.setpoint d) (inject_Z (peakTemp profile))) eqn:Hc; cbn.
    + apply Qltb_lt in Hc.
      assert (inject_Z (peakTemp profile) <= 600)%Q
        by (change 600%Q with (inject_Z 600); rewrite <- Zle_Qle; lia).
      repeat apply conj; [apply sixteenths_plus; assumption | lra | lra
                         | discriminate].
    + repeat apply conj; [assumption | assumption | assumption | discriminate].
  - (* Dwell *)
    repeat apply conj; [assumption | assumption | assumption |].
    destruct (_ <? _); discriminate.
  - (* RampDown *)
    destruct (Qgtb (Draw.setpoint d) 50) eqn:Hc; cbn.
    + apply Qgtb_gt in Hc.
      repeat apply conj; [apply sixteenths_plus; assumption | lra | lra
                         | discriminate].
    + repeat apply conj; [assumption | assumption | assumption | discriminate].
Qed.

Lemma run_exact (d : Draw.t) (n : nat) :
  invariant d -> invariant (Draw.run IntegerFields profile d n).
Proof using exact soak_time ramp1 ramp2 ramp_down.
  intros Hd. induction n as [| n IH]; [exact Hd |].
  cbn [Draw.run]. apply calculate_exact. exact IH.
Qed.

(** Every set-point of the preview is a binary32 number between 0 and 650
    degrees. *)
Lemma preview_set_points_exact (soak0 dwell0 : Z) (n : nat) :
  let d := Draw.run IntegerFields profile (Draw.start soak0 dwell0) n in
  (fl32 (Draw.setpoint d) == Draw.setpoint d)%Q
  /\ (0 <= Draw.setpoint d)%Q /\ (Draw.setpoint d <= 650)%Q.
Proof using exact soak_time ramp1 ramp2 ramp_down.
  destruct (run_exact (Draw.start soak0 dwell0) n) as (Hg & Hlo & Hhi & _).
  { unfold invariant. cbn.
    repeat apply conj; try reflexivity; try discriminate;
      unfold Qle; simpl; lia. }
  cbv zeta. split; [| split; assumption].
  apply fl32_sixteenths; [exact Hg | lra | lra].
Qed.

End ExactPreview.

Section PreviewEnds.

Import RunProfile.

Variable profile : NvSolderProfile.

(** X15.  For a profile with integer temperature and duration fields whose
    slopes are whole numbers of sixteenths of a degree per tick, the ramps
    positive and the ramp down negative, 50 at most in size, with
    temperatures between 0 and 600 degrees and a positive soak time, the
    loop of [Draw::plot] ends: after some number of iterations the preview
    is in state Off with its set-point at or below 50 degrees, and no point
    was added outside the array of the plot.  Every set-point on the way is
    a binary32 number between 0 and 650 degrees, so that no sum of
    [calculate] is rounded, what is said of the exact sums is said of the
    [float] ones, and every target that is recorded fits its field. *)
Theorem preview_terminates (soak0 dwell0 : Z) (p : Plot.t) :
  exactProfile profile = true ->
  (0 < ramp1Slope profile)%Q -> (0 < ramp2Slope profile)%Q ->
  (rampDownSlope profile < 0)%Q ->
  0 < soakTime profile ->
  Plot.sized p ->
  (forall n,
      let d := Draw.run IntegerFields profile (Draw.start soak0 dwell0) n in
      (fl32 (Draw.setpoint d) == Draw.setpoint d)%Q
      /\ (0 <= Draw.setpoint d)%Q /\ (Draw.setpoint d <= 650)%Q)
  /\ exists fuel d p',
       Draw.plot IntegerFields profile fuel soak0 dwell0 p = Some (true, d, p')
       /\ Draw.state d = s_off /\ (Draw.setpoint d <= 50)%Q.
Proof.
  intros He H1 H2 H3 Hs Hsz. split.
  - intros n. apply preview_set_points_exact; assumption.
  - destruct (preview_reaches_off IntegerFields profile (Draw.start soak0 dwell0)
                H1 H2 H3 eq_refl) as [n Hn].
    exists (S n). unfold Draw.plot.
    apply (plot_loop_ends IntegerFields profile n _ p Hsz);
      [cbn; lia | discriminate | exact Hn].
Qed.

End PreviewEnds.

Lemma preview_terminates_witness :
  exists fuel d p',
    RunProfile.Draw.plot IntegerFields profile_100_150_60 fuel 0 0
      (RunProfile.Plot.reset
         {| RunProfile.Plot.data := []; RunProfile.Plot.lastValid := 0;
            RunProfile.Plot.marker := 0;
            RunProfile.Plot.liveDataPresent := false |})
    = Some (true, d, p')
    /\ RunProfile.Draw.state d = s_off.
Proof.
  destruct (preview_terminates profile_100_150_60 0 0
              (RunProfile.Plot.reset
                 {| RunProfile.Plot.data := []; RunProfile.Plot.lastValid := 0;
                    RunProfile.Plot.marker := 0;
                    RunProfile.Plot.liveDataPresent := false |}))
    as [_ [fuel [d [p' [Hrun [Hoff _]]]]]].
  - reflexivity.
  - reflexivity.
  - reflexivity.
  - reflexivity.
  - simpl. lia.
  - apply reset_sized.
  - exists fuel, d, p'. split; [exact Hrun | exact Hoff].
Defined.


(** ** More on the profile executor *)

Section HandlerFacts.

Import RunProfile.

Variable arith : FieldArith.

(** Case analysis on every test of [handler]. *)
Ltac handler_cases e :=
  unfold step, handler; cbn;
  destruct (state e) eqn:Hstate; cbn; unfold reached; cbn;
  repeat match goal with
    | |- context [5 <? ?b] => destruct (Z.ltb_spec 5 b); cbn
    | |- context [Qgtb ?a ?b] =>
        let H := fresh "Hq" in
        destruct (Qgtb a b) eqn:H; [apply Qgtb_gt in H | apply Qgtb_le in H]; cbn
    | |- context [Qltb ?a ?b] =>
        let H := fresh "Hq" in
        destruct (Qltb a b) eqn:H; [apply Qltb_lt in H | apply Qltb_ge in H]; cbn
    | |- context [Qgeb ?a ?b] =>
        let H := fresh "Hq" in
        destruct (Qgeb a b) eqn:H; [apply Qgeb_ge in H | apply Qgeb_lt in H]; cbn
    | |- context [?a <=? ?b] => destruct (Z.leb_spec a b); cbn
    | |- context [?a <? ?b] => destruct (Z.ltb_spec a b); cbn
    end;
  rewrite ?Hstate.

Lemma step_fields (T : Q) (e : Executor) :
  time (step arith T e) = time e + 1
  /\ currentProfile (step arith T e) = currentProfile e
  /\ ambient (step arith T e) = ambient e.
Proof. handler_cases e; repeat apply conj; reflexivity. Qed.

Lemma step_phase (T : Q) (e : Executor) :
  state (step arith T e) = s_fail
  \/ (phase (state e) <= phase (state (step arith T e)) <= phase (state e) + 1
      /\ (phase (state e) = 0 -> state (step arith T e) = state e)).
Proof.
  handler_cases e; first [left; reflexivity | right; cbn; split; [lia | ]];
    first [reflexivity | intros; exfalso; lia | intros; reflexivity].
Qed.

Lemma ticks_fields (temperatures : list Q) (e : Executor) :
  time (ticks arith temperatures e) = time e + Z.of_nat (length temperatures)
  /\ currentProfile (ticks arith temperatures e) = currentProfile e
  /\ ambient (ticks arith temperatures e) = ambient e.
Proof.
  revert e. induction temperatures as [| T rest IH]; intros e; cbn [ticks].
  - cbn. repeat apply conj; try reflexivity. lia.
  - destruct (IH (step arith T e)) as (H1 & H2 & H3).
    destruct (step_fields T e) as (G1 & G2 & G3).
    rewrite H1, H2, H3, G1, G2, G3. cbn [length].
    repeat apply conj; try reflexivity. lia.
Qed.

Lemma fail_stays (temperatures : list Q) (e : Executor) :
  state e = s_fail -> state (ticks arith temperatures e) = s_fail.
Proof.
  revert e. induction temperatures as [| T rest IH]; intros e Hs; cbn [ticks].
  - exact Hs.
  - apply IH. unfold step, handler. cbn. rewrite Hs. exact Hs.
Qed.

(** X17.  The phases of a run are only gone through forwards.  Whatever the
    readings, a tick leaves the executor in the phase it is in, moves it to
    the next one (Preheat, Soak, RampUp, Dwell, RampDown, Complete) or to
    Fail; Off, Fail, Complete and Manual are left by no tick; after any
    number of ticks the executor is in Fail or in a phase that is not earlier
    than the one it was in.  The clock advances by one per tick, and no tick
    changes the profile being run or the ambient temperature. *)
Theorem phases_only_advance (temperatures : list Q) (T : Q) (e : Executor) :
  (state (step arith T e) = s_fail
   \/ phase (state e) <= phase (state (step arith T e)) <= phase (state e) + 1)
  /\ (state e = s_off \/ state e = s_fail \/ state e = s_complete
      \/ state e = s_manual ->
      state (ticks arith temperatures e) = state e)
  /\ (state (ticks arith temperatures e) = s_fail
      \/ phase (state e) <= phase (state (ticks arith temperatures e)))
  /\ time (ticks arith temperatures e) = time e + Z.of_nat (length temperatures)
  /\ currentProfile (ticks arith temperatures e) = currentProfile e
  /\ ambient (ticks arith temperatures e) = ambient e.
Proof.
  split; [| split; [| split]].
  - destruct (step_phase T e) as [H | [H _]]; [left | right]; exact H.
  - revert e. induction temperatures as [| T' rest IH]; intros e Hs; cbn [ticks].
    + reflexivity.
    + assert (Hstep : state (step arith T' e) = state e).
      { unfold step, handler. cbn.
        destruct Hs as [Hs | [Hs | [Hs | Hs]]]; rewrite Hs; cbn; exact Hs. }
      rewrite IH; rewrite Hstep; [reflexivity | exact Hs].
  - revert e. induction temperatures as [| T' rest IH]; intros e; cbn [ticks].
    + right. lia.
    + destruct (step_phase T' e) as [Hf | [Hp _]].
      * left. apply fail_stays. exact Hf.
      * destruct (IH (step arith T' e)) as [Hf | Hp']; [left; exact Hf |].
        right. lia.
  - apply ticks_fields.
Qed.

(** X18.  While a profile runs the handler acts on the oven only through the
    set-point of the PID, and the PID always holds the set-point of the
    executor: a tick outside Fail and Complete either calls
    [pid.setSetpoint] once, with the set-point it leaves in the executor, or
    calls nothing and leaves the set-point as it was. *)
Theorem pid_holds_the_setpoint (T : Q) (e : Executor) :
  state e <> s_fail -> state e <> s_complete ->
  snd (handler arith T e) = [PidSetSetpoint (setpoint (step arith T e))]
  \/ (snd (handler arith T e) = []
      /\ setpoint (step arith T e) = setpoint e).
Proof.
  intros Hnf Hnc. revert Hnf Hnc. handler_cases e; intros Hnf Hnc;
    try congruence;
    first [left; reflexivity | right; split; reflexivity].
Qed.

(** X19.  A tick moves the executor to Fail exactly when a timeout expires: in
    Preheat when the set-point has reached [soakTemp1] and the counter reads
    50 or more, whatever the temperature; in Soak when the set-point has
    reached [soakTemp2], the soak time is over, the counter reads 40 or more
    and the temperature is below [soakTemp2 - 5]; in RampUp when the
    set-point has reached [peakTemp], the counter reads 40 or more and the
    temperature is below [peakTemp - 5].  Dwell and RampDown never fail. *)
Theorem fail_exactly_on_timeout (T : Q) (e : Executor) :
  state e <> s_fail ->
  let profile := currentProfile e in
  state (step arith T e) = s_fail
  <-> (state e = s_preheat
       /\ (inject_Z (soakTemp1 profile) <= setpoint e)%Q
       /\ 50 <= timeout e)
      \/ (state e = s_soak
          /\ (inject_Z (soakTemp2 profile) <= setpoint e)%Q
          /\ startOfSoakTime e + soakTime profile <= time e + 1
          /\ 40 <= timeout e
          /\ (T < inject_Z (soakTemp2 profile - delta))%Q)
      \/ (state e = s_ramp_up
          /\ (inject_Z (peakTemp profile) <= setpoint e)%Q
          /\ 40 <= timeout e
          /\ (T < inject_Z (peakTemp profile - delta))%Q).
Proof.
  intros Hnf profile. subst profile. revert Hnf.
  assert (Hd : forall g : Z, (inject_Z (g - delta) <= inject_Z g)%Q).
  { intros g. rewrite <- Zle_Qle. unfold delta. lia. }
  pose proof (Hd (soakTemp2 (currentProfile e))) as Hd2.
  handler_cases e; intros Hnf; try congruence;
    (split;
     [ intros Hf; try discriminate; try (exfalso; lia);
       first [ left; repeat apply conj; first [reflexivity | assumption | lia | lra]
             | right; left; repeat apply conj;
               first [reflexivity | assumption | lia | lra]
             | right; right; repeat apply conj;
               first [reflexivity | assumption | lia | lra] ]
     | intros [(Hs & Ha & Hb) | [(Hs & Ha & Hb & Hc & He) | (Hs & Ha & Hb & Hc)]];
       try discriminate; try reflexivity; exfalso; first [lia | lra] ]).
Qed.

(** X20.  Complete is entered from RampDown only, and exactly by a reading below
    the ambient temperature taken at the start of the run, wherever the
    set-point stands. *)
Theorem complete_only_below_ambient (T : Q) (e : Executor) :
  state (step arith T e) = s_complete
  <-> state e = s_complete \/ (state e = s_ramp_down /\ (T < ambient e)%Q).
Proof.
  handler_cases e;
    (split;
     [ intros Hf; try discriminate;
       first [ left; reflexivity | right; split; [reflexivity | assumption] ]
     | intros [Hs | [Hs Ha]]; try discriminate; try reflexivity;
       exfalso; lra ]).
Qed.

(** *** Timeouts *)

Section Timeouts.

Variable profile : NvSolderProfile.

Lemma preheat_cold_tick (T : Q) (e : Executor) :
  currentProfile e = profile -> state e = s_preheat ->
  (inject_Z (soakTemp1 profile) <= setpoint e)%Q ->
  (T < inject_Z (soakTemp1 profile - delta))%Q ->
  let e' := step arith T e in
  currentProfile e' = profile
  /\ setpoint e' = setpoint e
  /\ timeout e' = timeout e + 1
  /\ state e' = (if 50 <? timeout e + 1 then s_fail else s_preheat).
Proof.
  intros Hp Hs Hsp HT. unfold step, handler. cbn. rewrite Hs, Hp.
  apply Qltb_ge in Hsp. rewrite Hsp.
  rewrite (reached_below _ _ _ HT). cbn.
  destruct (Z.ltb_spec 50 (timeout e + 1)); cbn; rewrite ?Hs;
    repeat apply conj; first [reflexivity | assumption].
Qed.

Lemma preheat_cold_ticks (temperatures : list Q) (e : Executor) :
  currentProfile e = profile -> state e = s_preheat ->
  (inject_Z (soakTemp1 profile) <= setpoint e)%Q ->
  timeout e <= 50 ->
  Forall (fun T => (T < inject_Z (soakTemp1 profile - delta))%Q) temperatures ->
  state (ticks arith temperatures e)
  = (if 50 <? timeout e + Z.of_nat (length temperatures)
     then s_fail else s_preheat).
Proof.
  revert e. induction temperatures as [| T rest IH];
    intros e Hp Hs Hsp Hto Hall; cbn [ticks length].
  - rewrite Z.add_0_r. destruct (Z.ltb_spec 50 (timeout e)); [lia | exact Hs].
  - apply Forall_cons_iff in Hall. destruct Hall as [HT Hrest].
    destruct (preheat_cold_tick T e Hp Hs Hsp HT) as (Hp' & Hsp' & Hto' & Hs').
    rewrite Nat2Z.inj_succ.
    destruct (Z.ltb_spec 50 (timeout e + 1)) as [Hlast | Hmore].
    + rewrite (fail_stays rest _ Hs').
      destruct (Z.ltb_spec 50 (timeout e + Z.succ (Z.of_nat (length rest))));
        [reflexivity | lia].
    + rewrite IH; rewrite ?Hto', ?Hsp'; try assumption; try lia.
      replace (timeout e + 1 + Z.of_nat (length rest))
        with (timeout e + Z.succ (Z.of_nat (length rest))) by lia.
      reflexivity.
Qed.

(** X21.  Preheat times out after 50 seconds of waiting: once the set-point has
    reached [soakTemp1], readings that stay below [soakTemp1 - 5] leave the
    executor in Preheat as long as the counter, which grows by one per tick,
    is at most 50, and in Fail from the tick on which it passes 50, the 51st
    when it starts from 0. *)
Theorem preheat_timeout (temperatures : list Q) (e : Executor) :
  currentProfile e = profile -> state e = s_preheat ->
  (inject_Z (soakTemp1 profile) <= setpoint e)%Q ->
  timeout e <= 50 ->
  Forall (fun T => (T < inject_Z (soakTemp1 profile - delta))%Q) temperatures ->
  state (ticks arith temperatures e)
  = (if 50 <? timeout e + Z.of_nat (length temperatures)
     then s_fail else s_preheat).
Proof. exact (preheat_cold_ticks temperatures e). Qed.

(** In Preheat the counter is tested after the move to Soak: on the tick on
    which it passes 50 the run fails even when the temperature has just
    reached [soakTemp1]. *)
Theorem preheat_last_tick_fails (T : Q) (e : Executor) :
  state e = s_preheat ->
  (inject_Z (soakTemp1 (currentProfile e)) <= setpoint e)%Q ->
  50 <= timeout e ->
  state (step arith T e) = s_fail.
Proof.
  intros Hs Hsp Hto. unfold step, handler. cbn. rewrite Hs.
  apply Qltb_ge in Hsp. rewrite Hsp.
  destruct (reached T _ _); cbn;
    (destruct (Z.ltb_spec 50 (timeout e + 1)); [reflexivity | lia]).
Qed.

Lemma ramp_up_cold_tick (T : Q) (e : Executor) :
  currentProfile e = profile -> state e = s_ramp_up ->
  (inject_Z (peakTemp profile) <= setpoint e)%Q ->
  (T < inject_Z (peakTemp profile - delta))%Q ->
  let e' := step arith T e in
  currentProfile e' = profile
  /\ setpoint e' = setpoint e
  /\ timeout e' = timeout e + 1
  /\ state e' = (if 40 <? timeout e + 1 then s_fail else s_ramp_up).
Proof.
  intros Hp Hs Hsp HT. unfold step, handler. cbn. rewrite Hs, Hp.
  apply Qltb_ge in Hsp. rewrite Hsp. cbn.
  apply Qgeb_lt in HT. rewrite HT. cbn.
  destruct (Z.ltb_spec 40 (timeout e + 1)); cbn; rewrite ?Hs;
    repeat apply conj; first [reflexivity | assumption].
Qed.

Lemma ramp_up_cold_ticks (temperatures : list Q) (e : Executor) :
  currentProfile e = profile -> state e = s_ramp_up ->
  (inject_Z (peakTemp profile) <= setpoint e)%Q ->
  timeout e <= 40 ->
  Forall (fun T => (T < inject_Z (peakTemp profile - delta))%Q) temperatures ->
  state (ticks arith temperatures e)
  = (if 40 <? timeout e + Z.of_nat (length temperatures)
     then s_fail else s_ramp_up).
Proof.
  revert e. induction temperatures as [| T rest IH];
    intros e Hp Hs Hsp Hto Hall; cbn [ticks length].
  - rewrite Z.add_0_r. destruct (Z.ltb_spec 40 (timeout e)); [lia | exact Hs].
  - apply Forall_cons_iff in Hall. destruct Hall as [HT Hrest].
    destruct (ramp_up_cold_tick T e Hp Hs Hsp HT) as (Hp' & Hsp' & Hto' & Hs').
    rewrite Nat2Z.inj_succ.
    destruct (Z.ltb_spec 40 (timeout e + 1)) as [Hlast | Hmore].
    + rewrite (fail_stays rest _ Hs').
      destruct (Z.ltb_spec 40 (timeout e + Z.succ (Z.of_nat (length rest))));
        [reflexivity | lia].
    + rewrite IH; rewrite ?Hto', ?Hsp'; try assumption; try lia.
      replace (timeout e + 1 + Z.of_nat (length rest))
        with (timeout e + Z.succ (Z.of_nat (length rest))) by lia.
      reflexivity.
Qed.

(** X22.  RampUp times out after 40 seconds of waiting: once the set-point has
    reached [peakTemp], readings that stay below [peakTemp - 5] leave the
    executor in RampUp as long as the counter is at most 40 and in Fail from
    the tick on which it passes 40. *)
Theorem ramp_up_timeout (temperatures : list Q) (e : Executor) :
  currentProfile e = profile -> state e = s_ramp_up ->
  (inject_Z (peakTemp profile) <= setpoint e)%Q ->
  timeout e <= 40 ->
  Forall (fun T => (T < inject_Z (peakTemp profile - delta))%Q) temperatures ->
  state (ticks arith temperatures e)
  = (if 40 <? timeout e + Z.of_nat (length temperatures)
     then s_fail else s_ramp_up).
Proof. exact (ramp_up_cold_ticks temperatures e). Qed.

(** *** Dwell and RampDown *)

Lemma dwell_tick (T : Q) (e : Executor) :
  currentProfile e = profile -> state e = s_dwell ->
  let e' := step arith T e in
  currentProfile e' = profile
  /\ time e' = time e + 1
  /\ startOfDwellTime e' = startOfDwellTime e
  /\ setpoint e' = setpoint e
  /\ state e' = (if startOfDwellTime e + peakDwell profile <? time e + 1
                 then s_ramp_down else s_dwell).
Proof.
  intros Hp Hs. unfold step, handler. cbn. rewrite Hs, Hp. cbn.
  destruct (Z.ltb_spec (startOfDwellTime e + peakDwell profile) (time e + 1));
    cbn; rewrite ?Hs; repeat apply conj; first [reflexivity | assumption].
Qed.

(** X23.  Dwell is left by the clock alone: whatever the readings, the executor
    stays in Dwell with its set-point unchanged until the time is past
    [startOfDwellTime + peakDwell], and the tick that takes the time past it
    moves it to RampDown.  Entered at [startOfDwellTime], Dwell lasts
    [peakDwell + 1] ticks. *)
Theorem dwell_by_the_clock (temperatures : list Q) (e : Executor) :
  currentProfile e = profile -> state e = s_dwell ->
  time e <= startOfDwellTime e + peakDwell profile ->
  let e' := ticks arith temperatures e in
  let remaining := startOfDwellTime e + peakDwell profile - time e in
  (Z.of_nat (length temperatures) <= remaining ->
   state e' = s_dwell /\ setpoint e' = setpoint e)
  /\ (Z.of_nat (length temperatures) = remaining + 1 ->
      state e' = s_ramp_down /\ setpoint e' = setpoint e).
Proof.
  revert e. induction temperatures as [| T rest IH];
    intros e Hp Hs Hrem; cbn [ticks length]; cbv zeta.
  - split; [intros _; split; [exact Hs | reflexivity] | cbn; lia].
  - rewrite Nat2Z.inj_succ.
    destruct (dwell_tick T e Hp Hs) as (Hp' & Ht' & Hd' & Hsp' & Hs').
    destruct (Z.ltb_spec (startOfDwellTime e + peakDwell profile) (time e + 1))
      as [Hlast | Hmore].
    + split; [lia |]. intros Hlen.
      assert (rest = []) as -> by (destruct rest; [reflexivity | cbn in Hlen; lia]).
      cbn [ticks]. split; assumption.
    + specialize (IH (step arith T e) Hp' Hs' ltac:(lia)). cbv zeta in IH.
      rewrite Ht', Hd', Hsp' in IH. destruct IH as [IH1 IH2].
      split; intros Hlen; [apply IH1 | apply IH2]; lia.
Qed.

Lemma ramp_down_tick_floor (T : Q) (e : Executor) :
  currentProfile e = profile ->
  state e = s_ramp_down \/ state e = s_complete ->
  (rampDownSlope profile <= 0)%Q ->
  (ambient e + rampDownSlope profile <= setpoint e)%Q ->
  let e' := step arith T e in
  currentProfile e' = profile
  /\ ambient e' = ambient e
  /\ (state e' = s_ramp_down \/ state e' = s_complete)
  /\ (ambient e + rampDownSlope profile <= setpoint e')%Q
  /\ (setpoint e' <= setpoint e)%Q.
Proof.
  intros Hp Hs Hr Hsp. unfold step, handler. cbn.
  destruct Hs as [Hs | Hs]; rewrite Hs, ?Hp; cbn.
  - destruct (Qgtb (setpoint e) (ambient e)) eqn:Hg;
      [apply Qgtb_gt in Hg | apply Qgtb_le in Hg]; cbn;
      destruct (Qltb T (ambient e)); cbn; rewrite ?Hs;
      repeat apply conj; try reflexivity; try assumption; try lra;
      first [left; reflexivity | right; reflexivity].
  - repeat apply conj; try reflexivity; try assumption; try lra.
    right. exact Hs.
Qed.

(** X24.  In RampDown the set-point comes down by the ramp-down slope per tick
    while it is above the ambient temperature and stands still from then on:
    with a slope that is not positive it never rises and never falls below
    [ambient + rampDownSlope], for as long as the run is followed. *)
Theorem ramp_down_floor (temperatures : list Q) (e : Executor) :
  currentProfile e = profile -> state e = s_ramp_down ->
  (rampDownSlope profile <= 0)%Q ->
  (ambient e + rampDownSlope profile <= setpoint e)%Q ->
  let e' := ticks arith temperatures e in
  (state e' = s_ramp_down \/ state e' = s_complete)
  /\ (ambient e + rampDownSlope profile <= setpoint e')%Q
  /\ (setpoint e' <= setpoint e)%Q.
Proof.
  intros Hp Hs. assert (Hs' : state e = s_ramp_down \/ state e = s_complete)
    by (left; exact Hs). clear Hs. revert e Hp Hs'.
  induction temperatures as [| T rest IH]; intros e Hp Hs Hr Hsp;
    cbn [ticks]; cbv zeta.
  - repeat apply conj; try assumption. lra.
  - destruct (ramp_down_tick_floor T e Hp Hs Hr Hsp)
      as (Hp' & Ha' & Hs' & Hlo & Hhi).
    specialize (IH (step arith T e) Hp' Hs' Hr). cbv zeta in IH.
    rewrite Ha' in IH. destruct (IH Hlo) as (H1 & H2 & H3).
    repeat apply conj; try assumption. lra.
Qed.

End Timeouts.

End HandlerFacts.

Lemma pid_holds_the_setpoint_witness :
  snd (RunProfile.handler IntegerFields 25 (started profile_100_150_60 25))
  = [PidSetSetpoint 28].
Proof.
  destruct (pid_holds_the_setpoint IntegerFields 25 (started profile_100_150_60 25))
    as [H | [H _]].
  - discriminate.
  - discriminate.
  - exact H.
  - discriminate H.
Defined.

Lemma fail_exactly_on_timeout_witness :
  RunProfile.state
    (RunProfile.step IntegerFields 90
       (RunProfile.set_timeout
          (RunProfile.set_setpoint (started profile_100_150_60 25) 100) 50))
  = s_fail.
Proof.
  apply (fail_exactly_on_timeout IntegerFields 90
           (RunProfile.set_timeout
              (RunProfile.set_setpoint (started profile_100_150_60 25) 100) 50)).
  - discriminate.
  - left. split; [reflexivity |]. split; [unfold Qle; simpl; lia | simpl; lia].
Defined.

Lemma preheat_timeout_witness :
  RunProfile.state
    (RunProfile.ticks IntegerFields (repeat (90 : Q) 51)
       (RunProfile.set_setpoint (started profile_100_150_60 25) 100))
  = s_fail.
Proof.
  apply (preheat_timeout IntegerFields profile_100_150_60 (repeat (90 : Q) 51)
           (RunProfile.set_setpoint (started profile_100_150_60 25) 100)).
  - reflexivity.
  - reflexivity.
  - unfold Qle. simpl. lia.
  - simpl. lia.
  - repeat constructor.
Defined.

Lemma preheat_last_tick_fails_witness :
  RunProfile.state
    (RunProfile.step IntegerFields 120
       (RunProfile.set_timeout
          (RunProfile.set_setpoint (started profile_100_150_60 25) 100) 50))
  = s_fail.
Proof.
  apply (preheat_last_tick_fails IntegerFields 120
           (RunProfile.set_timeout
              (RunProfile.set_setpoint (started profile_100_150_60 25) 100) 50)).
  - reflexivity.
  - unfold Qle. simpl. lia.
  - simpl. lia.
Defined.

Lemma ramp_up_timeout_witness :
  RunProfile.state
    (RunProfile.ticks IntegerFields (repeat (200 : Q) 41)
       (RunProfile.set_state
          (RunProfile.set_setpoint (started profile_100_150_60 25) 210)
          s_ramp_up))
  = s_fail.
Proof.
  apply (ramp_up_timeout IntegerFields profile_100_150_60 (repeat (200 : Q) 41)
           (RunProfile.set_state
              (RunProfile.set_setpoint (started profile_100_150_60 25) 210)
              s_ramp_up)).
  - reflexivity.
  - reflexivity.
  - unfold Qle. simpl. lia.
  - simpl. lia.
  - repeat constructor.
Defined.

Lemma dwell_by_the_clock_witness :
  RunProfile.state
    (RunProfile.ticks IntegerFields (repeat (0 : Q) 21)
       (RunProfile.set_state (started profile_100_150_60 25) s_dwell))
  = s_ramp_down.
Proof.
  apply (dwell_by_the_clock IntegerFields profile_100_150_60 (repeat (0 : Q) 21)
           (RunProfile.set_state (started profile_100_150_60 25) s_dwell)).
  - reflexivity.
  - reflexivity.
  - simpl. lia.
  - reflexivity.
Defined.

Lemma ramp_down_floor_witness :
  (22 <= RunProfile.setpoint
           (RunProfile.ticks IntegerFields (repeat (30 : Q) 100)
              (RunProfile.set_state
                 (RunProfile.set_setpoint (started profile_100_150_60 25) 210)
                 s_ramp_down)))%Q.
Proof.
  apply (ramp_down_floor IntegerFields profile_100_150_60 (repeat (30 : Q) 100)
           (RunProfile.set_state
              (RunProfile.set_setpoint (started profile_100_150_60 25) 210)
              s_ramp_down)).
  - reflexivity.
  - reflexivity.
  - unfold Qle. simpl. lia.
  - unfold Qle. simpl. lia.
Defined.


(** ** Manual mode *)

Section ManualMode.

Import RunProfile.

(** What the manual mode may ask of the oven: a fan duty cycle between 0 and
    100, a heater duty cycle of 0, a set-point that is a multiple of 5
    between 0 and 255 degrees; it never reports or sounds the buzzer. *)
Let allowed (a : Action) : Prop :=
  match a with
  | SetFanDutycycle percent => 0 <= percent <= 100
  | SetHeaterDutycycle percent => percent = 0
  | PidSetSetpoint value => exists k, 0 <= k <= 51 /\ value = inject_Z (5 * k)
  | Report _ | BuzzerPlay => False
  | PidEnable _ | TimerCreate | TimerStart | TimerStop | TimerDestroy => True
  end.

(** Readings of the collaborators that are themselves allowed values. *)
Let plausible (i : ManualInput) : Prop :=
  0 <= fanDutycycle i <= 100
  /\ exists k, 0 <= k <= 51 /\ pidSetpoint i = inject_Z (5 * k).

Lemma safety_allowed (i : ManualInput) :
  Forall allowed
         (if heaterTimeUp i then [PidEnable false; SetHeaterDutycycle 0] else []).
Proof. destruct (heaterTimeUp i); repeat constructor. Qed.

Lemma setpoint_allowed (k : Z) :
  0 <= k <= 51 -> allowed (PidSetSetpoint (inject_Z (5 * k))).
Proof. intros Hk. exists k. split; [exact Hk | reflexivity]. Qed.

Lemma manualPass_allowed (i : ManualInput) (m : Manual) :
  plausible i -> 0 <= fanSpeed m <= 100 ->
  0 <= fanSpeed (fst (fst (manualPass i m))) <= 100
  /\ Forall allowed (snd (fst (manualPass i m))).
Proof.
  intros [Hfan [k [Hk Hsp]]] Hspeed.
  pose proof (safety_allowed i) as Hsafe.
  unfold manualPass. rewrite Hsp, c_trunc_Z.
  destruct (button i); cbn;
    repeat match goal with
      | |- context [State_eqb ?a ?b] => destruct (State_eqb a b); cbn
      | |- context [?a <? ?b] => destruct (Z.ltb_spec a b); cbn
      end;
    (split; [cbn; lia |]); try exact Hsafe;
    apply Forall_app; (split; [exact Hsafe |]);
    repeat constructor; cbn; try lia.
  - replace (5 * k + 5) with (5 * (k + 1)) by lia. apply setpoint_allowed. lia.
  - replace (5 * k - 5) with (5 * (k - 1)) by lia. apply setpoint_allowed. lia.
  - exists 0. split; [lia | reflexivity].
Qed.

Lemma manualLoop_allowed (inputs : list ManualInput) (m : Manual) :
  Forall plausible inputs -> 0 <= fanSpeed m <= 100 ->
  Forall allowed (snd (manualLoop inputs m)).
Proof.
  revert m. induction inputs as [| i inputs IH]; intros m Hin Hspeed;
    cbn [manualLoop].
  - constructor.
  - apply Forall_cons_iff in Hin. destruct Hin as [Hi Hrest].
    destruct (manualPass_allowed i m Hi Hspeed) as [Hspeed' Htrace].
    destruct (manualPass i m) as [[m' trace] exit]. cbn in Hspeed', Htrace.
    destruct exit; [exact Htrace |].
    specialize (IH m' Hrest Hspeed').
    destruct (manualLoop inputs m') as [m'' rest]. cbn in IH |- *.
    apply Forall_app. split; assumption.
Qed.

(** X25.  Whatever the operator presses, for as long as the manual mode is
    followed: if the fan duty cycle it reads back is between 0 and 100 and
    the set-point it reads back is a multiple of 5 between 0 and 255, as are
    the values it starts from, then every fan duty cycle it sets is between
    0 and 100, every set-point it sets is again a multiple of 5 between 0 and
    255, and the only value it ever writes to the heater is 0. *)
Theorem manualMode_outputs_in_range (sensors : nat -> Max31855.Sensor)
        (inputs : list ManualInput) (state0 : State) :
  Forall (fun i => 0 <= fanDutycycle i <= 100
                   /\ exists k, 0 <= k <= 51 /\ pidSetpoint i = inject_Z (5 * k))
         inputs ->
  Forall (fun a =>
            match a with
            | SetFanDutycycle percent => 0 <= percent <= 100
            | SetHeaterDutycycle percent => percent = 0
            | PidSetSetpoint value =>
                exists k, 0 <= k <= 51 /\ value = inject_Z (5 * k)
            | Report _ | BuzzerPlay => False
            | PidEnable _ | TimerCreate | TimerStart | TimerStop | TimerDestroy =>
                True
            end)
         (snd (manualMode sensors inputs state0)).
Proof.
  intros Hin. unfold manualMode.
  destruct (checkThermocouples sensors); cbn [negb]; [| constructor].
  pose proof (manualLoop_allowed inputs {| manualState := s_off; fanSpeed := 100 |}
                Hin ltac:(cbn; lia)) as Hloop.
  destruct (manualLoop inputs _) as [m trace]. cbn [snd] in *.
  apply Forall_app. split; [| exact Hloop].
  repeat constructor. exists 20. split; [lia | reflexivity].
Qed.

Lemma manualPass_continues (i : ManualInput) (m : Manual) :
  button i <> SW_S ->
  snd (manualPass i m) = false
  /\ (manualState (fst (fst (manualPass i m))) = s_off
      \/ manualState (fst (fst (manualPass i m))) = s_manual
      \/ manualState (fst (fst (manualPass i m))) = manualState m)
  /\ Forall (fun a => a <> TimerStop /\ a <> TimerDestroy)
            (snd (fst (manualPass i m))).
Proof.
  intros Hb. unfold manualPass.
  destruct (button i); try congruence; cbn;
    repeat match goal with
      | |- context [State_eqb ?a ?b] => destruct (State_eqb a b); cbn
      | |- context [?a <? ?b] => destruct (Z.ltb_spec a b); cbn
      end;
    (split; [reflexivity |]);
    (split; [first [left; reflexivity | right; left; reflexivity
                    | right; right; reflexivity] |]);
    destruct (heaterTimeUp i); cbn; repeat constructor; discriminate.
Qed.

Lemma manualLoop_exit (before : list ManualInput) (i : ManualInput)
      (after : list ManualInput) (m : Manual) :
  button i = SW_S ->
  Forall (fun j => button j <> SW_S) before ->
  (manualState m = s_off \/ manualState m = s_manual) ->
  exists m' running,
    manualLoop (before ++ i :: after) m
    = (m',
       running
       ++ (if heaterTimeUp i then [PidEnable false; SetHeaterDutycycle 0] else [])
       ++ [TimerStop; TimerDestroy; PidSetSetpoint 0; PidEnable false;
           SetHeaterDutycycle 0; SetFanDutycycle 0])
    /\ (manualState m' = s_off \/ manualState m' = s_manual)
    /\ Forall (fun a => a <> TimerStop /\ a <> TimerDestroy) running.
Proof.
  intros Hi Hbefore. revert m.
  induction before as [| j before IH]; intros m Hm; cbn [app manualLoop].
  - exists m, []. unfold manualPass. rewrite Hi. cbn.
    split; [reflexivity |]. split; [exact Hm | constructor].
  - apply Forall_cons_iff in Hbefore. destruct Hbefore as [Hj Hrest].
    destruct (manualPass_continues j m Hj) as (Hexit & Hstate & Htrace).
    destruct (manualPass j m) as [[m1 trace1] exit1]. cbn in Hexit, Hstate, Htrace.
    subst exit1.
    assert (Hm1 : manualState m1 = s_off \/ manualState m1 = s_manual).
    { destruct Hstate as [H | [H | H]]; [left; exact H | right; exact H |].
      rewrite H. exact Hm. }
    destruct (IH Hrest m1 Hm1) as (m' & running & Hrun & Hm' & Hok).
    rewrite Hrun. exists m', (trace1 ++ running).
    split; [rewrite <- app_assoc; reflexivity |].
    split; [exact Hm' |]. apply Forall_app. split; assumption.
Qed.

(** X26.  The manual mode is left by S only.  From its start it creates and starts
    the timer, sets the set-point to 100 and disables the PID; at the first
    S, whatever was pressed before, it stops and destroys the timer, sets the
    set-point to 0, disables the PID and sets heater and fan to 0, in this
    order, and reads no further button; no earlier pass touches the timer.
    The global state is left as the last heater toggle set it: Manual when
    the heater was on, Off otherwise. *)
Theorem manualMode_exit (sensors : nat -> Max31855.Sensor)
        (before : list ManualInput) (i : ManualInput) (after : list ManualInput)
        (state0 : State) :
  checkThermocouples sensors = true ->
  button i = SW_S ->
  Forall (fun j => button j <> SW_S) before ->
  exists final running,
    manualMode sensors (before ++ i :: after) state0
    = (final,
       [TimerCreate; TimerStart; PidSetSetpoint 100; PidEnable false]
       ++ running
       ++ (if heaterTimeUp i then [PidEnable false; SetHeaterDutycycle 0] else [])
       ++ [TimerStop; TimerDestroy; PidSetSetpoint 0; PidEnable false;
           SetHeaterDutycycle 0; SetFanDutycycle 0])
    /\ (final = s_off \/ final = s_manual)
    /\ Forall (fun a => a <> TimerStop /\ a <> TimerDestroy) running.
Proof.
  intros Hcheck Hi Hbefore. unfold manualMode. rewrite Hcheck. cbn [negb].
  destruct (manualLoop_exit before i after {| manualState := s_off; fanSpeed := 100 |}
              Hi Hbefore ltac:(left; reflexivity))
    as (m' & running & Hrun & Hm' & Hok).
  rewrite Hrun. exists (manualState m'), running.
  split; [reflexivity |]. split; assumption.
Qed.

(** The safety cut-off is applied on every pass of the loop for which the
    heater time is up, before the button is handled: the pass disables the
    PID and sets the heater to 0, and then does exactly what it would have
    done otherwise.  The cut-off does not end the manual mode and does not
    change the state; a pass that handles the heater toggle while the heater
    is off still ends by enabling the PID. *)
Theorem cut_off_on_every_pass (i : ManualInput) (m : Manual) :
  heaterTimeUp i = true ->
  let i0 := {| button := button i; pidSetpoint := pidSetpoint i;
               fanDutycycle := fanDutycycle i; heaterTimeUp := false |} in
  manualPass i m
  = (fst (fst (manualPass i0 m)),
     [PidEnable false; SetHeaterDutycycle 0] ++ snd (fst (manualPass i0 m)),
     snd (manualPass i0 m))
  /\ (button i = SW_F2 -> manualState m = s_off ->
      manualPass i m
      = ({| manualState := s_manual; fanSpeed := fanSpeed m |},
         [PidEnable false; SetHeaterDutycycle 0; PidEnable true], false)).
Proof.
  intros Hup. cbv zeta. unfold manualPass. cbn. rewrite Hup. split.
  - destruct (button i); cbn;
      repeat match goal with
        | |- context [State_eqb ?a ?b] => destruct (State_eqb a b); cbn
        | |- context [?a <? ?b] => destruct (Z.ltb_spec a b); cbn
        end; reflexivity.
  - intros -> ->. reflexivity.
Qed.

End ManualMode.

Lemma manualMode_outputs_in_range_witness :
  Forall (fun a => match a with
                   | SetFanDutycycle percent => 0 <= percent <= 100
                   | SetHeaterDutycycle percent => percent = 0
                   | PidSetSetpoint value =>
                       exists k, 0 <= k <= 51 /\ value = inject_Z (5 * k)
                   | Report _ | BuzzerPlay => False
                   | PidEnable _ | TimerCreate | TimerStart | TimerStop
                   | TimerDestroy => True
                   end)
         (snd (RunProfile.manualMode (fun _ => sensor_reading 25 true)
                 [{| RunProfile.button := RunProfile.SW_F2;
                     RunProfile.pidSetpoint := inject_Z (5 * 20);
                     RunProfile.fanDutycycle := 0;
                     RunProfile.heaterTimeUp := false |};
                  {| RunProfile.button := RunProfile.SW_F3;
                     RunProfile.pidSetpoint := inject_Z (5 * 20);
                     RunProfile.fanDutycycle := 30;
                     RunProfile.heaterTimeUp := false |}]
                 s_off)).
Proof.
  apply manualMode_outputs_in_range.
  constructor; [| constructor; [| constructor]];
    (split; [simpl; lia | exists 20; split; [lia | reflexivity]]).
Defined.

Lemma manualMode_exit_witness :
  exists final running,
    RunProfile.manualMode (fun _ => sensor_reading 25 true)
      ([{| RunProfile.button := RunProfile.SW_F2;
           RunProfile.pidSetpoint := 100;
           RunProfile.fanDutycycle := 0;
           RunProfile.heaterTimeUp := false |}]
       ++ {| RunProfile.button := RunProfile.SW_S;
             RunProfile.pidSetpoint := 100;
             RunProfile.fanDutycycle := 40;
             RunProfile.heaterTimeUp := false |} :: [])
      s_off
    = (final,
       [TimerCreate; TimerStart; PidSetSetpoint 100; PidEnable false]
       ++ running
       ++ []
       ++ [TimerStop; TimerDestroy; PidSetSetpoint 0; PidEnable false;
           SetHeaterDutycycle 0; SetFanDutycycle 0])
    /\ (final = s_off \/ final = s_manual).
Proof.
  destruct (manualMode_exit (fun _ => sensor_reading 25 true)
              [{| RunProfile.button := RunProfile.SW_F2;
                  RunProfile.pidSetpoint := 100;
                  RunProfile.fanDutycycle := 0;
                  RunProfile.heaterTimeUp := false |}]
              {| RunProfile.button := RunProfile.SW_S;
                 RunProfile.pidSetpoint := 100;
                 RunProfile.fanDutycycle := 40;
                 RunProfile.heaterTimeUp := false |}
              [] s_off)
    as (final & running & Hrun & Hfinal & _).
  - vm_compute. reflexivity.
  - reflexivity.
  - repeat constructor. discriminate.
  - exists final, running. split; [exact Hrun | exact Hfinal].
Defined.

Lemma cut_off_on_every_pass_witness :
  RunProfile.manualPass
    {| RunProfile.button := RunProfile.SW_F2; RunProfile.pidSetpoint := 100;
       RunProfile.fanDutycycle := 0; RunProfile.heaterTimeUp := true |}
    {| RunProfile.manualState := s_off; RunProfile.fanSpeed := 100 |}
  = ({| RunProfile.manualState := s_manual; RunProfile.fanSpeed := 100 |},
     [PidEnable false; SetHeaterDutycycle 0; PidEnable true], false).
Proof.
  apply (cut_off_on_every_pass
           {| RunProfile.button := RunProfile.SW_F2; RunProfile.pidSetpoint := 100;
              RunProfile.fanDutycycle := 0; RunProfile.heaterTimeUp := true |}
           {| RunProfile.manualState := s_off; RunProfile.fanSpeed := 100 |});
    reflexivity.
Defined.

(** ** The log of the manual mode *)

Section Logger.

Import RunProfile.
Import Max31855.

Lemma enabled_reading (s : Sensor) :
  code (status (getReading s)) = 0 ->
  exists q, temperature (getReading s) = Fin q.
Proof.
  pose proof (rawStatus_cases s) as Hcases.
  unfold rawStatus in *. unfold getReading.
  destruct s as [[[[d0 d1] d2] d3] off en]. simpl data in *. simpl snd in *.
  destruct Hcases as [H | [H | [H | [H | [H | [H | [H | H]]]]]]];
    rewrite H; destruct en; simpl; intros Hc; try discriminate; eauto.
Qed.

Let reading (sensors : nat -> Sensor) (t : nat) : Q :=
  match temperature (getReading (sensors t)) with
  | Fin q => q
  | NaN => 0%Q
  end.

Let body (sensors : nat -> Sensor) : Z * cfloat -> nat -> Z * cfloat :=
  fun '(measuredValues, averageTemperature) t =>
    let r := getReading (sensors t) in
    if code (status r) =? 0
    then (measuredValues + 1,
          match averageTemperature, temperature r with
          | Fin a, Fin x => Fin (a + x)%Q
          | _, _ => NaN
          end)
    else (measuredValues, averageTemperature).

Lemma logger_none (sensors : nat -> Sensor) (l : list nat) (acc : Z * cfloat) :
  filter (fun t => code (status (getReading (sensors t))) = 0%Z) l = [] ->
  fold_left (body sensors) l acc = acc.
Proof.
  revert acc. induction l as [| t l IH]; intros acc; [reflexivity |].
  rewrite filter_cons.
  destruct (decide (code (status (getReading (sensors t))) = 0)) as [Hu | Hu];
    [discriminate |].
  intros Hnil. cbn [fold_left]. rewrite <- (IH acc Hnil) at 2. f_equal.
  unfold body. destruct acc as [n a].
  destruct (Z.eqb_spec (code (status (getReading (sensors t)))) 0);
    [contradiction | reflexivity].
Qed.

Lemma logger_sum (sensors : nat -> Sensor) (l : list nat) (n : Z) (a : Q) :
  exists s,
    fold_left (body sensors) l (n, Fin a)
    = (n + Z.of_nat
             (length
                (filter (fun t => code (status (getReading (sensors t))) = 0%Z) l)),
       Fin s)
    /\ (s == a + sumQ (map (reading sensors)
                           (filter (fun t => code (status (getReading (sensors t)))
                                             = 0%Z) l)))%Q.
Proof.
  revert n a. induction l as [| t l IH]; intros n a.
  - exists a. cbn. split; [f_equal; lia | ring].
  - rewrite filter_cons. cbn [fold_left]. unfold body at 2.
    destruct (decide (code (status (getReading (sensors t))) = 0)) as [Hu | Hu].
    + destruct (enabled_reading _ Hu) as [x Hx].
      rewrite Hu, Hx. cbn [Z.eqb].
      destruct (IH (n + 1) (a + x)%Q) as [s [Hs Hsum]].
      exists s. split.
      * rewrite Hs. f_equal. cbn [length]. lia.
      * rewrite Hsum. cbn [map sumQ fold_right]. unfold reading at 2.
        rewrite Hx.
        fold (sumQ (map (reading sensors)
                        (filter (fun t => code (status (getReading (sensors t)))
                                          = 0%Z) l))).
        ring.
    + destruct (Z.eqb_spec (code (status (getReading (sensors t)))) 0);
        [contradiction |].
      exact (IH n a).
Qed.

(** X27.  The average that [logger] prints is the mean of the readings of the
    channels whose status is Enabled, like the fused temperature of the data
    points; unlike it, it is 0 and not NAN when no channel is Enabled.  Each
    call advances the time by one. *)
Theorem logger_average (sensors : nat -> Sensor) (e : Executor) :
  let reading (t : nat) : Q :=
    match temperature (getReading (sensors t)) with
    | Fin q => q
    | NaN => 0%Q
    end in
  let enabled : list nat :=
    filter (fun t => code (status (getReading (sensors t))) = 0) (seq 0 4) in
  time (fst (logger sensors e)) = time e + 1
  /\ (enabled = [] -> snd (logger sensors e) = Fin 0)
  /\ (enabled <> [] ->
      exists q, snd (logger sensors e) = Fin q
                /\ (q == mean (map reading enabled))%Q).
Proof.
  cbv zeta. split.
  { unfold logger. destruct (fold_left _ _ _). reflexivity. }
  unfold logger. fold (body sensors). fold (reading sensors).
  split.
  - intros Hnil. rewrite (logger_none sensors _ _ Hnil). reflexivity.
  - intros Hne. destruct (logger_sum sensors (seq 0 4) 0 0) as [s [Hs Hsum]].
    rewrite Hs. cbn [snd].
    set (enabled := filter _ (seq 0 4)) in *.
    assert (Hlen : 0 < Z.of_nat (length enabled))
      by (destruct enabled; [congruence | cbn [length]; lia]).
    rewrite Z.add_0_l.
    destruct (Z.ltb_spec 0 (Z.of_nat (length enabled))); [| lia].
    eexists. split; [reflexivity |].
    unfold mean. rewrite length_map, Hsum.
    assert (~ (inject_Z (Z.of_nat (length enabled)) == 0)%Q).
    { change 0%Q with (inject_Z 0). rewrite inject_Z_injective. lia. }
    field. assumption.
Qed.

End Logger.


(** ** Copying a profile *)

Section CopyFacts.

Import RunProfile.
Import CopyProfile.

Variable P_UNLOCKED : Z.

(** What a run of the copy menu may have done to [profiles]: nothing, or
    one copy of the source into an unlocked slot other than the source. *)
Let outcome (index : nat) (profiles profiles' : list Slot) : Prop :=
  profiles' = profiles
  \/ exists (destination : nat) (source old : Slot),
       destination <> index
       /\ profiles !! destination = Some old
       /\ unlocked P_UNLOCKED old = true
       /\ profiles !! index = Some source
       /\ profiles' = <[destination :=
                          {| flags := Z.lor (flags source) P_UNLOCKED;
                             contents := contents source |}]> profiles.

Lemma draw_in_bounds (c : t) (profiles : list Slot) :
  (sourceProfileIndex c < length profiles)%nat ->
  (destinationProfileIndex c < length profiles)%nat ->
  draw c profiles = true.
Proof.
  intros Hs Hd. unfold draw.
  destruct (lookup_lt_is_Some_2 profiles _ Hs) as [s ->].
  destruct (lookup_lt_is_Some_2 profiles _ Hd) as [d ->].
  reflexivity.
Qed.

Lemma loop_safe (events : list (SwitchValue * MessageBoxResult)) :
  forall (needsUpdate : bool) (c : t) (profiles : list Slot),
    (sourceProfileIndex c < length profiles)%nat ->
    (destinationProfileIndex c < length profiles)%nat ->
    exists c' profiles',
      loop P_UNLOCKED events needsUpdate c profiles = Some (c', profiles')
      /\ outcome (sourceProfileIndex c) profiles profiles'.
Proof.
  induction events as [| [button rc] events IH];
    intros needsUpdate c profiles Hs Hd; cbn [loop];
    rewrite (draw_in_bounds c profiles Hs Hd); cbn [negb];
    rewrite andb_false_r.
  - exists c, profiles. split; [reflexivity | left; reflexivity].
  - destruct button.
    + exact (IH false c profiles Hs Hd).
    + destruct (Nat.ltb_spec 0 (destinationProfileIndex c)).
      * apply (IH true {| sourceProfileIndex := sourceProfileIndex c;
                          destinationProfileIndex := destinationProfileIndex c - 1 |});
          cbn; [exact Hs | lia].
      * exact (IH false c profiles Hs Hd).
    + destruct (Nat.ltb_spec (destinationProfileIndex c + 1) (length profiles)).
      * apply (IH true {| sourceProfileIndex := sourceProfileIndex c;
                          destinationProfileIndex := destinationProfileIndex c + 1 |});
          cbn; [exact Hs | lia].
      * exact (IH false c profiles Hs Hd).
    + exact (IH false c profiles Hs Hd).
    + unfold copyProfile.
      destruct (lookup_lt_is_Some_2 profiles _ Hd) as [old Hold].
      destruct (lookup_lt_is_Some_2 profiles _ Hs) as [source Hsource].
      rewrite Hold.
      destruct (Nat.eqb_spec (destinationProfileIndex c) (sourceProfileIndex c))
        as [Heq | Hne]; cbn [orb].
      * exact (IH true c profiles Hs Hd).
      * destruct (unlocked P_UNLOCKED old) eqn:Hun; cbn [negb].
        -- destruct rc.
           ++ rewrite Hsource. do 2 eexists. split; [reflexivity |].
              right. exists (destinationProfileIndex c), source, old.
              repeat apply conj; try assumption; reflexivity.
           ++ exact (IH true c profiles Hs Hd).
        -- exact (IH true c profiles Hs Hd).
    + exists c, profiles. split; [reflexivity | left; reflexivity].
Qed.

(** X28.  The copy menu needs more than four slots: its destination starts at
    slot 4, which it reads before any button.  With more than four slots and
    a source inside the array, no sequence of buttons and answers takes it
    outside the array, and all it can do to the stored profiles is one copy:
    the profiles are left as they were, or exactly one slot has changed, a
    slot other than the source that was unlocked, which now holds the
    contents of the source and is unlocked.  The source and every locked
    slot are kept. *)
Theorem copy_run_is_safe (index : nat)
        (events : list (SwitchValue * MessageBoxResult)) (profiles : list Slot) :
  (index < length profiles)%nat ->
  ((length profiles <= 4)%nat -> run P_UNLOCKED index events profiles = None)
  /\ ((4 < length profiles)%nat ->
      exists c' profiles',
        run P_UNLOCKED index events profiles = Some (c', profiles')
        /\ length profiles' = length profiles
        /\ (profiles' = profiles
            \/ exists (destination : nat) (source old : Slot),
                 destination <> index
                 /\ profiles !! destination = Some old
                 /\ unlocked P_UNLOCKED old = true
                 /\ profiles !! index = Some source
                 /\ profiles' = <[destination :=
                                    {| flags := Z.lor (flags source) P_UNLOCKED;
                                       contents := contents source |}]> profiles)
        /\ forall (j : nat) (slot : Slot),
             profiles !! j = Some slot ->
             j = index \/ unlocked P_UNLOCKED slot = false ->
             profiles' !! j = Some slot).
Proof.
  intros Hindex. split.
  - intros Hfew. unfold run.
    assert (Hdraw : draw {| sourceProfileIndex := index;
                            destinationProfileIndex := 4 |} profiles = false).
    { unfold draw. cbn.
      rewrite (lookup_ge_None_2 profiles 4) by lia.
      destruct (profiles !! index); reflexivity. }
    destruct events as [| [button rc] events]; cbn [loop]; rewrite Hdraw;
      reflexivity.
  - intros Hmany. unfold run.
    destruct (loop_safe events true
                {| sourceProfileIndex := index; destinationProfileIndex := 4 |}
                profiles Hindex Hmany) as (c' & profiles' & Hrun & Hout).
    exists c', profiles'. split; [exact Hrun |].
    cbn [sourceProfileIndex] in Hout.
    destruct Hout as [-> | (dst & source & old & Hne & Hold & Hun & Hsrc & ->)].
    + split; [reflexivity |]. split; [left; reflexivity |].
      intros j slot Hj _. exact Hj.
    + split; [apply length_insert |].
      split; [right; exists dst, source, old; repeat apply conj;
              try assumption; reflexivity |].
      intros j slot Hj Hkeep.
      rewrite list_lookup_insert_ne; [exact Hj |].
      intros ->. destruct Hkeep as [-> | Hlocked]; [congruence |].
      rewrite Hold in Hj. injection Hj as ->. congruence.
Qed.

End CopyFacts.

Lemma copy_run_is_safe_witness :
  let slot (f : Z) := {| RunProfile.CopyProfile.flags := f;
                         RunProfile.CopyProfile.contents := profile_100_150_60 |} in
  exists c' profiles',
    RunProfile.CopyProfile.run 1 0
      [(RunProfile.SW_F2, RunProfile.MSG_IS_NO);
       (RunProfile.SW_F4, RunProfile.MSG_IS_YES)]
      [slot 0; slot 0; slot 0; slot 0; slot 1; slot 1]
    = Some (c', profiles')
    /\ profiles' !! 0%nat = Some (slot 0).
Proof.
  intros slot.
  destruct (copy_run_is_safe 1 0
              [(RunProfile.SW_F2, RunProfile.MSG_IS_NO);
               (RunProfile.SW_F4, RunProfile.MSG_IS_YES)]
              [slot 0; slot 0; slot 0; slot 0; slot 1; slot 1])
    as [_ Hsafe].
  - simpl. lia.
  - destruct Hsafe as (c' & profiles' & Hrun & _ & _ & Hkeep); [simpl; lia |].
    exists c', profiles'. split; [exact Hrun |].
    apply Hkeep; [reflexivity | left; reflexivity].
Defined.

(** ** The scales of the display *)

Section ScaleFacts.

Import RunProfile.
Import Scales.

Variable p : Plot.t.
Hypothesis p_sized : Plot.sized p.

Let scan (maxTemperature : option Z) (time : nat) : option Z :=
  match maxTemperature, Plot.getDataPoint p (Z.of_nat time) with
  | Some maxTemperature, Some point =>
      let pointTemp := DataPoint.maximum point in
      Some (if Qgtb pointTemp (inject_Z maxTemperature)
            then c_trunc pointTemp else maxTemperature)
  | _, _ => None
  end.

Lemma scan_step (m : Z) (x : Q) :
  0 <= m ->
  let m' := if Qgtb x (inject_Z m) then c_trunc x else m in
  m <= m' /\ (x < inject_Z (m' + 1))%Q.
Proof.
  intros Hm. cbv zeta.
  destruct (Qgtb x (inject_Z m)) eqn:Hx;
    [apply Qgtb_gt in Hx | apply Qgtb_le in Hx].
  - assert (H0 : (0 <= x)%Q).
    { apply Qlt_le_weak. apply Qle_lt_trans with (inject_Z m); [| exact Hx].
      change 0%Q with (inject_Z 0). rewrite <- Zle_Qle. exact Hm. }
    unfold c_trunc. apply Qle_bool_iff in H0. rewrite H0. split.
    + rewrite <- (Qfloor_Z m). apply Qfloor_resp_le. apply Qlt_le_weak. exact Hx.
    + apply Qlt_floor.
  - split; [lia |].
    apply Qle_lt_trans with (inject_Z m); [exact Hx |].
    rewrite <- Zlt_Qlt. lia.
Qed.

Lemma scan_all (l : list nat) (m : Z) :
  Forall (fun time => (time < length (Plot.data p))%nat) l -> 0 <= m ->
  exists m',
    fold_left scan l (Some m) = Some m'
    /\ m <= m'
    /\ Forall (fun time =>
                 forall point, Plot.getDataPoint p (Z.of_nat time) = Some point ->
                               (DataPoint.maximum point < inject_Z (m' + 1))%Q) l.
Proof.
  revert m. induction l as [| time l IH]; intros m Hl Hm.
  - exists m. cbn. split; [reflexivity |]. split; [lia | constructor].
  - apply Forall_cons_iff in Hl. destruct Hl as [Htime Hl].
    cbn [fold_left]. unfold scan at 2.
    destruct (lookup_lt_is_Some_2 (Plot.data p) time Htime) as [point Hpoint].
    assert (Hget : Plot.getDataPoint p (Z.of_nat time) = Some point).
    { unfold Plot.getDataPoint, Plot.at_index.
      destruct (Z.ltb_spec (Z.of_nat time) 0); [lia |].
      rewrite Nat2Z.id. exact Hpoint. }
    rewrite Hget.
    destruct (scan_step m (DataPoint.maximum point) Hm) as [Hle Hlt].
    cbv zeta in Hle, Hlt.
    set (m1 := if Qgtb (DataPoint.maximum point) (inject_Z m)
               then c_trunc (DataPoint.maximum point) else m) in *.
    destruct (IH m1 Hl ltac:(lia)) as (m' & Hfold & Hle' & Hall).
    exists m'. split; [exact Hfold |]. split; [lia |].
    constructor; [| exact Hall].
    intros point' Hget'. rewrite Hget in Hget'. injection Hget' as <-.
    apply Qlt_le_trans with (inject_Z (m1 + 1)); [exact Hlt |].
    rewrite <- Zle_Qle. lia.
Qed.

(** X29.  On a plot whose last valid index is inside the array, and for a display
    that leaves room for the graph, [calculateScales] reads no point outside
    the array and never gives a scale of zero, by which [plotPoint] and
    [drawAxis] divide: the temperature that fills the height is at least 150
    degrees and above every temperature recorded up to the last valid point,
    and both scales are positive.  After [Plot::reset] they are the smallest
    ones: 150 degrees, 100 degrees over the height and 200 seconds over the
    width. *)
Theorem calculateScales_never_zero (LCD_HEIGHT LCD_WIDTH FONT_HEIGHT : Z) :
  0 <= Plot.getLastValid p < MAX_PROFILE_TIME ->
  0 < LCD_HEIGHT - FONT_HEIGHT - 10 ->
  0 < LCD_WIDTH - 12 - 24 ->
  (exists s,
     calculateScales LCD_HEIGHT LCD_WIDTH FONT_HEIGHT p = Some s
     /\ 150 <= maxTemperature s
     /\ (forall time point,
           0 <= time <= Plot.getLastValid p ->
           Plot.getDataPoint p time = Some point ->
           (DataPoint.maximum point < inject_Z (maxTemperature s + 1))%Q)
     /\ (0 < temperatureScale s)%Q
     /\ (0 < timeScale s)%Q)
  /\ calculateScales LCD_HEIGHT LCD_WIDTH FONT_HEIGHT (Plot.reset p)
     = Some {| maxTemperature := 150;
               timeScale := (inject_Z 200 / inject_Z (LCD_WIDTH - 12 - 24))%Q;
               temperatureScale :=
                 (inject_Z 100 / inject_Z (LCD_HEIGHT - FONT_HEIGHT - 10))%Q |}.
Proof.
  intros Hlast Hh Hw. split.
  - destruct (scan_all (seq 0 (Z.to_nat (Plot.getLastValid p + 1))) 150)
      as (m & Hfold & Hle & Hall).
    { apply Forall_forall. intros time Hin. apply elem_of_seq in Hin.
      rewrite p_sized. unfold MAX_PROFILE_TIME in *. lia. }
    { lia. }
    unfold calculateScales, scanMaximum. fold scan.
    change (Some MIN_SCALE_TEMP) with (Some 150). rewrite Hfold.
    eexists. split; [reflexivity |]. cbn [maxTemperature temperatureScale timeScale].
    split; [exact Hle |]. split; [| split].
    + intros time point Htime Hget.
      rewrite Forall_forall in Hall.
      apply (Hall (Z.to_nat time)).
      * apply elem_of_seq. lia.
      * rewrite Z2Nat.id by lia. exact Hget.
    + apply Qlt_shift_div_l.
      * change 0%Q with (inject_Z 0). rewrite <- Zlt_Qlt. exact Hh.
      * rewrite Qmult_0_l. change 0%Q with (inject_Z 0). rewrite <- Zlt_Qlt.
        unfold MIN_TEMP. lia.
    + apply Qlt_shift_div_l.
      * change 0%Q with (inject_Z 0). rewrite <- Zlt_Qlt. exact Hw.
      * rewrite Qmult_0_l. change 0%Q with (inject_Z 0). rewrite <- Zlt_Qlt.
        unfold MIN_SCALE_TIME.
        destruct (Z.ltb_spec (Plot.getLastValid p) 200); lia.
  - reflexivity.
Qed.

End ScaleFacts.

Lemma calculateScales_never_zero_witness :
  exists s,
    RunProfile.Scales.calculateScales 64 128 8
      (RunProfile.Plot.reset
         {| RunProfile.Plot.data := []; RunProfile.Plot.lastValid := 0;
            RunProfile.Plot.marker := 0;
            RunProfile.Plot.liveDataPresent := false |})
    = Some s
    /\ 150 <= RunProfile.Scales.maxTemperature s.
Proof.
  destruct (calculateScales_never_zero
              (RunProfile.Plot.reset
                 {| RunProfile.Plot.data := []; RunProfile.Plot.lastValid := 0;
                    RunProfile.Plot.marker := 0;
                    RunProfile.Plot.liveDataPresent := false |})
              (reset_sized _) 64 128 8)
    as [(s & Hs & Hmax & _) _].
  - simpl. unfold RunProfile.MAX_PROFILE_TIME. lia.
  - lia.
  - lia.
  - exists s. split; [exact Hs | exact Hmax].
Defined.

(** ** The monitor *)

Section MonitorFacts.

Import RunProfile.
Import Max31855.

(** Two sensors that differ at most in their enabled flag. *)
Let same_probe (s s' : Sensor) : Prop :=
  data s' = data s /\ offset s' = offset s.

Lemma same_probe_reading (s s' : Sensor) :
  same_probe s s' ->
  temperature (getReading s') = temperature (getReading s)
  /\ coldReference (getReading s') = coldReference (getReading s)
  /\ (status (getReading s') = status (getReading s)
      \/ (status (getReading s) = TH_ENABLED
          /\ status (getReading s') = TH_DISABLED)
      \/ (status (getReading s) = TH_DISABLED
          /\ status (getReading s') = TH_ENABLED)).
Proof.
  intros [Hd Ho].
  pose proof (rawStatus_cases s) as Hcases.
  unfold rawStatus in *. unfold getReading.
  destruct s as [[[[d0 d1] d2] d3] off en].
  destruct s' as [[[[d0' d1'] d2'] d3'] off' en'].
  cbn in Hd, Ho. injection Hd as -> -> -> ->. subst off'.
  simpl data in *. simpl snd in *. simpl enabled. simpl offset.
  destruct Hcases as [H | [H | [H | [H | [H | [H | [H | H]]]]]]];
    rewrite H; destruct en, en'; simpl;
    repeat apply conj; try reflexivity;
    first [left; reflexivity
          | right; left; split; reflexivity
          | right; right; split; reflexivity].
Qed.

Lemma monitorLoop_keeps (presses : list (nat * SwitchValue)) :
  forall (sensors : nat -> Sensor) (e : Executor),
    let result := monitorLoop presses sensors e in
    (forall u, same_probe (sensors u) (fst (fst result) u))
    /\ (forall u, (4 <= u)%nat -> fst (fst result) u = sensors u)
    /\ state (snd (fst result)) = state e
    /\ Forall (fun a => exists time, a = Report time) (snd result).
Proof.
  induction presses as [| [seconds button] presses IH]; intros sensors e;
    cbv zeta; cbn [monitorLoop].
  - cbn. split; [intros u; split; reflexivity |].
    split; [reflexivity |]. split; [reflexivity | constructor].
  - assert (Hrep : forall n e0,
               state (fst (reportUntilKey n e0)) = state e0
               /\ Forall (fun a => exists time, a = Report time)
                         (snd (reportUntilKey n e0))).
    { induction n as [| n IHn]; intros e0; cbn [reportUntilKey].
      - split; [reflexivity | constructor].
      - specialize (IHn (set_time e0 (time e0 + 1))).
        destruct (reportUntilKey n (set_time e0 (time e0 + 1))) as [e1 tr].
        cbn in IHn |- *. destruct IHn as [Hs Hf].
        split; [exact Hs |]. constructor; [eexists; reflexivity | exact Hf]. }
    destruct (Hrep seconds e) as [Hstate Hreports].
    destruct (reportUntilKey seconds e) as [e1 reporting].
    cbn in Hstate, Hreports.
    assert (Hcont : forall sensors1 : nat -> Sensor,
               (forall u, same_probe (sensors u) (sensors1 u)) ->
               (forall u, (4 <= u)%nat -> sensors1 u = sensors u) ->
               let result :=
                 (let '(sensors2, e2, trace) := monitorLoop presses sensors1 e1 in
                  (sensors2, e2, reporting ++ trace)) in
               (forall u, same_probe (sensors u) (fst (fst result) u))
               /\ (forall u, (4 <= u)%nat -> fst (fst result) u = sensors u)
               /\ state (snd (fst result)) = state e
               /\ Forall (fun a => exists time, a = Report time) (snd result)).
    { intros sensors1 Hsame Hhigh. cbv zeta.
      specialize (IH sensors1 e1). cbv zeta in IH.
      destruct (monitorLoop presses sensors1 e1) as [[sensors2 e2] trace].
      cbn in IH |- *. destruct IH as (H1 & H2 & H3 & H4).
      repeat apply conj.
      - intros u. destruct (Hsame u) as [Ha Hb]. destruct (H1 u) as [Hc Hd].
        split; congruence.
      - intros u Hu. rewrite H2 by exact Hu. apply Hhigh. exact Hu.
      - congruence.
      - apply Forall_app. split; assumption. }
    assert (Htoggle : forall t : nat,
               (t < 4)%nat ->
               (forall u, same_probe (sensors u)
                            (if (u =? t)%nat
                             then enable (sensors u) (negb (isEnabled (sensors u)))
                             else sensors u))
               /\ (forall u, (4 <= u)%nat ->
                             (if (u =? t)%nat
                              then enable (sensors u) (negb (isEnabled (sensors u)))
                              else sensors u) = sensors u)).
    { intros t Ht. split.
      - intros u. destruct (u =? t)%nat; split; reflexivity.
      - intros u Hu. destruct (Nat.eqb_spec u t); [lia | reflexivity]. }
    destruct button.
    + apply Hcont; [intros u; split; reflexivity | reflexivity].
    + apply Hcont; apply (Htoggle 0%nat); lia.
    + apply Hcont; apply (Htoggle 1%nat); lia.
    + apply Hcont; apply (Htoggle 2%nat); lia.
    + apply Hcont; apply (Htoggle 3%nat); lia.
    + cbn. split; [intros u; split; reflexivity |].
      split; [reflexivity |]. split; assumption.
Qed.

(** X30.  The monitor changes nothing but the enabled flags of the four
    thermocouples.  Whatever is pressed, every channel reads the same probe
    and cold-junction temperatures after it as before, with the same status
    or with Enabled and Disabled exchanged; the state is Off; and the only
    calls it makes are the reports, one a second. *)
Theorem monitor_keeps_readings (presses : list (nat * SwitchValue))
        (sensors : nat -> Sensor) (e : Executor) (u : nat) :
  let result := monitor presses sensors e in
  let before := getReading (sensors u) in
  let after := getReading (fst (fst result) u) in
  temperature after = temperature before
  /\ coldReference after = coldReference before
  /\ (status after = status before
      \/ (status before = TH_ENABLED /\ status after = TH_DISABLED)
      \/ (status before = TH_DISABLED /\ status after = TH_ENABLED))
  /\ ((4 <= u)%nat -> fst (fst result) u = sensors u)
  /\ state (snd (fst result)) = s_off
  /\ Forall (fun a => exists time, a = Report time) (snd result).
Proof.
  cbv zeta. unfold monitor.
  destruct (monitorLoop_keeps presses sensors (set_state (set_time e 0) s_off))
    as (Hsame & Hhigh & Hstate & Hreports).
  cbv zeta in Hsame, Hhigh, Hstate, Hreports.
  destruct (same_probe_reading _ _ (Hsame u)) as (Ht & Hc & Hs).
  repeat apply conj; try assumption.
  apply Hhigh.
Qed.

End MonitorFacts.
